(** * Duo-EM3: dual-tenant PZEM-004T energy monitor

    A shallow embedding of [src/config.py], [src/pzem_handler.py] and the
    acquisition loop of [src/main.py], followed by the properties of the
    specification that are stated about them.

    Conventions of the embedding.
    - A Python [bytes] object is a [list Z] whose elements lie in [0, 256)
      ([is_bytes]); indexing a [bytes] object yields an [int], as in Python.
    - Python [int] is [Z]; the 16-bit CRC register is a [Z] on which the
      source's bit operations are written with [Z.land], [Z.lxor], [Z.shiftr].
    - Python [float] values (volts, amperes, watts, kWh) are idealised as exact
      rationals [Q]; every comparison and arithmetic operation of the source is
      kept, only the rounding of the machine representation is abstracted.
    - The clock [utime.time()] and the bytes that the UART delivers are inputs
      of the functions that read them. *)

From Stdlib Require Import ZArith QArith Qabs List Bool Lia Lqa.
Import ListNotations.

Open Scope Z_scope.

(** ** config.py *)

Module Config.

Definition ENERGY_RATE_GHS : Q := 1824 # 1000.
Definition SENSOR_READ_INTERVAL : Z := 1.

End Config.

(** ** pzem_handler.py *)

Module Pzem.

(** *** Python helpers used by the handler *)

Definition is_byte (b : Z) : bool := (0 <=? b) && (b <? 256).
Definition is_bytes (data : list Z) : bool := forallb is_byte data.

(** [bytearray(iterable)] raises [ValueError] unless every item is in
    [range(256)]. *)
Definition bytearray (items : list Z) : option (list Z) :=
  if is_bytes items then Some items else None.

(** [seq[i:j]] for [0 <= i <= j]. *)
Definition slice {A} (l : list A) (i j : nat) : list A :=
  firstn (j - i) (skipn i l).

(** [seq[:-k]] and [seq[-k]]. *)
Definition drop_last {A} (l : list A) (k : nat) : list A :=
  firstn (length l - k) l.
Definition from_end (l : list Z) (k : nat) : Z :=
  nth (length l - k) l 0.

(** [struct.unpack('>H', b)[0]]: exactly two bytes, big-endian; anything
    else raises [struct.error]. *)
Definition unpack_H (b : list Z) : option Z :=
  match b with
  | [hi; lo] => Some (hi * 256 + lo)
  | _ => None
  end.

Definition Qlt_bool (a b : Q) : bool := negb (Qle_bool b a).

(** Python's two-argument [max] and [min] return the first argument unless
    the second is strictly better. *)
Definition py_max (a b : Q) : Q := if Qlt_bool a b then b else a.
Definition py_min (a b : Q) : Q := if Qlt_bool b a then b else a.

(** *** crc16_modbus *)

(** One pass of the inner [for _ in range(8)] loop. *)
Definition crc_shift (crc : Z) : Z :=
  if negb (Z.land crc 0x0001 =? 0)
  then Z.lxor (Z.shiftr crc 1) 0xA001
  else Z.shiftr crc 1.

(** One pass of the outer [for byte in data] loop. *)
Definition crc_feed (crc byte : Z) : Z :=
  Nat.iter 8 crc_shift (Z.lxor crc byte).

Definition crc16_modbus (data : list Z) : Z :=
  fold_left crc_feed data 0xFFFF.

(** *** build_read_command *)

Definition build_read_command (address : Z) : option (list Z) :=
  match bytearray [address; 0x04; 0x00; 0x00; 0x00; 0x0A] with
  | None => None
  | Some command =>
      let crc := crc16_modbus command in
      Some (command ++ [Z.land crc 0xFF]
                    ++ [Z.land (Z.shiftr crc 8) 0xFF])
  end.

(** *** read_response *)

(** The dictionary that [read_response] returns. *)
Record Reading := mkReading {
  voltage : Q;
  current : Q;
  power : Q;
  energy : Q;
  frequency : Q;
  power_factor : Q;
  timestamp : Z
}.

(** Why [read_response] returns [None]: one constructor per diagnostic that
    the function prints before giving up ([Incomplete] carries the number of
    bytes collected; nothing is printed when it is 0). *)
Inductive FrameError :=
| Incomplete (collected : nat)
| AddressMismatch (got : Z)
| DeviceException (error_code : Z)
| FunctionMismatch (got : Z)
| LengthMismatch (got : Z)
| CrcMismatch (calculated received : Z)
| ParseError.

Inductive ParseResult :=
| Decoded (data : Reading)
| Rejected (why : FrameError).

(** What the Python caller sees. *)
Definition returned (r : ParseResult) : option Reading :=
  match r with
  | Decoded data => Some data
  | Rejected _ => None
  end.

(** [for i in range(0, 20, 2): registers.append(unpack('>H', data_bytes[i:i+2]))] *)
Fixpoint unpack_registers (data_bytes : list Z) (offsets : list nat)
  : option (list Z) :=
  match offsets with
  | [] => Some []
  | i :: rest =>
      match unpack_H (slice data_bytes i (i + 2)) with
      | None => None
      | Some reg =>
          match unpack_registers data_bytes rest with
          | None => None
          | Some registers => Some (reg :: registers)
          end
      end
  end.

Definition range_0_20_2 : list nat := map (fun k => 2 * k)%nat (seq 0 10).

(** The body of the [try] block once the registers are unpacked. *)
Definition extract_measurements (registers : list Z) (now : Z) : Reading :=
  let reg k := nth k registers 0 in
  let voltage := (inject_Z (reg 0%nat) / 10)%Q in
  let current_raw := Z.lor (Z.shiftl (reg 2%nat) 16) (reg 1%nat) in
  let current := (inject_Z current_raw / 1000)%Q in
  let power_raw := Z.lor (Z.shiftl (reg 4%nat) 16) (reg 3%nat) in
  let power := (inject_Z power_raw / 10)%Q in
  let energy_raw := Z.lor (Z.shiftl (reg 6%nat) 16) (reg 5%nat) in
  let energy := inject_Z energy_raw in
  let frequency := (inject_Z (reg 7%nat) / 10)%Q in
  let power_factor_raw := (inject_Z (reg 8%nat) / 100)%Q in
  let power_factor :=
    if Qeq_bool current 0 || Qeq_bool power 0
    then 0%Q
    else py_min (py_max power_factor_raw 0) 1 in
  mkReading voltage current power energy frequency power_factor now.

(** [response] is what the receive loop has collected when it stops (25
    bytes or more, or fewer on timeout); [now] is [utime.time()]. Indexing is
    in range wherever it is evaluated, because of the length test. *)
Definition read_response (response : list Z) (address : Z) (now : Z)
  : ParseResult :=
  if (length response <? 25)%nat then Rejected (Incomplete (length response))
  else if negb (nth 0 response 0 =? address)
  then Rejected (AddressMismatch (nth 0 response 0))
  else if negb (nth 1 response 0 =? 0x04) then
    if nth 1 response 0 =? 0x84
    then Rejected (DeviceException
                     (if (2 <? length response)%nat then nth 2 response 0 else 0))
    else Rejected (FunctionMismatch (nth 1 response 0))
  else if negb (nth 2 response 0 =? 20)
  then Rejected (LengthMismatch (nth 2 response 0))
  else
    let data_for_crc := drop_last response 2 in
    let calculated_crc := crc16_modbus data_for_crc in
    let received_crc :=
      Z.lor (from_end response 2) (Z.shiftl (from_end response 1) 8) in
    if negb (calculated_crc =? received_crc)
    then Rejected (CrcMismatch calculated_crc received_crc)
    else
      match unpack_registers (slice response 3 23) range_0_20_2 with
      | Some registers => Decoded (extract_measurements registers now)
      | None => Rejected ParseError
      end.

(** *** The handler object *)

Record PZEMHandler := mkHandler {
  address_a : Z;
  address_b : Z;
  energy_a : Q;
  energy_b : Q;
  daily_energy_a : Q;
  daily_energy_b : Q;
  last_reading_a : Z;
  last_reading_b : Z
}.

(** [__init__] *)
Definition new_handler : PZEMHandler :=
  mkHandler 0x01 0x02 0 0 0 0 0 0.

(** The dictionary that [read_tenant_a] and [read_tenant_b] return: the
    reading, with [energy] overwritten and two keys added. *)
Record TenantData := mkTenantData {
  td_voltage : Q;
  td_current : Q;
  td_power : Q;
  td_energy : Q;
  td_frequency : Q;
  td_power_factor : Q;
  td_timestamp : Z;
  td_daily_energy : Q;
  td_daily_cost : Q
}.

(** One request/response exchange as the handler observes it: whether the
    UART raised while sending or receiving, the bytes collected, and the two
    clock readings ([read_response]'s time stamp, then the caller's
    [utime.time()]). *)
Record Exchange := mkExchange {
  uart_raises : bool;
  collected : list Z;
  clock_stamp : Z;
  clock_now : Z
}.

Definition set_meter_a (self : PZEMHandler) (e d : Q) (t : Z) : PZEMHandler :=
  mkHandler (address_a self) (address_b self) e (energy_b self)
            d (daily_energy_b self) t (last_reading_b self).

Definition set_meter_b (self : PZEMHandler) (e d : Q) (t : Z) : PZEMHandler :=
  mkHandler (address_a self) (address_b self) (energy_a self) e
            (daily_energy_a self) d (last_reading_a self) t.

(** The "return zeros" dictionary of the [else] and [except] branches. *)
Definition zeros (e d : Q) (now : Z) : TenantData :=
  mkTenantData 0 0 0 e 0 0 now d (d * Config.ENERGY_RATE_GHS)%Q.

Definition read_tenant_a (self : PZEMHandler) (x : Exchange)
  : PZEMHandler * option TenantData :=
  if uart_raises x
  then (self, Some (zeros (energy_a self) (daily_energy_a self) (clock_now x)))
  else
    match returned (read_response (collected x) (address_a self) (clock_stamp x)) with
    | Some data =>
        let current_time := clock_now x in
        let '(e, d) :=
          if 0 <? last_reading_a self then
            let time_diff := current_time - last_reading_a self in
            if (0 <? time_diff) && (time_diff <=? 10) then
              let energy_increment :=
                (power data * inject_Z time_diff / 3600 / 1000)%Q in
              ((energy_a self + energy_increment)%Q,
               (daily_energy_a self + energy_increment)%Q)
            else (energy_a self, daily_energy_a self)
          else (energy_a self, daily_energy_a self) in
        (set_meter_a self e d current_time,
         Some (mkTenantData (voltage data) (current data) (power data) e
                 (frequency data) (power_factor data) (timestamp data)
                 d (d * Config.ENERGY_RATE_GHS)%Q))
    | None =>
        (self, Some (zeros (energy_a self) (daily_energy_a self) (clock_now x)))
    end.

Definition read_tenant_b (self : PZEMHandler) (x : Exchange)
  : PZEMHandler * option TenantData :=
  if uart_raises x
  then (self, Some (zeros (energy_b self) (daily_energy_b self) (clock_now x)))
  else
    match returned (read_response (collected x) (address_b self) (clock_stamp x)) with
    | Some data =>
        let current_time := clock_now x in
        let '(e, d) :=
          if 0 <? last_reading_b self then
            let time_diff := current_time - last_reading_b self in
            if (0 <? time_diff) && (time_diff <=? 10) then
              let energy_increment :=
                (power data * inject_Z time_diff / 3600 / 1000)%Q in
              ((energy_b self + energy_increment)%Q,
               (daily_energy_b self + energy_increment)%Q)
            else (energy_b self, daily_energy_b self)
          else (energy_b self, daily_energy_b self) in
        (set_meter_b self e d current_time,
         Some (mkTenantData (voltage data) (current data) (power data) e
                 (frequency data) (power_factor data) (timestamp data)
                 d (d * Config.ENERGY_RATE_GHS)%Q))
    | None =>
        (self, Some (zeros (energy_b self) (daily_energy_b self) (clock_now x)))
    end.

Definition reset_daily_counters (self : PZEMHandler) : PZEMHandler :=
  mkHandler (address_a self) (address_b self) (energy_a self) (energy_b self)
            0 0 (last_reading_a self) (last_reading_b self).

(** *** set_address *)

(** [reply] is what the UART holds 200 ms after the command was written:
    [None] when [uart.any()] is 0, otherwise the bytes that [uart.read()]
    returns. The result is [None] when [bytearray] raises [ValueError], and
    otherwise the command that was written with the Boolean returned. *)
Definition set_address (old_address new_address : Z)
    (reply : option (list Z)) : option (list Z * bool) :=
  match bytearray [old_address; 0x06; 0x00; 0x02;
                   Z.land (Z.shiftr new_address 8) 0xFF;
                   Z.land new_address 0xFF] with
  | None => None
  | Some command =>
      let crc := crc16_modbus command in
      let command :=
        command ++ [Z.land crc 0xFF] ++ [Z.land (Z.shiftr crc 8) 0xFF] in
      Some (command,
            match reply with
            | Some response =>
                (8 <=? length response)%nat
                && (nth 0 response 0 =? old_address)
                && (nth 1 response 0 =? 0x06)
            | None => false
            end)
  end.

End Pzem.

(** ** utime *)

Module Utime.

(** Fields 3, 4 and 5 of [utime.localtime(t)] on the MicroPython RP2 port:
    no time zone, and an epoch that starts at midnight. *)
Definition hour (t : Z) : Z := (t mod 86400) / 3600.
Definition minute (t : Z) : Z := (t mod 3600) / 60.
Definition second (t : Z) : Z := t mod 60.

End Utime.

(** ** main.py *)

Module Main.

Import Pzem.

(** The keys ['a'] and ['b'] of the per-tenant dictionaries, and a
    dictionary with exactly these two keys. *)
Inductive tenant := tenant_a | tenant_b.

Record per_tenant (A : Type) := mkPer { at_a : A; at_b : A }.
Arguments mkPer {A}.
Arguments at_a {A}.
Arguments at_b {A}.

Definition get {A} (d : per_tenant A) (k : tenant) : A :=
  match k with tenant_a => at_a d | tenant_b => at_b d end.

Definition set {A} (d : per_tenant A) (k : tenant) (v : A) : per_tenant A :=
  match k with
  | tenant_a => mkPer v (at_b d)
  | tenant_b => mkPer (at_a d) v
  end.

Record Stats := mkStats {
  success : Z;
  error : Z;
  timeout : Z;
  invalid : Z
}.

Inductive result_type := r_success | r_error | r_timeout | r_invalid.

(** The monitor object. The latency windows ([timing_stats]) and
    [startup_time] only feed the printed diagnostics and are left out. *)
Record PZEMTestMonitor := mkMonitor {
  running : bool;
  pzem : option PZEMHandler;
  last_reading : Z;
  last_stats_print : Z;
  last_gc_run : Z;
  read_count : Z;
  stats : per_tenant Stats;
  last_valid_data : per_tenant (option TenantData);
  consecutive_errors : per_tenant Z;
  max_consecutive_errors : Z;
  last_daily_reset : Z;
  test_mode : bool
}.

Definition with_running (self : PZEMTestMonitor) (v : bool) :=
  mkMonitor v (pzem self) (last_reading self) (last_stats_print self)
    (last_gc_run self) (read_count self) (stats self) (last_valid_data self)
    (consecutive_errors self) (max_consecutive_errors self)
    (last_daily_reset self) (test_mode self).

Definition with_pzem (self : PZEMTestMonitor) (v : option PZEMHandler) :=
  mkMonitor (running self) v (last_reading self) (last_stats_print self)
    (last_gc_run self) (read_count self) (stats self) (last_valid_data self)
    (consecutive_errors self) (max_consecutive_errors self)
    (last_daily_reset self) (test_mode self).

Definition with_last_reading (self : PZEMTestMonitor) (v : Z) :=
  mkMonitor (running self) (pzem self) v (last_stats_print self)
    (last_gc_run self) (read_count self) (stats self) (last_valid_data self)
    (consecutive_errors self) (max_consecutive_errors self)
    (last_daily_reset self) (test_mode self).

Definition with_last_stats_print (self : PZEMTestMonitor) (v : Z) :=
  mkMonitor (running self) (pzem self) (last_reading self) v
    (last_gc_run self) (read_count self) (stats self) (last_valid_data self)
    (consecutive_errors self) (max_consecutive_errors self)
    (last_daily_reset self) (test_mode self).

Definition with_last_gc_run (self : PZEMTestMonitor) (v : Z) :=
  mkMonitor (running self) (pzem self) (last_reading self)
    (last_stats_print self) v (read_count self) (stats self)
    (last_valid_data self) (consecutive_errors self)
    (max_consecutive_errors self) (last_daily_reset self) (test_mode self).

Definition with_read_count (self : PZEMTestMonitor) (v : Z) :=
  mkMonitor (running self) (pzem self) (last_reading self)
    (last_stats_print self) (last_gc_run self) v (stats self)
    (last_valid_data self) (consecutive_errors self)
    (max_consecutive_errors self) (last_daily_reset self) (test_mode self).

Definition with_stats (self : PZEMTestMonitor) (v : per_tenant Stats) :=
  mkMonitor (running self) (pzem self) (last_reading self)
    (last_stats_print self) (last_gc_run self) (read_count self) v
    (last_valid_data self) (consecutive_errors self)
    (max_consecutive_errors self) (last_daily_reset self) (test_mode self).

Definition with_last_valid_data (self : PZEMTestMonitor)
    (v : per_tenant (option TenantData)) :=
  mkMonitor (running self) (pzem self) (last_reading self)
    (last_stats_print self) (last_gc_run self) (read_count self) (stats self)
    v (consecutive_errors self) (max_consecutive_errors self)
    (last_daily_reset self) (test_mode self).

Definition with_consecutive_errors (self : PZEMTestMonitor)
    (v : per_tenant Z) :=
  mkMonitor (running self) (pzem self) (last_reading self)
    (last_stats_print self) (last_gc_run self) (read_count self) (stats self)
    (last_valid_data self) v (max_consecutive_errors self)
    (last_daily_reset self) (test_mode self).

Definition with_last_daily_reset (self : PZEMTestMonitor) (v : Z) :=
  mkMonitor (running self) (pzem self) (last_reading self)
    (last_stats_print self) (last_gc_run self) (read_count self) (stats self)
    (last_valid_data self) (consecutive_errors self)
    (max_consecutive_errors self) v (test_mode self).


(** *** _validate_data *)

(** One constructor per message that [_validate_data] returns with [False];
    the arguments are the values that the message displays. *)
Inductive ValidationReason :=
| NoData
| VoltageRange (voltage : Q)
| CurrentRange (current : Q)
| PowerRange (power : Q)
| FrequencyRange (frequency : Q)
| PowerFactorRange (power_factor : Q)
| PowerCrossCheck (power calculated_power : Q).

Inductive ValidationOutcome :=
| Valid
| Invalid (reason : ValidationReason).

(** A [TenantData] has all the required fields by construction, so the
    "Missing field" loop never fails. *)
Definition _validate_data (data : option TenantData) : ValidationOutcome :=
  match data with
  | None => Invalid NoData
  | Some data =>
      let voltage := td_voltage data in
      let current := td_current data in
      let power := td_power data in
      let frequency := td_frequency data in
      let power_factor := td_power_factor data in
      if Qlt_bool 0 voltage && (Qlt_bool voltage 180 || Qlt_bool 280 voltage)
      then Invalid (VoltageRange voltage)
      else if Qlt_bool current 0 || Qlt_bool 100 current
      then Invalid (CurrentRange current)
      else if Qlt_bool power 0 || Qlt_bool 25000 power
      then Invalid (PowerRange power)
      else if Qlt_bool 0 frequency
              && (Qlt_bool frequency 45 || Qlt_bool 65 frequency)
      then Invalid (FrequencyRange frequency)
      else if Qlt_bool power_factor 0 || Qlt_bool 1 power_factor
      then Invalid (PowerFactorRange power_factor)
      else if Qlt_bool 10 voltage && Qlt_bool (1 # 100) current then
        let calculated_power := (voltage * current * power_factor)%Q in
        let power_diff := Qabs (power - calculated_power) in
        if Qlt_bool (calculated_power * (1 # 10)) power_diff
        then Invalid (PowerCrossCheck power calculated_power)
        else Valid
      else Valid
  end.

(** *** Counters *)

Definition bump (s : Stats) (r : result_type) : Stats :=
  match r with
  | r_success => mkStats (success s + 1) (error s) (timeout s) (invalid s)
  | r_error => mkStats (success s) (error s + 1) (timeout s) (invalid s)
  | r_timeout => mkStats (success s) (error s) (timeout s + 1) (invalid s)
  | r_invalid => mkStats (success s) (error s) (timeout s) (invalid s + 1)
  end.

Definition _update_stats (self : PZEMTestMonitor) (t : tenant)
    (r : result_type) : PZEMTestMonitor :=
  with_stats self (set (stats self) t (bump (get (stats self) t) r)).

Definition _should_restart_handler (self : PZEMTestMonitor) (t : tenant)
  : bool :=
  max_consecutive_errors self <=? get (consecutive_errors self) t.

Definition increment_errors (self : PZEMTestMonitor) (t : tenant) :=
  with_consecutive_errors self
    (set (consecutive_errors self) t (get (consecutive_errors self) t + 1)).

(** *** _read_tenant_data *)

(** The status string, by its prefix. *)
Inductive ReadStatus :=
| status_ok
| status_timeout
| status_invalid (validation_msg : ValidationReason)
| status_error.

(** With [self.pzem] unset the attribute access raises and the [except]
    branch runs. *)
Definition _read_tenant_data (self : PZEMTestMonitor) (tenant_id : tenant)
    (x : Exchange) : PZEMTestMonitor * (option TenantData * ReadStatus) :=
  let tenant := tenant_id in
  match pzem self with
  | None =>
      (increment_errors (_update_stats self tenant r_error) tenant,
       (None, status_error))
  | Some handler =>
      let '(handler, data) :=
        match tenant_id with
        | tenant_a => read_tenant_a handler x
        | tenant_b => read_tenant_b handler x
        end in
      let self := with_pzem self (Some handler) in
      match data with
      | None =>
          (increment_errors (_update_stats self tenant r_timeout) tenant,
           (None, status_timeout))
      | Some _ =>
          match _validate_data data with
          | Valid =>
              let self := _update_stats self tenant r_success in
              let self :=
                with_consecutive_errors self
                  (set (consecutive_errors self) tenant 0) in
              let self :=
                with_last_valid_data self
                  (set (last_valid_data self) tenant data) in
              (self, (data, status_ok))
          | Invalid validation_msg =>
              (increment_errors (_update_stats self tenant r_invalid) tenant,
               (data, status_invalid validation_msg))
          end
      end
  end.

(** *** Observable actions of the scheduler *)

Inductive Event :=
| ev_restarting                 (* "Too many consecutive errors - restarting" *)
| ev_close                      (* [self.pzem.close()]: both UARTs released *)
| ev_attempt (number : nat)     (* "Initializing PZEM handler (attempt n/3)" *)
| ev_sleep (seconds : Z)        (* [utime.sleep(retry_delay)] *)
| ev_init_failed                (* "Failed to initialize ... after all retries" *)
| ev_daily_reset                (* "Daily energy counters reset" *)
| ev_sleep_ms (ms : Z).         (* end-of-cycle [utime.sleep_ms(sleep_time)] *)

(** *** _initialize_pzem *)

(** What one initialisation attempt meets: the constructor [PZEMHandler()]
    raises, or it returns and the connectivity test runs its two probes. *)
Inductive InitAttempt :=
| ctor_raises
| ctor_ok (probe_a probe_b : Exchange).

Definition is_not_None {A} (o : option A) : bool :=
  match o with Some _ => true | None => false end.

Definition _test_connectivity (self : PZEMTestMonitor)
    (probe_a probe_b : Exchange) : PZEMTestMonitor * bool :=
  match pzem self with
  | None => (self, false)
  | Some handler =>
      let '(handler, data_a) := read_tenant_a handler probe_a in
      let '(handler, data_b) := read_tenant_b handler probe_b in
      (with_pzem self (Some handler),
       is_not_None data_a && is_not_None data_b)
  end.

Definition max_retries : nat := 3.

(** Closing what [self.pzem] holds, if anything, and clearing it. *)
Definition close_and_clear (self : PZEMTestMonitor)
  : PZEMTestMonitor * list Event :=
  (with_pzem self None,
   match pzem self with Some _ => [ev_close] | None => [] end).

(** The [for attempt in range(max_retries)] loop, from [attempt] on, with
    [remaining] passes left, and the statements after it. *)
Fixpoint initialize_from (remaining attempt : nat) (retry_delay : Z)
    (env : nat -> InitAttempt) (self : PZEMTestMonitor)
  : PZEMTestMonitor * list Event :=
  match remaining with
  | O => (with_running self false, [ev_init_failed])
  | S remaining' =>
      let '(self, connected) :=
        match env attempt with
        | ctor_raises => (self, false)
        | ctor_ok probe_a probe_b =>
            _test_connectivity (with_pzem self (Some new_handler))
              probe_a probe_b
        end in
      if connected then (self, [ev_attempt (attempt + 1)])
      else
        let '(self, closed) := close_and_clear self in
        let '(retry_delay, slept) :=
          if (attempt <? max_retries - 1)%nat
          then (retry_delay * 2, [ev_sleep retry_delay])
          else (retry_delay, []) in
        let '(self, later) :=
          initialize_from remaining' (attempt + 1) retry_delay env self in
        (self, ev_attempt (attempt + 1) :: closed ++ slept ++ later)
  end.

Definition _initialize_pzem (self : PZEMTestMonitor)
    (env : nat -> InitAttempt) : PZEMTestMonitor * list Event :=
  initialize_from max_retries 0 2 env self.

Definition _restart_pzem_handler (self : PZEMTestMonitor)
    (env : nat -> InitAttempt) : PZEMTestMonitor * list Event :=
  let closed := match pzem self with Some _ => [ev_close] | None => [] end in
  let self := with_consecutive_errors self (mkPer 0 0) in
  let '(self, trace) := _initialize_pzem self env in
  (self, ev_restarting :: closed ++ trace).

(** [__init__], for the configuration of [config.py] (which
    [_validate_config] accepts). *)
Definition new_monitor (env : nat -> InitAttempt)
  : PZEMTestMonitor * list Event :=
  _initialize_pzem
    (mkMonitor true None 0 0 0 0
       (mkPer (mkStats 0 0 0 0) (mkStats 0 0 0 0))
       (mkPer None None) (mkPer 0 0) 10 0 false)
    env.

(** *** _should_reset_daily_counters *)

Definition _should_reset_daily_counters (self : PZEMTestMonitor)
    (current_time : Z) : bool :=
  let current_hour := Utime.hour current_time in
  let current_minute := Utime.minute current_time in
  if (current_hour =? 0) && (current_minute <? 5) then
    if 6 * 3600 <? current_time - last_daily_reset self then true else false
  else false.

(** *** run *)

(** What one pass of the [while self.running] loop reads from its
    environment. *)
Record Cycle := mkCycle {
  cycle_now : Z;                 (* [current_time = utime.time()] *)
  reinit : nat -> InitAttempt;   (* met by a restart, if one happens *)
  exchange_a : Exchange;
  exchange_b : Exchange;
  elapsed_ms : Z;                (* [ticks_diff] after the two polls *)
  rollover_clock : Z             (* [utime.time()] of the rollover test *)
}.

(** How a pass ends: the loop goes on, [break] is executed, or an exception
    leaves the loop (the local [cycle_time] is read before any poll has
    assigned it). *)
Inductive Flow := flow_next | flow_break | flow_raise.

Definition daily_reset_of (self : PZEMTestMonitor)
  : option PZEMTestMonitor :=
  match pzem self with
  | Some handler => Some (with_pzem self (Some (reset_daily_counters handler)))
  | None => None
  end.

(** The body of [if current_time - self.last_reading >= SENSOR_READ_INTERVAL];
    the Boolean tells whether [break] was reached. *)
Definition polling_block (self : PZEMTestMonitor) (c : Cycle)
  : PZEMTestMonitor * list Event * bool :=
  let self := with_read_count self (read_count self + 1) in
  let '(self, trace, stop) :=
    if _should_restart_handler self tenant_a
       || _should_restart_handler self tenant_b
    then
      let '(self, trace) := _restart_pzem_handler self (reinit c) in
      (self, trace, negb (running self))
    else (self, [], false) in
  if stop then (self, trace, true)
  else
    let '(self, _) := _read_tenant_data self tenant_a (exchange_a c) in
    let '(self, _) := _read_tenant_data self tenant_b (exchange_b c) in
    (with_last_reading self (cycle_now c), trace, false).

(** The maintenance statements that follow the polling block. *)
Definition maintenance (self : PZEMTestMonitor) (c : Cycle)
  : PZEMTestMonitor * list Event :=
  let current_time := cycle_now c in
  let self :=
    if 30 <=? current_time - last_stats_print self
    then with_last_stats_print self current_time else self in
  let self :=
    if 60 <=? current_time - last_gc_run self
    then with_last_gc_run self current_time else self in
  let '(self, rollover) :=
    if _should_reset_daily_counters self (rollover_clock c) then
      match daily_reset_of self with
      | Some self' =>
          (with_last_daily_reset self' current_time, [ev_daily_reset])
      | None => (self, [])
      end
    else (self, []) in
  let '(self, test_reset) :=
    if test_mode self && (read_count self mod 100 =? 0) then
      match daily_reset_of self with
      | Some self' => (self', [ev_daily_reset])
      | None => (self, [])
      end
    else (self, []) in
  (self, rollover ++ test_reset).

Definition run_pass (self : PZEMTestMonitor) (cycle_time : option Z)
    (c : Cycle) : PZEMTestMonitor * option Z * list Event * Flow :=
  let '(self, cycle_time, polled, stop) :=
    if Config.SENSOR_READ_INTERVAL <=? cycle_now c - last_reading self then
      let '(self, trace, stop) := polling_block self c in
      (self, (if stop then cycle_time else Some (elapsed_ms c)), trace, stop)
    else (self, cycle_time, [], false) in
  if stop then (self, cycle_time, polled, flow_break)
  else
    let '(self, maintained) := maintenance self c in
    match cycle_time with
    | None => (self, cycle_time, polled ++ maintained, flow_raise)
    | Some t =>
        let sleep_time := if t <? 200 then Z.max 50 (200 - t) else 50 in
        (self, cycle_time,
         polled ++ maintained ++ [ev_sleep_ms sleep_time], flow_next)
    end.

(** The loop over the passes that the observation covers; it returns the
    number of passes that ran to their end. *)
Fixpoint run_loop (self : PZEMTestMonitor) (cycle_time : option Z)
    (cycles : list Cycle) : PZEMTestMonitor * list Event * nat :=
  match cycles with
  | [] => (self, [], O)
  | c :: rest =>
      if running self then
        let '(self, cycle_time, trace, flow) := run_pass self cycle_time c in
        match flow with
        | flow_next =>
            let '(self, later, n) := run_loop self cycle_time rest in
            (self, trace ++ later, S n)
        | flow_break | flow_raise => (self, trace, O)
        end
      else (self, [], O)
  end.


(** *** Latency windows and pacing *)

(** [window.append(sample)], then [window.pop(0)] when more than 10 samples
    are held: the statement pair that [_read_tenant_data] and [run] apply to
    the lists of [timing_stats]. *)
Definition record_timing (window : list Z) (sample : Z) : list Z :=
  let window := window ++ [sample] in
  if (10 <? length window)%nat then tl window else window.

(** [max(50, 200 - cycle_time) if cycle_time < 200 else 50], the argument of
    the [utime.sleep_ms] that ends a pass. *)
Definition sleep_time (cycle_time : Z) : Z :=
  if cycle_time <? 200 then Z.max 50 (200 - cycle_time) else 50.

End Main.

(** ** Vocabulary of the specification and test vectors *)

Module Spec.

Import Pzem.

Definition u16 (x : Z) : Prop := 0 <= x < 65536.

(** Register [k] of a response frame: the big-endian 16-bit value at bytes
    [3 + 2k] and [4 + 2k]. *)
Definition register (response : list Z) (k : nat) : Z :=
  nth (3 + 2 * k) response 0 * 256 + nth (4 + 2 * k) response 0.

(** [bytes] followed by its CRC, low byte first. *)
Definition with_crc (bytes : list Z) : list Z :=
  bytes ++ [Z.land (crc16_modbus bytes) 0xFF;
            Z.land (Z.shiftr (crc16_modbus bytes) 8) 0xFF].

(** The 25-byte response of the device at [address] whose ten registers are
    [registers]. *)
Definition response_frame (address : Z) (registers : list Z) : list Z :=
  with_crc ([address; 0x04; 20]
              ++ flat_map (fun r => [Z.shiftr r 8; Z.land r 0xFF]) registers).

(** Registers [2200,1500,0,500,0,0,0,500,0,950], address 0x01. *)
Definition synthetic_response : list Z :=
  [1; 4; 20; 8; 152; 5; 220; 0; 0; 1; 244; 0; 0; 0; 0; 0; 0; 1; 244; 0; 0;
   3; 182; 140; 117].

(** The CRC field as [read_response] reads it: the last two bytes
    collected, low byte first. *)
Definition trailing_crc (response : list Z) : Z :=
  Z.lor (from_end response 2) (Z.shiftl (from_end response 1) 8).

(** The CRC test of [read_response]. *)
Definition crc_matches (response : list Z) : Prop :=
  crc16_modbus (drop_last response 2) = trailing_crc response.

(** The five rejection conditions in the words of the specification; the
    fifth compares the trailing two bytes with the CRC of bytes [0..23). *)
Definition spec_rejects (response : list Z) (address : Z) : Prop :=
  (length response < 25)%nat
  \/ nth 0 response 0 <> address
  \/ nth 1 response 0 <> 0x04
  \/ nth 2 response 0 <> 20
  \/ trailing_crc response <> crc16_modbus (firstn 23 response).

(** 27 bytes: the first 23 bytes of [synthetic_response], two zero bytes,
    and the CRC of these 25 bytes. *)
Definition overlong_response : list Z :=
  [1; 4; 20; 8; 152; 5; 220; 0; 0; 1; 244; 0; 0; 0; 0; 0; 0; 1; 244; 0; 0;
   3; 182; 0; 0; 165; 39].

(** Address 0x01 (and 0x02), registers [2300,4348,0,10000,0,0,0,500,100,0]:
    230.0 V, 4.348 A, 1000.0 W, 50.0 Hz, power factor 1.00. *)
Definition kilowatt_response_a : list Z :=
  [1; 4; 20; 8; 252; 16; 252; 0; 0; 39; 16; 0; 0; 0; 0; 0; 0; 1; 244; 0;
   100; 0; 0; 121; 21].
Definition kilowatt_response_b : list Z :=
  [2; 4; 20; 8; 252; 16; 252; 0; 0; 39; 16; 0; 0; 0; 0; 0; 0; 1; 244; 0;
   100; 0; 0; 45; 240].

(** Address 0x01, registers [2300,5000,0,0,4,0,0,500,100,0]: 230.0 V,
    5.000 A and 26214.4 W, which the validator refuses. *)
Definition overpower_response : list Z :=
  [1; 4; 20; 8; 252; 19; 136; 0; 0; 0; 0; 0; 4; 0; 0; 0; 0; 1; 244; 0;
   100; 0; 0; 226; 204].

(** An exchange without UART fault in which both clock readings are [t]. *)
Definition exchange_at (response : list Z) (t : Z) : Exchange :=
  mkExchange false response t t.

(** A poll fails when the UART raises or [read_response] returns [None]. *)
Definition poll_fails (address : Z) (x : Exchange) : Prop :=
  uart_raises x = true
  \/ exists why,
       read_response (collected x) address (clock_stamp x) = Rejected why.

(** The operations on a handler between two restarts. *)
Inductive HandlerOp :=
| op_read_a (x : Exchange)
| op_read_b (x : Exchange)
| op_reset_daily.

Definition apply_op (self : PZEMHandler) (op : HandlerOp) : PZEMHandler :=
  match op with
  | op_read_a x => fst (read_tenant_a self x)
  | op_read_b x => fst (read_tenant_b self x)
  | op_reset_daily => reset_daily_counters self
  end.

(** Reading a trace: the daily resets, the restart delays and the
    initialisation attempts that it records. *)
Definition is_reset (e : Main.Event) : bool :=
  match e with Main.ev_daily_reset => true | _ => false end.
Definition daily_resets (trace : list Main.Event) : nat :=
  length (filter is_reset trace).

Fixpoint delays (trace : list Main.Event) : list Z :=
  match trace with
  | [] => []
  | Main.ev_sleep seconds :: rest => seconds :: delays rest
  | _ :: rest => delays rest
  end.

Fixpoint attempts (trace : list Main.Event) : nat :=
  match trace with
  | [] => O
  | Main.ev_attempt _ :: rest => S (attempts rest)
  | _ :: rest => attempts rest
  end.

Definition restarts (trace : list Main.Event) : bool :=
  existsb (fun e => match e with Main.ev_restarting => true | _ => false end)
    trace.

(** A running monitor that holds [handler], with every counter at 0. *)
Definition monitor_with (handler : PZEMHandler) : Main.PZEMTestMonitor :=
  Main.mkMonitor true (Some handler) 0 0 0 0
    (Main.mkPer (Main.mkStats 0 0 0 0) (Main.mkStats 0 0 0 0))
    (Main.mkPer None None) (Main.mkPer 0 0) 10 0 false.

(** The handler that a successful initialisation attempt leaves: a new
    one, after the two probes of the connectivity test. *)
Definition probed (probe_a probe_b : Exchange) : PZEMHandler :=
  fst (read_tenant_b (fst (read_tenant_a new_handler probe_a)) probe_b).

(** What [close] contributes to the trace when [self.pzem] is set. *)
Definition closing (self : Main.PZEMTestMonitor) : list Main.Event :=
  match Main.pzem self with Some _ => [Main.ev_close] | None => [] end.

(** The two ways in which [_restart_pzem_handler] can end: some attempt
    succeeds and the monitor holds a fresh handler, with both failure
    streaks at 0; or all three attempts fail and the monitor stops. *)
Definition reinitialised (self : Main.PZEMTestMonitor)
    (env : nat -> Main.InitAttempt) (self' : Main.PZEMTestMonitor)
    (trace : list Main.Event) : Prop :=
  exists probe_a probe_b,
    env (attempts trace - 1)%nat = Main.ctor_ok probe_a probe_b
    /\ (forall k, (k < attempts trace - 1)%nat -> env k = Main.ctor_raises)
    /\ self' = Main.with_pzem
                 (Main.with_consecutive_errors self (Main.mkPer 0 0))
                 (Some (probed probe_a probe_b)).

Definition exhausted (self : Main.PZEMTestMonitor)
    (env : nat -> Main.InitAttempt) (self' : Main.PZEMTestMonitor)
    (trace : list Main.Event) : Prop :=
  attempts trace = 3%nat
  /\ (forall k, (k < 3)%nat -> env k = Main.ctor_raises)
  /\ In Main.ev_init_failed trace
  /\ self' = Main.with_running
               (Main.with_pzem
                  (Main.with_consecutive_errors self (Main.mkPer 0 0)) None)
               false.

(** Fields that only the rollover writes, or nothing at all. *)
Definition same_settings (m m' : Main.PZEMTestMonitor) : Prop :=
  Main.last_daily_reset m' = Main.last_daily_reset m
  /\ Main.test_mode m' = Main.test_mode m
  /\ Main.max_consecutive_errors m' = Main.max_consecutive_errors m.

(** A pass at time [t] in which meter A answers with a reading that the
    validator refuses, meter B does not answer, and no handler can be
    constructed should a restart be attempted. *)
Definition failing_cycle (t : Z) : Main.Cycle :=
  Main.mkCycle t (fun _ => Main.ctor_raises)
    (exchange_at overpower_response t) (exchange_at [] t) 150 t.

Definition failing_cycles (first : Z) (n : nat) : list Main.Cycle :=
  map (fun k => failing_cycle (first + Z.of_nat k)) (seq 0 n).

(** A pass at time [t] in which both meters answer with 1000 W. *)
Definition steady_cycle (t : Z) : Main.Cycle :=
  Main.mkCycle t (fun _ => Main.ctor_raises)
    (exchange_at kilowatt_response_a t) (exchange_at kilowatt_response_b t)
    150 t.

Definition steady_cycles (first : Z) (n : nat) : list Main.Cycle :=
  map (fun k => steady_cycle (first + Z.of_nat k)) (seq 0 n).

(** A midnight: 19676 days after the epoch. *)
Definition midnight : Z := 1700006400.

(** A monitor that has been polling until midnight and has just made its
    daily reset there. *)
Definition just_reset : Main.PZEMTestMonitor :=
  Main.with_last_daily_reset
    (monitor_with
       (mkHandler 0x01 0x02 (1 # 2) (1 # 2) 0 0 midnight midnight))
    midnight.

(** The rollover window 00:00-00:05. *)
Definition in_window (t : Z) : Prop :=
  Utime.hour t = 0 /\ Utime.minute t < 5.

(** The UART delivers bytes. *)
Definition op_bytes (op : HandlerOp) : bool :=
  match op with
  | op_read_a x | op_read_b x => is_bytes (collected x)
  | op_reset_daily => true
  end.

(** *** Vocabulary of the further properties *)

(** The address and the read operation of a tenant's meter. *)
Definition address_of (self : PZEMHandler) (t : Main.tenant) : Z :=
  match t with
  | Main.tenant_a => address_a self
  | Main.tenant_b => address_b self
  end.

Definition read_tenant (t : Main.tenant) (self : PZEMHandler) (x : Exchange)
  : PZEMHandler * option TenantData :=
  match t with
  | Main.tenant_a => read_tenant_a self x
  | Main.tenant_b => read_tenant_b self x
  end.

(** Both failure streaks lie between 0 and the restart threshold 10. *)
Definition streaks_bounded (self : Main.PZEMTestMonitor) : Prop :=
  forall t, 0 <= Main.get (Main.consecutive_errors self) t <= 10.

(** The number of polls that a counter record has classified. *)
Definition total (s : Main.Stats) : Z :=
  Main.success s + Main.error s + Main.timeout s + Main.invalid s.

(** Meter A read over a sequence of exchanges. *)
Definition read_all_a (self : PZEMHandler) (xs : list Exchange) : PZEMHandler :=
  fold_left (fun h x => fst (read_tenant_a h x)) xs self.

(** Every exchange decodes, and each sample comes more than 0 and at most
    10 seconds after the one before it ([last] at first). *)
Fixpoint regular (address last : Z) (xs : list Exchange) : Prop :=
  match xs with
  | [] => True
  | x :: rest =>
      uart_raises x = false
      /\ (exists data,
            read_response (collected x) address (clock_stamp x) = Decoded data)
      /\ 0 < clock_now x - last <= 10
      /\ regular address (clock_now x) rest
  end.

(** The energy in kWh that the samples carry: each sample's power over the
    time since the sample before it. *)
Fixpoint integral (address last : Z) (xs : list Exchange) : Q :=
  match xs with
  | [] => 0
  | x :: rest =>
      match returned (read_response (collected x) address (clock_stamp x)) with
      | Some data =>
          power data * inject_Z (clock_now x - last) / 3600 / 1000
          + integral address (clock_now x) rest
      | None => integral address last rest
      end
  end.

(** The daily total is between 0 and the lifetime total, for both meters. *)
Definition totals_ordered (self : PZEMHandler) : Prop :=
  (0 <= daily_energy_a self <= energy_a self)%Q
  /\ (0 <= daily_energy_b self <= energy_b self)%Q.

End Spec.

Import Pzem Spec.

(** * Properties *)

(** ** CRC16 *)

Section Crc.

Lemma u16_lxor x y : u16 x -> u16 y -> u16 (Z.lxor x y).
Proof.
  unfold u16; intros Hx Hy. split.
  - apply Z.lxor_nonneg. lia.
  - assert (Hnn : 0 <= Z.lxor x y) by (apply Z.lxor_nonneg; lia).
    destruct (Z.eq_dec (Z.lxor x y) 0) as [->|Hn]; [lia|].
    apply (Z.log2_lt_pow2 _ 16); [lia|].
    pose proof (Z.log2_lxor x y ltac:(lia) ltac:(lia)) as Hl.
    assert (Lx : Z.log2 x < 16).
    { destruct (Z.eq_dec x 0) as [->|]; [simpl; lia|].
      apply Z.log2_lt_pow2; lia. }
    assert (Ly : Z.log2 y < 16).
    { destruct (Z.eq_dec y 0) as [->|]; [simpl; lia|].
      apply Z.log2_lt_pow2; lia. }
    lia.
Qed.

Lemma u16_shiftr1 x : u16 x -> u16 (Z.shiftr x 1).
Proof.
  unfold u16; intros Hx. rewrite Z.shiftr_div_pow2 by lia.
  change (2 ^ 1) with 2. split.
  - apply Z.div_pos; lia.
  - apply Z.div_lt_upper_bound; lia.
Qed.

Lemma u16_crc_shift crc : u16 crc -> u16 (crc_shift crc).
Proof.
  intros H. unfold crc_shift.
  destruct (negb (Z.land crc 1 =? 0)).
  - apply u16_lxor; [now apply u16_shiftr1 | unfold u16; lia].
  - now apply u16_shiftr1.
Qed.

Lemma u16_iter n crc : u16 crc -> u16 (Nat.iter n crc_shift crc).
Proof.
  intros H. induction n as [|n IH]; simpl; [assumption|].
  now apply u16_crc_shift.
Qed.

Lemma is_byte_spec x : is_byte x = true <-> 0 <= x < 256.
Proof. unfold is_byte. rewrite andb_true_iff, Z.leb_le, Z.ltb_lt. tauto. Qed.

Lemma u16_crc_feed crc byte :
  u16 crc -> is_byte byte = true -> u16 (crc_feed crc byte).
Proof.
  intros Hc Hb. apply is_byte_spec in Hb. unfold crc_feed.
  apply u16_iter, u16_lxor; [assumption | unfold u16; lia].
Qed.

Lemma u16_fold data : forall crc,
  u16 crc -> is_bytes data = true -> u16 (fold_left crc_feed data crc).
Proof.
  induction data as [|x data IH]; intros crc Hc Hd; simpl; [assumption|].
  simpl in Hd. apply andb_true_iff in Hd as [Hx Hd].
  apply IH; [now apply u16_crc_feed | assumption].
Qed.

Lemma u16_crc16_modbus data : is_bytes data = true -> u16 (crc16_modbus data).
Proof. intros H. apply u16_fold; [unfold u16; lia | assumption]. Qed.

(** Feeding the low byte of the register clears its low byte. *)
Lemma lxor_low_byte crc :
  Z.lxor crc (Z.land crc 0xFF) = Z.shiftl (Z.shiftr crc 8) 8.
Proof.
  apply Z.bits_inj'. intros n Hn.
  rewrite Z.lxor_spec, Z.land_spec.
  change 0xFF with (Z.ones 8).
  destruct (Z.lt_ge_cases n 8) as [Hlt|Hge].
  - rewrite Z.ones_spec_low by lia. rewrite Z.shiftl_spec_low by lia.
    now destruct (Z.testbit crc n).
  - rewrite Z.ones_spec_high by lia. rewrite Z.shiftl_spec by lia.
    rewrite Z.shiftr_spec by lia. rewrite andb_false_r, xorb_false_r.
    f_equal. lia.
Qed.

(** A register whose low [k] bits are clear is only shifted by [k] passes. *)
Lemma iter_shift_clear k : forall y,
  Nat.iter k crc_shift (Z.shiftl y (Z.of_nat k)) = y.
Proof.
  induction k as [|k IH]; intros y.
  - simpl. apply Z.shiftl_0_r.
  - rewrite Nat.iter_succ_r.
    assert (Hstep : crc_shift (Z.shiftl y (Z.of_nat (S k)))
                    = Z.shiftl y (Z.of_nat k)).
    { unfold crc_shift.
      assert (Hlow : Z.land (Z.shiftl y (Z.of_nat (S k))) 1 = 0).
      { change 1 with (Z.ones 1). rewrite Z.land_ones by lia.
        rewrite Z.shiftl_mul_pow2 by lia.
        replace (Z.of_nat (S k)) with (1 + Z.of_nat k) by lia.
        rewrite Z.pow_add_r by lia. change (2 ^ 1) with 2.
        replace (y * (2 * 2 ^ Z.of_nat k)) with ((y * 2 ^ Z.of_nat k) * 2) by ring.
        apply Z.mod_mul. lia. }
      rewrite Hlow. change (negb (0 =? 0)) with false. cbv iota.
      rewrite Z.shiftr_shiftl_l by lia. f_equal. lia. }
    rewrite Hstep. apply IH.
Qed.

Lemma crc_feed_low crc :
  crc_feed crc (Z.land crc 0xFF) = Z.shiftr crc 8.
Proof.
  unfold crc_feed. rewrite lxor_low_byte.
  exact (iter_shift_clear 8 (Z.shiftr crc 8)).
Qed.

Lemma crc_feed_both crc :
  u16 crc ->
  fold_left crc_feed [Z.land crc 0xFF; Z.land (Z.shiftr crc 8) 0xFF] crc = 0.
Proof.
  intros Hc. simpl. rewrite crc_feed_low, crc_feed_low.
  rewrite Z.shiftr_shiftr by lia. simpl.
  rewrite Z.shiftr_div_pow2 by lia. apply Z.div_small. exact Hc.
Qed.

End Crc.

(** C8. For every byte sequence, appending its Modbus CRC16 (low byte, then
    high byte) and running [crc16_modbus] over the extended sequence gives 0;
    [build_read_command] appends the CRC in exactly this way, so the frame it
    returns for any address byte verifies itself. The register starts at
    0xFFFF, and for address 0x01 the frame is 01 04 00 00 00 0A 70 0D. *)
Theorem crc16_round_trip (data : list Z) (address : Z) :
  is_bytes data = true ->
  is_byte address = true ->
  crc16_modbus (with_crc data) = 0
  /\ build_read_command address
     = Some (with_crc [address; 0x04; 0x00; 0x00; 0x00; 0x0A])
  /\ (forall frame, build_read_command address = Some frame ->
        crc16_modbus frame = 0 /\ length frame = 8%nat)
  /\ crc16_modbus [] = 0xFFFF
  /\ build_read_command 0x01
     = Some [0x01; 0x04; 0x00; 0x00; 0x00; 0x0A; 0x70; 0x0D].
Proof.
  intros Hdata Haddr.
  assert (Hrt : forall bytes, is_bytes bytes = true ->
                  crc16_modbus (with_crc bytes) = 0).
  { intros bytes Hb. unfold with_crc, crc16_modbus.
    rewrite fold_left_app. apply crc_feed_both.
    now apply u16_crc16_modbus. }
  assert (Hcmd : is_bytes [address; 0x04; 0x00; 0x00; 0x00; 0x0A] = true).
  { unfold is_bytes. cbn [forallb]. rewrite Haddr. reflexivity. }
  assert (Hbuild : build_read_command address
                   = Some (with_crc [address; 0x04; 0x00; 0x00; 0x00; 0x0A])).
  { unfold build_read_command, bytearray. rewrite Hcmd. reflexivity. }
  split; [now apply Hrt|]. split; [exact Hbuild|].
  split; [|split; reflexivity].
  intros frame Hf. rewrite Hbuild in Hf. injection Hf as <-.
  split; [now apply Hrt | reflexivity].
Qed.

Lemma crc16_round_trip_witness :
  crc16_modbus (with_crc [0x02; 0x04; 0x14; 0xFF; 0x00; 0x7B]) = 0
  /\ build_read_command 0x02
     = Some (with_crc [0x02; 0x04; 0x00; 0x00; 0x00; 0x0A]).
Proof.
  pose proof (crc16_round_trip [0x02; 0x04; 0x14; 0xFF; 0x00; 0x7B] 0x02
                eq_refl eq_refl) as H.
  split; [exact (proj1 H) | exact (proj1 (proj2 H))].
Defined.

(** ** Frame decoding *)

Section Decode.

Lemma length_slice {A} (l : list A) i j :
  (i <= j)%nat -> (j <= length l)%nat -> length (slice l i j) = (j - i)%nat.
Proof.
  intros Hij Hj. unfold slice. rewrite length_firstn, length_skipn. lia.
Qed.

Lemma unpack_H_two (bytes : list Z) :
  length bytes = 2%nat -> exists reg, unpack_H bytes = Some reg.
Proof.
  destruct bytes as [|hi [|lo [|x bytes]]]; try discriminate.
  intros _. now exists (hi * 256 + lo).
Qed.

Lemma unpack_registers_total (data_bytes : list Z) (offsets : list nat) :
  Forall (fun i => i + 2 <= length data_bytes)%nat offsets ->
  exists registers, unpack_registers data_bytes offsets = Some registers.
Proof.
  induction 1 as [|i offsets Hi _ IH]; simpl.
  - now exists [].
  - destruct (unpack_H_two (slice data_bytes i (i + 2))) as [reg ->].
    { rewrite length_slice; lia. }
    destruct IH as [registers ->]. now exists (reg :: registers).
Qed.

Lemma unpack_response_total (response : list Z) :
  (25 <= length response)%nat ->
  exists registers,
    unpack_registers (slice response 3 23) range_0_20_2 = Some registers.
Proof.
  intros Hlen. apply unpack_registers_total.
  rewrite length_slice by lia.
  unfold range_0_20_2. cbn [seq map Nat.mul Nat.add].
  repeat constructor.
Qed.

(** The registers that the loop unpacks are the big-endian pairs of the
    frame, in order. *)
Lemma unpack_response_registers (response registers : list Z) :
  (25 <= length response)%nat ->
  unpack_registers (slice response 3 23) range_0_20_2 = Some registers ->
  registers = map (register response) (seq 0 10).
Proof.
  intros Hlen Hu.
  do 25 (destruct response as [|? response]; [simpl in Hlen; lia|]).
  cbn in Hu. injection Hu as <-. reflexivity.
Qed.

(** The checks of [read_response], in the order in which they are made. *)
Lemma read_response_cases (response : list Z) (address now : Z) :
  ((length response < 25)%nat
   /\ read_response response address now
      = Rejected (Incomplete (length response)))
  \/ ((25 <= length response)%nat /\
      ((nth 0 response 0 <> address
        /\ read_response response address now
           = Rejected (AddressMismatch (nth 0 response 0)))
       \/ (nth 0 response 0 = address /\
           ((nth 1 response 0 = 0x84
             /\ read_response response address now
                = Rejected (DeviceException (nth 2 response 0)))
            \/ (nth 1 response 0 <> 0x84 /\ nth 1 response 0 <> 0x04
                /\ read_response response address now
                   = Rejected (FunctionMismatch (nth 1 response 0)))
            \/ (nth 1 response 0 = 0x04 /\
                ((nth 2 response 0 <> 20
                  /\ read_response response address now
                     = Rejected (LengthMismatch (nth 2 response 0)))
                 \/ (nth 2 response 0 = 20 /\
                     ((~ crc_matches response
                       /\ read_response response address now
                          = Rejected
                              (CrcMismatch
                                 (crc16_modbus (drop_last response 2))
                                 (Z.lor (from_end response 2)
                                    (Z.shiftl (from_end response 1) 8))))
                      \/ (crc_matches response
                          /\ read_response response address now
                             = Decoded
                                 (extract_measurements
                                    (map (register response) (seq 0 10))
                                    now)))))))))).
Proof.
  unfold read_response, crc_matches.
  destruct (Nat.ltb_spec (length response) 25) as [Hlt|Hge]; [left; tauto|].
  right. split; [assumption|].
  destruct (Z.eqb_spec (nth 0 response 0) address) as [H0|H0];
    cbn [negb]; [right; split; [assumption|] | left; tauto].
  destruct (Z.eqb_spec (nth 1 response 0) 0x04) as [H1|H1]; cbn [negb].
  - right. right. split; [assumption|].
    destruct (Z.eqb_spec (nth 2 response 0) 20) as [H2|H2]; cbn [negb];
      [right; split; [assumption|] | left; tauto].
    destruct (Z.eqb_spec (crc16_modbus (drop_last response 2))
                (Z.lor (from_end response 2)
                   (Z.shiftl (from_end response 1) 8))) as [Hc|Hc];
      cbn [negb]; [right; split; [assumption|] | left; tauto].
    destruct (unpack_response_total response Hge) as [registers Hu].
    rewrite Hu. now rewrite (unpack_response_registers _ _ Hge Hu).
  - destruct (Z.eqb_spec (nth 1 response 0) 0x84) as [H84|H84].
    + left. split; [assumption|].
      destruct (Nat.ltb_spec 2 (length response)); [reflexivity | lia].
    + right. left. tauto.
Qed.

End Decode.

Lemma Qlt_bool_iff (x y : Q) : Qlt_bool x y = true <-> (x < y)%Q.
Proof.
  unfold Qlt_bool. rewrite negb_true_iff, <- not_true_iff_false, Qle_bool_iff.
  split; [apply Qnot_le_lt | apply Qlt_not_le].
Qed.

Lemma Qlt_bool_false_iff (x y : Q) : Qlt_bool x y = false <-> (y <= x)%Q.
Proof.
  unfold Qlt_bool. rewrite negb_false_iff. apply Qle_bool_iff.
Qed.

Ltac split_cases :=
  repeat match goal with
         | K : _ /\ _ |- _ => destruct K
         | K : _ \/ _ |- _ => destruct K
         end.

(** C4 (amended). [read_response] makes its checks in this order: fewer than
    25 bytes collected (Incomplete); byte 0 differs from the address
    (AddressMismatch); byte 1 is 0x84 (DeviceException with code byte 2) or
    otherwise differs from 0x04 (FunctionMismatch); byte 2 differs from 20
    (LengthMismatch); the last two collected bytes differ from the CRC of
    all the bytes before them (CrcMismatch); otherwise it succeeds with a
    reading. It rejects exactly when one of these holds. When exactly 25
    bytes were collected the CRC test is the one on bytes [0..23), and the
    rejection condition is the one of the specification. *)
Theorem read_response_verdict (response : list Z) (address now : Z) :
  ((length response < 25)%nat ->
   read_response response address now = Rejected (Incomplete (length response)))
  /\ ((25 <= length response)%nat ->
      (nth 0 response 0 <> address ->
       read_response response address now
       = Rejected (AddressMismatch (nth 0 response 0)))
      /\ (nth 0 response 0 = address ->
          (nth 1 response 0 = 0x84 ->
           read_response response address now
           = Rejected (DeviceException (nth 2 response 0)))
          /\ (nth 1 response 0 <> 0x84 -> nth 1 response 0 <> 0x04 ->
              read_response response address now
              = Rejected (FunctionMismatch (nth 1 response 0)))
          /\ (nth 1 response 0 = 0x04 ->
              (nth 2 response 0 <> 20 ->
               read_response response address now
               = Rejected (LengthMismatch (nth 2 response 0)))
              /\ (nth 2 response 0 = 20 ->
                  (~ crc_matches response ->
                   read_response response address now
                   = Rejected (CrcMismatch (crc16_modbus (drop_last response 2))
                                 (trailing_crc response)))
                  /\ (crc_matches response ->
                      exists data,
                        read_response response address now = Decoded data)))))
  /\ ((exists why, read_response response address now = Rejected why)
      <-> ((length response < 25)%nat
           \/ nth 0 response 0 <> address
           \/ nth 1 response 0 <> 0x04
           \/ nth 2 response 0 <> 20
           \/ ~ crc_matches response))
  /\ (length response = 25%nat ->
      drop_last response 2 = firstn 23 response
      /\ trailing_crc response
         = Z.lor (nth 23 response 0) (Z.shiftl (nth 24 response 0) 8)
      /\ ((exists why, read_response response address now = Rejected why)
          <-> spec_rejects response address)).
Proof.
  pose proof (read_response_cases response address now) as H.
  assert (Hiff : (exists why, read_response response address now = Rejected why)
      <-> ((length response < 25)%nat
           \/ nth 0 response 0 <> address
           \/ nth 1 response 0 <> 0x04
           \/ nth 2 response 0 <> 20
           \/ ~ crc_matches response)).
  { split.
    - intros [why Hwhy]. split_cases; try tauto; try congruence.
      right; right; left. congruence.
    - intros Hc. split_cases; eauto; try lia; try tauto; congruence. }
  split; [|split; [|split; [exact Hiff|]]].
  - intros Hlt. split_cases; [assumption | lia..].
  - intros Hge. split_cases; try lia; repeat split; intros;
      try assumption; try contradiction; try congruence; try lia; eauto.
  - intros Hlen.
    assert (Hd : drop_last response 2 = firstn 23 response)
      by (unfold drop_last; now rewrite Hlen).
    assert (Ht : trailing_crc response
                 = Z.lor (nth 23 response 0) (Z.shiftl (nth 24 response 0) 8))
      by (unfold trailing_crc, from_end; now rewrite Hlen).
    split; [exact Hd|]. split; [exact Ht|].
    rewrite Hiff. clear H Hiff. unfold spec_rejects, crc_matches. rewrite Hd.
    split; intros Hc; split_cases; try tauto;
      right; right; right; right; congruence.
Qed.

Lemma read_response_verdict_witness :
  (exists data, read_response synthetic_response 0x01 0 = Decoded data)
  /\ read_response (firstn 24 synthetic_response) 0x01 0
     = Rejected (Incomplete 24)
  /\ read_response synthetic_response 0x02 0 = Rejected (AddressMismatch 1).
Proof.
  split; [|split].
  - destruct (read_response_verdict synthetic_response 0x01 0)
      as (_ & H & _).
    apply H; [vm_compute; lia | reflexivity | reflexivity | reflexivity
             | vm_compute; reflexivity].
  - destruct (read_response_verdict (firstn 24 synthetic_response) 0x01 0)
      as (H & _).
    apply H. vm_compute; lia.
  - destruct (read_response_verdict synthetic_response 0x02 0)
      as (_ & H & _).
    apply H; [vm_compute; lia | vm_compute; discriminate].
Defined.

(** C4, as stated, fails on a sequence of more than 25 bytes: the trailing
    two bytes of [overlong_response] (and its bytes 23 and 24 as well) differ
    from the CRC of bytes [0..23), so the specification rejects it, yet
    [read_response] accepts it, because it compares the last two bytes with
    the CRC of everything before them. *)
Lemma overlong_response_accepted :
  ~ ((exists why, read_response overlong_response 0x01 0 = Rejected why)
     <-> spec_rejects overlong_response 0x01).
Proof.
  intros [_ H].
  destruct H as [why Hwhy].
  - right; right; right; right. vm_compute. discriminate.
  - vm_compute in Hwhy. discriminate.
Qed.

Lemma read_response_decoded (response : list Z) (address now : Z) data :
  read_response response address now = Decoded data ->
  (25 <= length response)%nat
  /\ data = extract_measurements (map (register response) (seq 0 10)) now.
Proof.
  intros Hd.
  pose proof (read_response_cases response address now) as H.
  split_cases; try congruence. split; [assumption | congruence].
Qed.

(** C1 (amended). On the synthetic 25-byte frame for registers
    [2200,1500,0,500,0,0,0,500,0,950] [read_response] succeeds with
    voltage 220, current 1.5, power 50, energy 0, frequency 50 and power
    factor 0: the power factor is register 8, which is 0 in this frame (950
    is register 9, which is not decoded). With 95 in register 8 the power
    factor is 0.95. Every reading that [read_response] returns follows the
    field formulas: voltage = r0/10, current = ((r2<<16)|r1)/1000,
    power = ((r4<<16)|r3)/10, energy = (r6<<16)|r5, frequency = r7/10, and
    power factor = r8/100 clamped to [0,1], forced to 0 when the current or
    the power is 0. *)
Theorem read_response_synthetic (response : list Z) (address now : Z)
    (data : Reading) :
  read_response response address now = Decoded data ->
  let r := register response in
  let raw := (inject_Z (r 8%nat) / 100)%Q in
  (voltage data = (inject_Z (r 0%nat) / 10)%Q
   /\ current data = (inject_Z (Z.lor (Z.shiftl (r 2%nat) 16) (r 1%nat)) / 1000)%Q
   /\ power data = (inject_Z (Z.lor (Z.shiftl (r 4%nat) 16) (r 3%nat)) / 10)%Q
   /\ energy data = inject_Z (Z.lor (Z.shiftl (r 6%nat) 16) (r 5%nat))
   /\ frequency data = (inject_Z (r 7%nat) / 10)%Q
   /\ timestamp data = now
   /\ ((current data == 0 \/ power data == 0)%Q -> power_factor data = 0%Q)
   /\ (~ (current data == 0)%Q -> ~ (power data == 0)%Q ->
       ((raw < 0)%Q -> power_factor data = 0%Q)
       /\ ((0 <= raw <= 1)%Q -> power_factor data = raw)
       /\ ((1 < raw)%Q -> power_factor data = 1%Q)))
  /\ synthetic_response
     = response_frame 0x01 [2200; 1500; 0; 500; 0; 0; 0; 500; 0; 950]
  /\ (exists d, read_response synthetic_response 0x01 now = Decoded d
        /\ (voltage d == 220 /\ current d == 15 # 10 /\ power d == 50
            /\ energy d == 0 /\ frequency d == 50 /\ power_factor d == 0)%Q
        /\ timestamp d = now)
  /\ (exists d,
        read_response
          (response_frame 0x01 [2200; 1500; 0; 500; 0; 0; 0; 500; 95; 0])
          0x01 now = Decoded d
        /\ (voltage d == 220 /\ current d == 15 # 10 /\ power d == 50
            /\ energy d == 0 /\ frequency d == 50
            /\ power_factor d == 95 # 100)%Q
        /\ timestamp d = now).
Proof.
  intros Hd r raw.
  apply read_response_decoded in Hd as [Hlen ->].
  split; [|split; [reflexivity|split]].
  - repeat (split; [reflexivity|]).
    unfold extract_measurements; cbn [power_factor current power].
    change (nth 8 (map (register response) (seq 0 10)) 0) with (r 8%nat).
    change (nth 1 (map (register response) (seq 0 10)) 0) with (r 1%nat).
    change (nth 2 (map (register response) (seq 0 10)) 0) with (r 2%nat).
    change (nth 3 (map (register response) (seq 0 10)) 0) with (r 3%nat).
    change (nth 4 (map (register response) (seq 0 10)) 0) with (r 4%nat).
    fold raw.
    set (cur := (inject_Z (Z.lor (Z.shiftl (r 2%nat) 16) (r 1%nat)) / 1000)%Q).
    set (pow := (inject_Z (Z.lor (Z.shiftl (r 4%nat) 16) (r 3%nat)) / 10)%Q).
    split.
    + intros [Hz|Hz]; apply Qeq_bool_iff in Hz; rewrite Hz;
        [reflexivity | now rewrite orb_true_r].
    + intros Hc Hp.
      destruct (Qeq_bool cur 0) eqn:Ec;
        [apply Qeq_bool_iff in Ec; contradiction|].
      destruct (Qeq_bool pow 0) eqn:Ep;
        [apply Qeq_bool_iff in Ep; contradiction|].
      cbn [orb]. unfold py_min, py_max.
      destruct (Qlt_bool raw 0) eqn:E0.
      * apply Qlt_bool_iff in E0.
        assert (E1 : Qlt_bool 1 0 = false) by reflexivity. rewrite E1.
        repeat split; [intros [? ?]; lra | intros; lra].
      * apply Qlt_bool_false_iff in E0.
        destruct (Qlt_bool 1 raw) eqn:E1.
        -- apply Qlt_bool_iff in E1.
           repeat split; [intros; lra | intros [? ?]; lra].
        -- apply Qlt_bool_false_iff in E1.
           repeat split; intros; lra.
  - eexists. split; [vm_compute; reflexivity|].
    cbn [voltage current power energy frequency power_factor timestamp].
    repeat split; reflexivity.
  - eexists. split; [vm_compute; reflexivity|].
    cbn [voltage current power energy frequency power_factor timestamp].
    repeat split; reflexivity.
Qed.

Lemma read_response_synthetic_witness :
  exists d, read_response synthetic_response 0x01 1700000000 = Decoded d
    /\ voltage d = (inject_Z 2200 / 10)%Q
    /\ timestamp d = 1700000000.
Proof.
  assert (Hd : exists d,
             read_response synthetic_response 0x01 1700000000 = Decoded d)
    by (eexists; vm_compute; reflexivity).
  destruct Hd as [d Hd]. exists d. split; [exact Hd|].
  destruct (read_response_synthetic synthetic_response 0x01 1700000000 d Hd)
    as ((Hv & _ & _ & _ & _ & Ht & _) & _).
  split; [exact Hv | exact Ht].
Defined.

(** C1, as stated, fails: on the synthetic frame the decoded power factor is
    not 0.95. *)
Lemma synthetic_power_factor_not_095 :
  ~ exists d, read_response synthetic_response 0x01 1700000000 = Decoded d
      /\ (voltage d == 220 /\ current d == 15 # 10 /\ power d == 50
          /\ energy d == 0 /\ frequency d == 50
          /\ power_factor d == 95 # 100)%Q.
Proof.
  intros (d & Hd & _ & _ & _ & _ & _ & Hpf).
  vm_compute in Hd. injection Hd as <-.
  vm_compute in Hpf. discriminate.
Qed.

(** ** Metering *)

Section Metering.

Variable self : PZEMHandler.
Variable x : Exchange.

Lemma read_tenant_a_failed :
  poll_fails (address_a self) x ->
  read_tenant_a self x
  = (self, Some (zeros (energy_a self) (daily_energy_a self) (clock_now x))).
Proof.
  unfold read_tenant_a. intros [Hr | [why Hw]].
  - now rewrite Hr.
  - rewrite Hw. now destruct (uart_raises x).
Qed.

Lemma read_tenant_b_failed :
  poll_fails (address_b self) x ->
  read_tenant_b self x
  = (self, Some (zeros (energy_b self) (daily_energy_b self) (clock_now x))).
Proof.
  unfold read_tenant_b. intros [Hr | [why Hw]].
  - now rewrite Hr.
  - rewrite Hw. now destruct (uart_raises x).
Qed.

Lemma read_tenant_a_integrates data :
  uart_raises x = false ->
  read_response (collected x) (address_a self) (clock_stamp x) = Decoded data ->
  0 < last_reading_a self ->
  0 < clock_now x - last_reading_a self <= 10 ->
  let inc :=
    (power data * inject_Z (clock_now x - last_reading_a self)
     / 3600 / 1000)%Q in
  let e := (energy_a self + inc)%Q in
  let d := (daily_energy_a self + inc)%Q in
  read_tenant_a self x
  = (set_meter_a self e d (clock_now x),
     Some (mkTenantData (voltage data) (current data) (power data) e
             (frequency data) (power_factor data) (timestamp data) d
             (d * Config.ENERGY_RATE_GHS)%Q)).
Proof.
  intros Hr Hd Hl Hw. unfold read_tenant_a. rewrite Hr, Hd. cbn [returned].
  destruct (Z.ltb_spec 0 (last_reading_a self)); [|lia].
  destruct (Z.ltb_spec 0 (clock_now x - last_reading_a self)); [|lia].
  destruct (Z.leb_spec (clock_now x - last_reading_a self) 10); [|lia].
  reflexivity.
Qed.

Lemma read_tenant_a_skips data :
  uart_raises x = false ->
  read_response (collected x) (address_a self) (clock_stamp x) = Decoded data ->
  ~ (0 < last_reading_a self
     /\ 0 < clock_now x - last_reading_a self <= 10) ->
  read_tenant_a self x
  = (set_meter_a self (energy_a self) (daily_energy_a self) (clock_now x),
     Some (mkTenantData (voltage data) (current data) (power data)
             (energy_a self) (frequency data) (power_factor data)
             (timestamp data) (daily_energy_a self)
             (daily_energy_a self * Config.ENERGY_RATE_GHS)%Q)).
Proof.
  intros Hr Hd Hn. unfold read_tenant_a. rewrite Hr, Hd. cbn [returned].
  destruct (Z.ltb_spec 0 (last_reading_a self)); [|reflexivity].
  destruct (Z.ltb_spec 0 (clock_now x - last_reading_a self));
    [|reflexivity].
  destruct (Z.leb_spec (clock_now x - last_reading_a self) 10);
    [lia | reflexivity].
Qed.

Lemma read_tenant_b_integrates data :
  uart_raises x = false ->
  read_response (collected x) (address_b self) (clock_stamp x) = Decoded data ->
  0 < last_reading_b self ->
  0 < clock_now x - last_reading_b self <= 10 ->
  let inc :=
    (power data * inject_Z (clock_now x - last_reading_b self)
     / 3600 / 1000)%Q in
  let e := (energy_b self + inc)%Q in
  let d := (daily_energy_b self + inc)%Q in
  read_tenant_b self x
  = (set_meter_b self e d (clock_now x),
     Some (mkTenantData (voltage data) (current data) (power data) e
             (frequency data) (power_factor data) (timestamp data) d
             (d * Config.ENERGY_RATE_GHS)%Q)).
Proof.
  intros Hr Hd Hl Hw. unfold read_tenant_b. rewrite Hr, Hd. cbn [returned].
  destruct (Z.ltb_spec 0 (last_reading_b self)); [|lia].
  destruct (Z.ltb_spec 0 (clock_now x - last_reading_b self)); [|lia].
  destruct (Z.leb_spec (clock_now x - last_reading_b self) 10); [|lia].
  reflexivity.
Qed.

Lemma read_tenant_b_skips data :
  uart_raises x = false ->
  read_response (collected x) (address_b self) (clock_stamp x) = Decoded data ->
  ~ (0 < last_reading_b self
     /\ 0 < clock_now x - last_reading_b self <= 10) ->
  read_tenant_b self x
  = (set_meter_b self (energy_b self) (daily_energy_b self) (clock_now x),
     Some (mkTenantData (voltage data) (current data) (power data)
             (energy_b self) (frequency data) (power_factor data)
             (timestamp data) (daily_energy_b self)
             (daily_energy_b self * Config.ENERGY_RATE_GHS)%Q)).
Proof.
  intros Hr Hd Hn. unfold read_tenant_b. rewrite Hr, Hd. cbn [returned].
  destruct (Z.ltb_spec 0 (last_reading_b self)); [|reflexivity].
  destruct (Z.ltb_spec 0 (clock_now x - last_reading_b self));
    [|reflexivity].
  destruct (Z.leb_spec (clock_now x - last_reading_b self) 10);
    [lia | reflexivity].
Qed.

End Metering.

(** C7. When a poll fails (the UART raises, or [read_response] rejects what
    was collected, for whatever reason), [read_tenant_a] and [read_tenant_b]
    return a reading whose voltage, current, power, frequency and power factor
    are 0 and whose energy, daily energy and daily cost are the meter's
    existing totals, and they leave the handler, hence both accumulators of
    both meters, unchanged. *)
Theorem failed_poll_preserves_totals (self : PZEMHandler) (x : Exchange) :
  (poll_fails (address_a self) x ->
   exists data,
     read_tenant_a self x = (self, Some data)
     /\ td_voltage data = 0%Q /\ td_current data = 0%Q /\ td_power data = 0%Q
     /\ td_frequency data = 0%Q /\ td_power_factor data = 0%Q
     /\ td_energy data = energy_a self
     /\ td_daily_energy data = daily_energy_a self
     /\ td_daily_cost data = (daily_energy_a self * Config.ENERGY_RATE_GHS)%Q)
  /\ (poll_fails (address_b self) x ->
      exists data,
        read_tenant_b self x = (self, Some data)
        /\ td_voltage data = 0%Q /\ td_current data = 0%Q /\ td_power data = 0%Q
        /\ td_frequency data = 0%Q /\ td_power_factor data = 0%Q
        /\ td_energy data = energy_b self
        /\ td_daily_energy data = daily_energy_b self
        /\ td_daily_cost data = (daily_energy_b self * Config.ENERGY_RATE_GHS)%Q).
Proof.
  split; intros Hf.
  - rewrite (read_tenant_a_failed self x Hf). eexists. split; [reflexivity|].
    repeat split.
  - rewrite (read_tenant_b_failed self x Hf). eexists. split; [reflexivity|].
    repeat split.
Qed.

Lemma failed_poll_preserves_totals_witness :
  let self := mkHandler 0x01 0x02 (5 # 2) (7 # 2) (1 # 4) (3 # 4) 100 100 in
  let x := exchange_at (firstn 24 kilowatt_response_a) 105 in
  fst (read_tenant_a self x) = self /\ fst (read_tenant_b self x) = self.
Proof.
  intros self x.
  destruct (failed_poll_preserves_totals self x) as [Ha Hb].
  split.
  - destruct Ha as (data & -> & _); [|reflexivity].
    right. eexists. vm_compute. reflexivity.
  - destruct Hb as (data & -> & _); [|reflexivity].
    right. eexists. vm_compute. reflexivity.
Defined.

Lemma kilowatt_increment (e e' p : Q) :
  (p == 1000)%Q -> e' = (e + p * inject_Z 5 / 3600 / 1000)%Q ->
  (e' - e == 1 # 720)%Q
  /\ (Qabs (e' - e - (13889 # 10000000)) <= 1 # 1000000)%Q.
Proof.
  intros Hp ->.
  assert (H : (e + p * inject_Z 5 / 3600 / 1000 - e == 1 # 720)%Q).
  { rewrite Hp. unfold Qdiv. change (inject_Z 5) with (5 # 1).
    change (/ 3600)%Q with (1 # 3600). change (/ 1000)%Q with (1 # 1000).
    ring_simplify. reflexivity. }
  split; [exact H|].
  apply Qabs_Qle_condition.
  setoid_replace (e + p * inject_Z 5 / 3600 / 1000 - e - (13889 # 10000000))%Q
    with ((1 # 720) - (13889 # 10000000))%Q by (rewrite <- H; ring).
  split; vm_compute; discriminate.
Qed.


(** C2 (amended). For every successfully decoded reading at time [nowSec]
    the handler sets the meter's last sample time to [nowSec]
    unconditionally; it adds [power * delta / 3600 / 1000] with
    [delta = nowSec - lastSampleTimeSec] to both the lifetime and the daily
    accumulator if and only if [lastSampleTimeSec > 0] (the handler's way of
    recording that a previous sample exists; a sample taken at time 0 does
    not count as one) and [0 < delta <= 10]. In particular a sample of
    1000 W taken 5 s after a sample at a positive time increases both
    accumulators by 1/720 kWh, which is 0.0013889 kWh within 1e-6, and a
    sample taken 15 s after the previous one changes neither. *)
Theorem energy_integration (self : PZEMHandler) (x : Exchange) (data : Reading) :
  uart_raises x = false ->
  (read_response (collected x) (address_a self) (clock_stamp x) = Decoded data ->
   let h := fst (read_tenant_a self x) in
   let delta := clock_now x - last_reading_a self in
   last_reading_a h = clock_now x
   /\ (0 < last_reading_a self /\ 0 < delta <= 10 ->
       energy_a h
       = (energy_a self + power data * inject_Z delta / 3600 / 1000)%Q
       /\ daily_energy_a h
          = (daily_energy_a self + power data * inject_Z delta / 3600 / 1000)%Q)
   /\ (~ (0 < last_reading_a self /\ 0 < delta <= 10) ->
       energy_a h = energy_a self /\ daily_energy_a h = daily_energy_a self)
   /\ (0 < last_reading_a self -> delta = 5 -> (power data == 1000)%Q ->
       (energy_a h - energy_a self == 1 # 720)%Q
       /\ (daily_energy_a h - daily_energy_a self == 1 # 720)%Q
       /\ (Qabs (energy_a h - energy_a self - (13889 # 10000000))
           <= 1 # 1000000)%Q
       /\ (Qabs (daily_energy_a h - daily_energy_a self - (13889 # 10000000))
           <= 1 # 1000000)%Q)
   /\ (delta = 15 ->
       energy_a h = energy_a self /\ daily_energy_a h = daily_energy_a self))
  /\ (read_response (collected x) (address_b self) (clock_stamp x) = Decoded data ->
      let h := fst (read_tenant_b self x) in
      let delta := clock_now x - last_reading_b self in
      last_reading_b h = clock_now x
      /\ (0 < last_reading_b self /\ 0 < delta <= 10 ->
          energy_b h
          = (energy_b self + power data * inject_Z delta / 3600 / 1000)%Q
          /\ daily_energy_b h
             = (daily_energy_b self
                + power data * inject_Z delta / 3600 / 1000)%Q)
      /\ (~ (0 < last_reading_b self /\ 0 < delta <= 10) ->
          energy_b h = energy_b self /\ daily_energy_b h = daily_energy_b self)
      /\ (0 < last_reading_b self -> delta = 5 -> (power data == 1000)%Q ->
          (energy_b h - energy_b self == 1 # 720)%Q
          /\ (daily_energy_b h - daily_energy_b self == 1 # 720)%Q
          /\ (Qabs (energy_b h - energy_b self - (13889 # 10000000))
              <= 1 # 1000000)%Q
          /\ (Qabs (daily_energy_b h - daily_energy_b self
                    - (13889 # 10000000))
              <= 1 # 1000000)%Q)
      /\ (delta = 15 ->
          energy_b h = energy_b self /\ daily_energy_b h = daily_energy_b self)).
Proof.
  intros Hx. split; intros Hd h delta.
  - assert (Hin : 0 < last_reading_a self /\ 0 < delta <= 10 ->
                  energy_a h
                  = (energy_a self + power data * inject_Z delta / 3600 / 1000)%Q
                  /\ daily_energy_a h
                     = (daily_energy_a self
                        + power data * inject_Z delta / 3600 / 1000)%Q).
    { intros [Hl Hw]. subst h.
      rewrite (read_tenant_a_integrates self x data Hx Hd Hl Hw).
      split; reflexivity. }
    assert (Hout : ~ (0 < last_reading_a self /\ 0 < delta <= 10) ->
                   energy_a h = energy_a self
                   /\ daily_energy_a h = daily_energy_a self).
    { intros Hn. subst h.
      rewrite (read_tenant_a_skips self x data Hx Hd Hn). split; reflexivity. }
    split; [|split; [exact Hin|split; [exact Hout|split]]].
    + subst h.
      destruct (Z_lt_dec 0 (last_reading_a self)) as [Hl|Hl];
        [destruct (Z_lt_dec 0 delta) as [H0|H0];
         [destruct (Z_le_dec delta 10) as [H1|H1]|]|].
      * now rewrite (read_tenant_a_integrates self x data Hx Hd Hl (conj H0 H1)).
      * rewrite (read_tenant_a_skips self x data Hx Hd); [reflexivity|].
        fold delta. lia.
      * rewrite (read_tenant_a_skips self x data Hx Hd); [reflexivity|].
        fold delta. lia.
      * rewrite (read_tenant_a_skips self x data Hx Hd); [reflexivity|].
        fold delta. lia.
    + intros Hl H5 Hp. destruct Hin as [He Hday]; [lia|].
      rewrite H5 in He, Hday.
      destruct (kilowatt_increment _ _ _ Hp He) as [E1 E2].
      destruct (kilowatt_increment _ _ _ Hp Hday) as [D1 D2].
      repeat split; assumption.
    + intros H15. apply Hout. lia.
  - assert (Hin : 0 < last_reading_b self /\ 0 < delta <= 10 ->
                  energy_b h
                  = (energy_b self + power data * inject_Z delta / 3600 / 1000)%Q
                  /\ daily_energy_b h
                     = (daily_energy_b self
                        + power data * inject_Z delta / 3600 / 1000)%Q).
    { intros [Hl Hw]. subst h.
      rewrite (read_tenant_b_integrates self x data Hx Hd Hl Hw).
      split; reflexivity. }
    assert (Hout : ~ (0 < last_reading_b self /\ 0 < delta <= 10) ->
                   energy_b h = energy_b self
                   /\ daily_energy_b h = daily_energy_b self).
    { intros Hn. subst h.
      rewrite (read_tenant_b_skips self x data Hx Hd Hn). split; reflexivity. }
    split; [|split; [exact Hin|split; [exact Hout|split]]].
    + subst h.
      destruct (Z_lt_dec 0 (last_reading_b self)) as [Hl|Hl];
        [destruct (Z_lt_dec 0 delta) as [H0|H0];
         [destruct (Z_le_dec delta 10) as [H1|H1]|]|].
      * now rewrite (read_tenant_b_integrates self x data Hx Hd Hl (conj H0 H1)).
      * rewrite (read_tenant_b_skips self x data Hx Hd); [reflexivity|].
        fold delta. lia.
      * rewrite (read_tenant_b_skips self x data Hx Hd); [reflexivity|].
        fold delta. lia.
      * rewrite (read_tenant_b_skips self x data Hx Hd); [reflexivity|].
        fold delta. lia.
    + intros Hl H5 Hp. destruct Hin as [He Hday]; [lia|].
      rewrite H5 in He, Hday.
      destruct (kilowatt_increment _ _ _ Hp He) as [E1 E2].
      destruct (kilowatt_increment _ _ _ Hp Hday) as [D1 D2].
      repeat split; assumption.
    + intros H15. apply Hout. lia.
Qed.

Lemma energy_integration_witness :
  let self := fst (read_tenant_a new_handler (exchange_at kilowatt_response_a 100)) in
  let h := fst (read_tenant_a self (exchange_at kilowatt_response_a 105)) in
  last_reading_a self = 100
  /\ (energy_a h - energy_a self == 1 # 720)%Q
  /\ (Qabs (energy_a h - energy_a self - (13889 # 10000000)) <= 1 # 1000000)%Q.
Proof.
  intros self h.
  assert (Hd : exists data,
             read_response kilowatt_response_a 0x01 105 = Decoded data
             /\ (power data == 1000)%Q).
  { eexists. split; [vm_compute; reflexivity | vm_compute; reflexivity]. }
  destruct Hd as (data & Hd & Hp).
  destruct (energy_integration self (exchange_at kilowatt_response_a 105) data
              eq_refl) as [Ha _].
  destruct (Ha Hd) as (_ & _ & _ & H5 & _).
  destruct H5 as (E & _ & A & _);
    [vm_compute; reflexivity | vm_compute; reflexivity | exact Hp |].
  split; [vm_compute; reflexivity|]. split; [exact E | exact A].
Defined.

(** C2, as stated, fails for its own example: after samples of 1000 W at
    t=0 and at t=5 the lifetime and daily accumulators are unchanged, because
    the time stamp 0 left by the first sample is the handler's mark for "no
    previous sample". *)
Lemma sample_at_time_zero_not_integrated :
  let first := exchange_at kilowatt_response_a 0 in
  let second := exchange_at kilowatt_response_a 5 in
  let h1 := fst (read_tenant_a new_handler first) in
  let h2 := fst (read_tenant_a h1 second) in
  (exists data, read_response kilowatt_response_a 0x01 5 = Decoded data
                /\ (power data == 1000)%Q)
  /\ energy_a h2 = energy_a h1
  /\ daily_energy_a h2 = daily_energy_a h1
  /\ ~ (Qabs (energy_a h2 - energy_a h1 - (13889 # 10000000))
        <= 1 # 1000000)%Q
  /\ ~ (Qabs (daily_energy_a h2 - daily_energy_a h1 - (13889 # 10000000))
        <= 1 # 1000000)%Q.
Proof.
  cbv zeta. split; [|split; [|split; [|split]]].
  - eexists. split; vm_compute; reflexivity.
  - vm_compute. reflexivity.
  - vm_compute. reflexivity.
  - vm_compute. intros H. now apply H.
  - vm_compute. intros H. now apply H.
Qed.

(** ** Monotonicity of the accumulators *)

Section Monotone.

Lemma is_bytes_nth (l : list Z) (k : nat) :
  is_bytes l = true -> 0 <= nth k l 0 < 256.
Proof.
  intros Hl. destruct (Nat.lt_ge_cases k (length l)) as [Hk|Hk].
  - apply is_byte_spec.
    exact (proj1 (forallb_forall is_byte l) Hl _ (nth_In l 0 Hk)).
  - rewrite nth_overflow by assumption. lia.
Qed.

Lemma register_nonneg (response : list Z) (k : nat) :
  is_bytes response = true -> 0 <= register response k.
Proof.
  intros Hb. unfold register.
  pose proof (is_bytes_nth response (3 + 2 * k) Hb).
  pose proof (is_bytes_nth response (4 + 2 * k) Hb). lia.
Qed.

Lemma Qdiv10_nonneg (z : Z) : 0 <= z -> (0 <= inject_Z z / 10)%Q.
Proof. intros Hz. unfold Qle, Qdiv, Qmult, Qinv, inject_Z. simpl. lia. Qed.

Lemma decoded_power_nonneg (response : list Z) (address now : Z) data :
  is_bytes response = true ->
  read_response response address now = Decoded data ->
  (0 <= power data)%Q.
Proof.
  intros Hb Hd. apply read_response_decoded in Hd as [_ ->].
  unfold extract_measurements; cbn [power].
  apply Qdiv10_nonneg. apply Z.lor_nonneg. split.
  - apply Z.shiftl_nonneg. now apply (register_nonneg response 4).
  - now apply (register_nonneg response 3).
Qed.

Lemma increment_nonneg (p : Q) (delta : Z) :
  (0 <= p)%Q -> 0 < delta -> (0 <= p * inject_Z delta / 3600 / 1000)%Q.
Proof.
  intros Hp Hd. unfold Qdiv.
  repeat apply Qmult_le_0_compat; try assumption; try discriminate.
  change 0%Q with (inject_Z 0). rewrite <- Zle_Qle. lia.
Qed.

Lemma read_tenant_a_monotone (self : PZEMHandler) (x : Exchange) :
  is_bytes (collected x) = true ->
  let h := fst (read_tenant_a self x) in
  (energy_a self <= energy_a h)%Q
  /\ (daily_energy_a self <= daily_energy_a h)%Q
  /\ energy_b h = energy_b self /\ daily_energy_b h = daily_energy_b self.
Proof.
  intros Hb h. subst h.
  destruct (uart_raises x) eqn:Hx.
  - rewrite read_tenant_a_failed by (now left).
    cbn [fst]. repeat split; apply Qle_refl.
  - destruct (read_response (collected x) (address_a self) (clock_stamp x))
      as [data|why] eqn:Hd.
    + pose proof (decoded_power_nonneg _ _ _ _ Hb Hd) as Hp.
      destruct (Z_lt_dec 0 (last_reading_a self)) as [Hl|Hl];
        [destruct (Z_lt_dec 0 (clock_now x - last_reading_a self)) as [H0|H0];
         [destruct (Z_le_dec (clock_now x - last_reading_a self) 10)
           as [H1|H1]|]|].
      * rewrite (read_tenant_a_integrates self x data Hx Hd Hl (conj H0 H1)).
        cbn [fst set_meter_a energy_a daily_energy_a energy_b daily_energy_b].
        pose proof (increment_nonneg _ _ Hp H0).
        repeat split; lra.
      * rewrite (read_tenant_a_skips self x data Hx Hd) by lia.
        cbn [fst]. repeat split; apply Qle_refl.
      * rewrite (read_tenant_a_skips self x data Hx Hd) by lia.
        cbn [fst]. repeat split; apply Qle_refl.
      * rewrite (read_tenant_a_skips self x data Hx Hd) by lia.
        cbn [fst]. repeat split; apply Qle_refl.
    + rewrite read_tenant_a_failed by (right; now exists why).
      cbn [fst]. repeat split; apply Qle_refl.
Qed.

Lemma read_tenant_b_monotone (self : PZEMHandler) (x : Exchange) :
  is_bytes (collected x) = true ->
  let h := fst (read_tenant_b self x) in
  (energy_b self <= energy_b h)%Q
  /\ (daily_energy_b self <= daily_energy_b h)%Q
  /\ energy_a h = energy_a self /\ daily_energy_a h = daily_energy_a self.
Proof.
  intros Hb h. subst h.
  destruct (uart_raises x) eqn:Hx.
  - rewrite read_tenant_b_failed by (now left).
    cbn [fst]. repeat split; apply Qle_refl.
  - destruct (read_response (collected x) (address_b self) (clock_stamp x))
      as [data|why] eqn:Hd.
    + pose proof (decoded_power_nonneg _ _ _ _ Hb Hd) as Hp.
      destruct (Z_lt_dec 0 (last_reading_b self)) as [Hl|Hl];
        [destruct (Z_lt_dec 0 (clock_now x - last_reading_b self)) as [H0|H0];
         [destruct (Z_le_dec (clock_now x - last_reading_b self) 10)
           as [H1|H1]|]|].
      * rewrite (read_tenant_b_integrates self x data Hx Hd Hl (conj H0 H1)).
        cbn [fst set_meter_b energy_a daily_energy_a energy_b daily_energy_b].
        pose proof (increment_nonneg _ _ Hp H0).
        repeat split; lra.
      * rewrite (read_tenant_b_skips self x data Hx Hd) by lia.
        cbn [fst]. repeat split; apply Qle_refl.
      * rewrite (read_tenant_b_skips self x data Hx Hd) by lia.
        cbn [fst]. repeat split; apply Qle_refl.
      * rewrite (read_tenant_b_skips self x data Hx Hd) by lia.
        cbn [fst]. repeat split; apply Qle_refl.
    + rewrite read_tenant_b_failed by (right; now exists why).
      cbn [fst]. repeat split; apply Qle_refl.
Qed.

Lemma apply_op_monotone (self : PZEMHandler) (op : HandlerOp) :
  op_bytes op = true ->
  (energy_a self <= energy_a (apply_op self op))%Q
  /\ (energy_b self <= energy_b (apply_op self op))%Q.
Proof.
  intros Hb. destruct op as [x|x|]; cbn [apply_op op_bytes] in *.
  - destruct (read_tenant_a_monotone self x Hb) as (H1 & _ & H2 & _).
    rewrite H2. split; [assumption | apply Qle_refl].
  - destruct (read_tenant_b_monotone self x Hb) as (H1 & _ & H2 & _).
    rewrite H2. split; [apply Qle_refl | assumption].
  - split; apply Qle_refl.
Qed.

End Monotone.

(** C10. Over any sequence of reads of either meter (successful or failed)
    and daily resets, the lifetime accumulator of each meter never decreases:
    the power that [read_response] decodes from bytes is non-negative, the
    time difference of an integrated sample is positive, and
    [reset_daily_counters] sets the two daily accumulators to 0 and changes
    nothing else. A daily accumulator decreases only in a daily reset. *)
Theorem lifetime_energy_monotone (self : PZEMHandler) (ops : list HandlerOp) :
  forallb op_bytes ops = true ->
  let final := fold_left apply_op ops self in
  ((energy_a self <= energy_a final)%Q /\ (energy_b self <= energy_b final)%Q)
  /\ (forall h op, op_bytes op = true ->
        (daily_energy_a (apply_op h op) < daily_energy_a h
         \/ daily_energy_b (apply_op h op) < daily_energy_b h)%Q ->
        op = op_reset_daily)
  /\ (forall h,
        daily_energy_a (reset_daily_counters h) = 0%Q
        /\ daily_energy_b (reset_daily_counters h) = 0%Q
        /\ energy_a (reset_daily_counters h) = energy_a h
        /\ energy_b (reset_daily_counters h) = energy_b h
        /\ last_reading_a (reset_daily_counters h) = last_reading_a h
        /\ last_reading_b (reset_daily_counters h) = last_reading_b h)
  /\ (forall response address now data,
        is_bytes response = true ->
        read_response response address now = Decoded data ->
        (0 <= power data)%Q).
Proof.
  intros Hops final. split; [|split; [|split]].
  - subst final. revert self Hops.
    induction ops as [|op ops IH]; intros self Hops.
    + split; apply Qle_refl.
    + cbn [forallb] in Hops. apply andb_true_iff in Hops as [Hop Hops].
      cbn [fold_left].
      destruct (apply_op_monotone self op Hop) as [Ha Hb].
      destruct (IH (apply_op self op) Hops) as [Ha' Hb'].
      split; eapply Qle_trans; eassumption.
  - intros h [x|x|] Hb Hlt; [exfalso | exfalso | reflexivity];
      cbn [apply_op op_bytes] in *.
    + destruct (read_tenant_a_monotone h x Hb) as (_ & H1 & _ & H2).
      rewrite H2 in Hlt. destruct Hlt as [Hlt|Hlt]; [lra|].
      now apply Qlt_irrefl in Hlt.
    + destruct (read_tenant_b_monotone h x Hb) as (_ & H1 & _ & H2).
      rewrite H2 in Hlt. destruct Hlt as [Hlt|Hlt]; [|lra].
      now apply Qlt_irrefl in Hlt.
  - intros h. repeat split.
  - intros response address now data. apply decoded_power_nonneg.
Qed.

Lemma lifetime_energy_monotone_witness :
  let ops := [op_read_a (exchange_at kilowatt_response_a 100);
              op_read_b (exchange_at kilowatt_response_b 101);
              op_read_a (exchange_at kilowatt_response_a 105);
              op_reset_daily;
              op_read_a (exchange_at (firstn 7 kilowatt_response_a) 106);
              op_read_b (exchange_at kilowatt_response_b 107)] in
  let final := fold_left apply_op ops new_handler in
  (energy_a new_handler <= energy_a final)%Q
  /\ (energy_b new_handler <= energy_b final)%Q
  /\ (energy_a final == 1 # 720)%Q
  /\ (daily_energy_a final == 0)%Q.
Proof.
  intros ops final.
  destruct (lifetime_energy_monotone new_handler ops eq_refl) as [[Ha Hb] _].
  split; [exact Ha|]. split; [exact Hb|].
  split; vm_compute; reflexivity.
Defined.

Import Main.

(** ** Validation *)

Section Validation.

Lemma range_test (lo x hi : Q) :
  Qlt_bool 0 x && (Qlt_bool x lo || Qlt_bool hi x) = true
  <-> (0 < x /\ (x < lo \/ hi < x))%Q.
Proof.
  rewrite andb_true_iff, orb_true_iff, !Qlt_bool_iff. reflexivity.
Qed.

Lemma bounds_test (lo x hi : Q) :
  Qlt_bool x lo || Qlt_bool hi x = true <-> (x < lo \/ hi < x)%Q.
Proof. rewrite orb_true_iff, !Qlt_bool_iff. reflexivity. Qed.

Lemma load_test (v c : Q) :
  Qlt_bool 10 v && Qlt_bool (1 # 100) c = true <-> (10 < v /\ (1 # 100) < c)%Q.
Proof. rewrite andb_true_iff, !Qlt_bool_iff. reflexivity. Qed.

Lemma bool_false_iff (b : bool) (P : Prop) :
  (b = true <-> P) -> (b = false <-> ~ P).
Proof. intros H. rewrite <- H. symmetry. apply not_true_iff_false. Qed.

End Validation.

Ltac reflect_tests :=
  repeat match goal with
         | E : Qlt_bool 0 _ && (Qlt_bool _ _ || Qlt_bool _ _) = true |- _ =>
             apply range_test in E
         | E : Qlt_bool 0 _ && (Qlt_bool _ _ || Qlt_bool _ _) = false |- _ =>
             apply (bool_false_iff _ _ (range_test _ _ _)) in E
         | E : Qlt_bool _ _ || Qlt_bool _ _ = true |- _ =>
             apply bounds_test in E
         | E : Qlt_bool _ _ || Qlt_bool _ _ = false |- _ =>
             apply (bool_false_iff _ _ (bounds_test _ _ _)) in E
         | E : Qlt_bool 10 _ && Qlt_bool _ _ = true |- _ =>
             apply load_test in E
         | E : Qlt_bool 10 _ && Qlt_bool _ _ = false |- _ =>
             apply (bool_false_iff _ _ (load_test _ _)) in E
         | E : Qlt_bool _ _ = true |- _ => apply Qlt_bool_iff in E
         | E : Qlt_bool _ _ = false |- _ =>
             apply (bool_false_iff _ _ (Qlt_bool_iff _ _)) in E
         end.





(** ** The scheduler *)

Section Scheduler.

(** What [_read_tenant_data] leaves alone. *)
Lemma read_tenant_data_frame (self : PZEMTestMonitor) (t : tenant)
    (x : Exchange) :
  let self' := fst (_read_tenant_data self t x) in
  running self' = running self
  /\ last_daily_reset self' = last_daily_reset self
  /\ test_mode self' = test_mode self
  /\ max_consecutive_errors self' = max_consecutive_errors self
  /\ read_count self' = read_count self
  /\ last_reading self' = last_reading self
  /\ last_stats_print self' = last_stats_print self
  /\ last_gc_run self' = last_gc_run self
  /\ (pzem self' = None <-> pzem self = None).
Proof.
  unfold _read_tenant_data.
  destruct (pzem self) as [handler|] eqn:Hp.
  - destruct t;
      [destruct (read_tenant_a handler x) as [h' [d|]]
      |destruct (read_tenant_b handler x) as [h' [d|]]];
      try destruct (_validate_data (Some d));
      cbn; repeat split; try discriminate; try congruence.
  - cbn. rewrite Hp. repeat split; auto.
Qed.

(** The handler that [_read_tenant_data] leaves is the one that the read
    operation produced, whatever the verdict on the data. *)
Lemma read_tenant_data_handler (self : PZEMTestMonitor) (t : tenant)
    (x : Exchange) (handler : PZEMHandler) :
  pzem self = Some handler ->
  pzem (fst (_read_tenant_data self t x))
  = Some (match t with
          | tenant_a => fst (read_tenant_a handler x)
          | tenant_b => fst (read_tenant_b handler x)
          end).
Proof.
  intros Hp. unfold _read_tenant_data. rewrite Hp.
  destruct t;
    [destruct (read_tenant_a handler x) as [h' [d|]]
    |destruct (read_tenant_b handler x) as [h' [d|]]];
    try destruct (_validate_data (Some d)); reflexivity.
Qed.

(** The status and the failure streak. *)
Lemma read_tenant_data_streak (self : PZEMTestMonitor) (t : tenant)
    (x : Exchange) :
  let self' := fst (_read_tenant_data self t x) in
  let status := snd (snd (_read_tenant_data self t x)) in
  let other := match t with tenant_a => tenant_b | tenant_b => tenant_a end in
  get (consecutive_errors self') other = get (consecutive_errors self) other
  /\ match status with
     | status_ok =>
         get (consecutive_errors self') t = 0
         /\ get (stats self') t = bump (get (stats self) t) r_success
     | status_timeout =>
         get (consecutive_errors self') t
         = get (consecutive_errors self) t + 1
         /\ get (stats self') t = bump (get (stats self) t) r_timeout
     | status_invalid _ =>
         get (consecutive_errors self') t
         = get (consecutive_errors self) t + 1
         /\ get (stats self') t = bump (get (stats self) t) r_invalid
     | status_error =>
         get (consecutive_errors self') t
         = get (consecutive_errors self) t + 1
         /\ get (stats self') t = bump (get (stats self) t) r_error
     end.
Proof.
  unfold _read_tenant_data.
  destruct (pzem self) as [handler|] eqn:Hp.
  - destruct t;
      [destruct (read_tenant_a handler x) as [h' [d|]]
      |destruct (read_tenant_b handler x) as [h' [d|]]];
      try destruct (_validate_data (Some d));
      cbn; repeat split; reflexivity.
  - destruct t; cbn; repeat split; reflexivity.
Qed.

End Scheduler.

Lemma read_tenant_a_returns (handler : PZEMHandler) (x : Exchange) :
  exists out, snd (read_tenant_a handler x) = Some out.
Proof.
  unfold read_tenant_a. destruct (uart_raises x); [eexists; reflexivity|].
  destruct (returned _) as [data|]; [|eexists; reflexivity].
  destruct (0 <? last_reading_a handler);
    [destruct ((0 <? _) && _)|]; eexists; reflexivity.
Qed.

Lemma read_tenant_b_returns (handler : PZEMHandler) (x : Exchange) :
  exists out, snd (read_tenant_b handler x) = Some out.
Proof.
  unfold read_tenant_b. destruct (uart_raises x); [eexists; reflexivity|].
  destruct (returned _) as [data|]; [|eexists; reflexivity].
  destruct (0 <? last_reading_b handler);
    [destruct ((0 <? _) && _)|]; eexists; reflexivity.
Qed.




(** ** Initialisation and restart *)

Section Reinitialise.

Variable self : PZEMTestMonitor.
Variable env : nat -> InitAttempt.

Lemma test_connectivity_new (m : PZEMTestMonitor) (probe_a probe_b : Exchange) :
  _test_connectivity (with_pzem m (Some new_handler)) probe_a probe_b
  = (with_pzem m (Some (probed probe_a probe_b)), true).
Proof.
  unfold _test_connectivity, probed. cbn [pzem with_pzem].
  destruct (read_tenant_a_returns new_handler probe_a) as [da Ha].
  destruct (read_tenant_a new_handler probe_a) as [h1 oa].
  cbn [fst snd] in *. subst oa.
  destruct (read_tenant_b_returns h1 probe_b) as [db Hb].
  destruct (read_tenant_b h1 probe_b) as [h2 ob].
  cbn [fst snd] in *. subst ob. reflexivity.
Qed.

Lemma initialize_first probe_a probe_b :
  env 0%nat = ctor_ok probe_a probe_b ->
  _initialize_pzem self env
  = (with_pzem self (Some (probed probe_a probe_b)), [ev_attempt 1]).
Proof.
  intros E0. unfold _initialize_pzem, max_retries. cbn [initialize_from].
  rewrite E0, test_connectivity_new. reflexivity.
Qed.

Lemma initialize_second probe_a probe_b :
  env 0%nat = ctor_raises ->
  env 1%nat = ctor_ok probe_a probe_b ->
  _initialize_pzem self env
  = (with_pzem self (Some (probed probe_a probe_b)),
     [ev_attempt 1] ++ closing self ++ [ev_sleep 2; ev_attempt 2]).
Proof.
  intros E0 E1. unfold _initialize_pzem, max_retries. cbn [initialize_from].
  rewrite E0. cbn [close_and_clear Nat.add Nat.ltb Nat.leb Nat.sub].
  rewrite E1, test_connectivity_new. cbn [with_pzem pzem]. reflexivity.
Qed.

Lemma initialize_third probe_a probe_b :
  env 0%nat = ctor_raises ->
  env 1%nat = ctor_raises ->
  env 2%nat = ctor_ok probe_a probe_b ->
  _initialize_pzem self env
  = (with_pzem self (Some (probed probe_a probe_b)),
     [ev_attempt 1] ++ closing self
       ++ [ev_sleep 2; ev_attempt 2; ev_sleep 4; ev_attempt 3]).
Proof.
  intros E0 E1 E2. unfold _initialize_pzem, max_retries.
  cbn [initialize_from].
  rewrite E0. cbn [close_and_clear Nat.add Nat.ltb Nat.leb Nat.sub].
  rewrite E1. cbn [close_and_clear Nat.add Nat.ltb Nat.leb Nat.sub
                     with_pzem pzem].
  rewrite E2, test_connectivity_new. reflexivity.
Qed.

Lemma initialize_exhausted :
  env 0%nat = ctor_raises ->
  env 1%nat = ctor_raises ->
  env 2%nat = ctor_raises ->
  _initialize_pzem self env
  = (with_running (with_pzem self None) false,
     [ev_attempt 1] ++ closing self
       ++ [ev_sleep 2; ev_attempt 2; ev_sleep 4; ev_attempt 3;
           ev_init_failed]).
Proof.
  intros E0 E1 E2. unfold _initialize_pzem, max_retries.
  cbn [initialize_from].
  rewrite E0. cbn [close_and_clear Nat.add Nat.ltb Nat.leb Nat.sub].
  rewrite E1. cbn [close_and_clear Nat.add Nat.ltb Nat.leb Nat.sub
                     with_pzem pzem].
  rewrite E2. cbn [close_and_clear Nat.add Nat.ltb Nat.leb Nat.sub
                     with_pzem pzem]. reflexivity.
Qed.

End Reinitialise.

Section RestartOutcome.

Variable self : PZEMTestMonitor.
Variable env : nat -> InitAttempt.

Lemma restart_outcome :
  let self' := fst (_restart_pzem_handler self env) in
  let trace := snd (_restart_pzem_handler self env) in
  hd_error trace = Some ev_restarting
  /\ (pzem self <> None -> nth_error trace 1 = Some ev_close)
  /\ (1 <= attempts trace <= 3)%nat
  /\ delays trace = firstn (attempts trace - 1) [2; 4]
  /\ daily_resets trace = 0%nat
  /\ restarts trace = true
  /\ (reinitialised self env self' trace \/ exhausted self env self' trace).
Proof.
  unfold _restart_pzem_handler, reinitialised, exhausted.
  set (m := with_consecutive_errors self (mkPer 0 0)).
  assert (Hc : closing m = closing self) by reflexivity.
  destruct (env 0%nat) as [|a0 b0] eqn:E0;
    [destruct (env 1%nat) as [|a1 b1] eqn:E1;
     [destruct (env 2%nat) as [|a2 b2] eqn:E2|]|].
  - rewrite (initialize_exhausted m env E0 E1 E2). rewrite Hc.
    unfold closing. destruct (pzem self) as [h|]; cbn;
      (repeat split; try reflexivity; try lia; try congruence;
       right; repeat split; auto 10;
       intros k Hk;
       destruct k as [|[|[|k]]]; try assumption; lia).
  - rewrite (initialize_third m env a2 b2 E0 E1 E2). rewrite Hc.
    unfold closing. destruct (pzem self) as [h|]; cbn;
      (repeat split; try reflexivity; try lia; try congruence;
       left; exists a2, b2; repeat split; auto;
       intros k Hk; destruct k as [|[|k]]; try assumption; lia).
  - rewrite (initialize_second m env a1 b1 E0 E1). rewrite Hc.
    unfold closing. destruct (pzem self) as [h|]; cbn;
      (repeat split; try reflexivity; try lia; try congruence;
       left; exists a1, b1; repeat split; auto;
       intros k Hk; destruct k as [|k]; try assumption; lia).
  - rewrite (initialize_first m env a0 b0 E0).
    unfold closing. destruct (pzem self) as [h|]; cbn;
      (repeat split; try reflexivity; try lia; try congruence;
       left; exists a0, b0; repeat split; auto;
       intros k Hk; lia).
Qed.

End RestartOutcome.

Section Polling.

Lemma restart_settings (self : PZEMTestMonitor) (env : nat -> InitAttempt) :
  let self' := fst (_restart_pzem_handler self env) in
  same_settings self self'
  /\ read_count self' = read_count self
  /\ consecutive_errors self' = mkPer 0 0
  /\ (running self' = true -> pzem self' <> None)
  /\ (running self' = true -> running self = true)
  /\ (running self' = false ->
      running self = false
      \/ exhausted self env self' (snd (_restart_pzem_handler self env))).
Proof.
  destruct (restart_outcome self env) as (_ & _ & _ & _ & _ & _ & H).
  cbv zeta in *. unfold same_settings.
  destruct H as [(pa & pb & _ & _ & ->) | Hex].
  - cbn. repeat split; intros; try discriminate; auto.
  - destruct Hex as (A1 & A2 & A3 & A4). rewrite A4.
    cbn. repeat split; intros; try discriminate; auto.
    right. repeat split; auto.
Qed.

Lemma reads_settings (self : PZEMTestMonitor) (t : tenant) (x : Exchange) :
  same_settings self (fst (_read_tenant_data self t x)).
Proof.
  destruct (read_tenant_data_frame self t x) as (_ & H1 & H2 & H3 & _).
  now repeat split.
Qed.

Lemma same_settings_trans (m1 m2 m3 : PZEMTestMonitor) :
  same_settings m1 m2 -> same_settings m2 m3 -> same_settings m1 m3.
Proof. unfold same_settings. intuition congruence. Qed.

Variable self : PZEMTestMonitor.
Variable c : Cycle.

Lemma polling_block_outcome :
  let self' := fst (fst (polling_block self c)) in
  let trace := snd (fst (polling_block self c)) in
  let stop := snd (polling_block self c) in
  let streak t := get (consecutive_errors self) t in
  same_settings self self'
  /\ read_count self' = read_count self + 1
  /\ daily_resets trace = 0%nat
  /\ (restarts trace = true
      <-> max_consecutive_errors self <= streak tenant_a
          \/ max_consecutive_errors self <= streak tenant_b)
  /\ (restarts trace = true ->
      trace = snd (_restart_pzem_handler
                     (with_read_count self (read_count self + 1)) (reinit c)))
  /\ (stop = true ->
      restarts trace = true /\ running self' = false
      /\ self' = fst (_restart_pzem_handler
                        (with_read_count self (read_count self + 1))
                        (reinit c)))
  /\ (stop = false ->
      last_reading self' = cycle_now c
      /\ (pzem self <> None -> pzem self' <> None)
      /\ (restarts trace = true -> running self' = true /\ pzem self' <> None)).
Proof.
  unfold polling_block.
  set (m := with_read_count self (read_count self + 1)).
  assert (Hm : same_settings self m) by (now repeat split).
  unfold _should_restart_handler.
  change (max_consecutive_errors m) with (max_consecutive_errors self).
  change (consecutive_errors m) with (consecutive_errors self).
  destruct (Z.leb_spec (max_consecutive_errors self)
              (get (consecutive_errors self) tenant_a)) as [Ha|Ha];
    [|destruct (Z.leb_spec (max_consecutive_errors self)
                  (get (consecutive_errors self) tenant_b)) as [Hb|Hb]];
    cbn [orb].
  3:{ (* no restart *)
    destruct (_read_tenant_data m tenant_a (exchange_a c)) as [m1 r1] eqn:E1.
    destruct (_read_tenant_data m1 tenant_b (exchange_b c)) as [m2 r2] eqn:E2.
    pose proof (reads_settings m tenant_a (exchange_a c)) as S1.
    pose proof (reads_settings m1 tenant_b (exchange_b c)) as S2.
    pose proof (read_tenant_data_frame m tenant_a (exchange_a c)) as F1.
    pose proof (read_tenant_data_frame m1 tenant_b (exchange_b c)) as F2.
    rewrite E1 in S1, F1. rewrite E2 in S2, F2. cbn [fst snd] in *.
    destruct F1 as (_ & _ & _ & _ & R1 & _ & _ & _ & P1).
    destruct F2 as (_ & _ & _ & _ & R2 & _ & _ & _ & P2).
    split; [eauto using same_settings_trans|].
    split; [cbn; rewrite R2, R1; reflexivity|].
    split; [reflexivity|].
    split; [split; [discriminate | lia]|].
    split; [discriminate|]. split; [discriminate|].
    intros _. split; [reflexivity|]. split; [|discriminate].
    cbn. intros Hp Hn. apply Hp. apply P1, P2. exact Hn. }
  all: pose proof (restart_outcome m (reinit c)) as (_ & _ & _ & _ & Hr & Hs & _);
    pose proof (restart_settings m (reinit c)) as (S0 & R0 & _ & P0 & _);
    cbv zeta in *;
    destruct (_restart_pzem_handler m (reinit c)) as [m0 tr] eqn:E0;
    cbn [fst snd] in *;
    destruct (running m0) eqn:Erun; cbn [negb];
    [ destruct (_read_tenant_data m0 tenant_a (exchange_a c))
        as [m1 r1] eqn:E1;
      destruct (_read_tenant_data m1 tenant_b (exchange_b c))
        as [m2 r2] eqn:E2;
      pose proof (reads_settings m0 tenant_a (exchange_a c)) as S1;
      pose proof (reads_settings m1 tenant_b (exchange_b c)) as S2;
      pose proof (read_tenant_data_frame m0 tenant_a (exchange_a c)) as F1;
      pose proof (read_tenant_data_frame m1 tenant_b (exchange_b c)) as F2;
      rewrite E1 in S1, F1; rewrite E2 in S2, F2; cbn [fst snd] in *;
      destruct F1 as (G1 & _ & _ & _ & R1 & _ & _ & _ & P1);
      destruct F2 as (G2 & _ & _ & _ & R2 & _ & _ & _ & P2);
      split; [eauto using same_settings_trans|];
      split; [cbn; rewrite R2, R1, R0; reflexivity|];
      split; [assumption|];
      split; [split; [intros _; auto | intros _; assumption]|];
      split; [reflexivity|]; split; [discriminate|];
      intros _; split; [reflexivity|];
      assert (Hp2 : pzem m2 <> None)
        by (intros Hn; apply (P0 eq_refl); apply P1, P2; exact Hn);
      split; [intros _; exact Hp2|];
      intros _; split; [cbn; congruence | exact Hp2]
    | split; [eauto using same_settings_trans|];
      split; [exact R0|];
      split; [assumption|];
      split; [split; [intros _; auto | intros _; assumption]|];
      split; [reflexivity|];
      split; [intros _; repeat split; assumption | discriminate] ].
Qed.

End Polling.

Section Passes.

Lemma daily_resets_app (t1 t2 : list Event) :
  daily_resets (t1 ++ t2) = (daily_resets t1 + daily_resets t2)%nat.
Proof. unfold daily_resets. now rewrite filter_app, length_app. Qed.

Lemma restarts_app (t1 t2 : list Event) :
  restarts (t1 ++ t2) = restarts t1 || restarts t2.
Proof. unfold restarts. apply existsb_app. Qed.

Lemma should_reset_iff (self : PZEMTestMonitor) (t : Z) :
  _should_reset_daily_counters self t = true
  <-> in_window t /\ 6 * 3600 < t - last_daily_reset self.
Proof.
  unfold _should_reset_daily_counters, in_window.
  destruct (Z.eqb_spec (Utime.hour t) 0) as [Hh|Hh];
    destruct (Z.ltb_spec (Utime.minute t) 5) as [Hm|Hm];
    destruct (Z.ltb_spec (6 * 3600) (t - last_daily_reset self)) as [Hd|Hd];
    cbn [andb]; split; try discriminate; try tauto; try lia.
Qed.

Lemma maintenance_outcome (self : PZEMTestMonitor) (c : Cycle) :
  test_mode self = false ->
  pzem self <> None ->
  let self' := fst (maintenance self c) in
  let trace := snd (maintenance self c) in
  test_mode self' = false
  /\ pzem self' <> None
  /\ running self' = running self
  /\ restarts trace = false
  /\ (if _should_reset_daily_counters self (rollover_clock c)
      then trace = [ev_daily_reset]
           /\ last_daily_reset self' = cycle_now c
           /\ exists handler,
                pzem self = Some handler
                /\ pzem self' = Some (reset_daily_counters handler)
      else trace = []
           /\ last_daily_reset self' = last_daily_reset self
           /\ pzem self' = pzem self).
Proof.
  intros Ht Hp. unfold maintenance.
  set (m1 := if 30 <=? cycle_now c - last_stats_print self
             then with_last_stats_print self (cycle_now c) else self).
  assert (H1 : test_mode m1 = test_mode self /\ pzem m1 = pzem self
               /\ running m1 = running self
               /\ last_daily_reset m1 = last_daily_reset self
               /\ read_count m1 = read_count self)
    by (subst m1; destruct (30 <=? _); repeat split).
  set (m2 := if 60 <=? cycle_now c - last_gc_run m1
             then with_last_gc_run m1 (cycle_now c) else m1).
  assert (H2 : test_mode m2 = test_mode self /\ pzem m2 = pzem self
               /\ running m2 = running self
               /\ last_daily_reset m2 = last_daily_reset self
               /\ read_count m2 = read_count self)
    by (subst m2; destruct (60 <=? _); cbn; intuition congruence).
  clearbody m2. clear m1 H1.
  destruct H2 as (T2 & P2 & R2 & L2 & _).
  assert (Hs : _should_reset_daily_counters m2 (rollover_clock c)
               = _should_reset_daily_counters self (rollover_clock c))
    by (unfold _should_reset_daily_counters; now rewrite L2).
  rewrite Hs.
  destruct (pzem self) as [handler|] eqn:Eh; [|congruence].
  unfold daily_reset_of. rewrite P2.
  destruct (_should_reset_daily_counters self (rollover_clock c)).
  - cbn. rewrite T2, Ht. cbn. rewrite R2.
    split; [congruence|]. split; [discriminate|].
    do 4 (split; [reflexivity|]). exists handler. split; reflexivity.
  - cbn. rewrite T2, Ht. cbn. rewrite P2.
    split; [congruence|]. split; [discriminate|].
    repeat split; assumption.
Qed.


End Passes.

Section RunPass.

Variable self : PZEMTestMonitor.
Variable cycle_time : option Z.
Variable c : Cycle.

Lemma maintenance_frame (m : PZEMTestMonitor) :
  let m' := fst (maintenance m c) in
  running m' = running m
  /\ last_reading m' = last_reading m
  /\ consecutive_errors m' = consecutive_errors m
  /\ (pzem m' = None <-> pzem m = None)
  /\ restarts (snd (maintenance m c)) = false.
Proof.
  unfold maintenance, daily_reset_of.
  destruct (30 <=? cycle_now c - last_stats_print m);
    destruct (60 <=? cycle_now c - last_gc_run _);
    destruct (_should_reset_daily_counters _ _);
    destruct (pzem m) eqn:Ep; cbn; rewrite ?Ep; cbn;
    destruct (test_mode m && (read_count m mod 100 =? 0));
    cbn; rewrite ?Ep; cbn; repeat split; try discriminate; auto.
Qed.

Let result := run_pass self cycle_time c.
Let self' := fst (fst (fst result)).
Let trace := snd (fst result).
Let flow := snd result.


End RunPass.



(** ** Daily rollover *)

Section Rollover.

Lemma run_pass_rollover (self : PZEMTestMonitor) (cycle_time : option Z)
    (c : Cycle) :
  test_mode self = false ->
  pzem self <> None ->
  let result := run_pass self cycle_time c in
  let self' := fst (fst (fst result)) in
  let trace := snd (fst result) in
  snd result = flow_next ->
  test_mode self' = false
  /\ pzem self' <> None
  /\ snd (fst (fst result)) <> None
  /\ (if _should_reset_daily_counters self (rollover_clock c)
      then daily_resets trace = 1%nat
           /\ last_daily_reset self' = cycle_now c
           /\ exists handler,
                pzem self' = Some handler
                /\ daily_energy_a handler = 0%Q
                /\ daily_energy_b handler = 0%Q
      else daily_resets trace = 0%nat
           /\ last_daily_reset self' = last_daily_reset self).
Proof.
  intros Ht Hp. cbv zeta. unfold run_pass.
  assert (Hmain : forall m1 tr1 ct1,
             same_settings self m1 -> pzem m1 <> None ->
             daily_resets tr1 = 0%nat ->
             let result :=
               (let '(m2, maintained) := maintenance m1 c in
                match ct1 with
                | Some t =>
                    (m2, ct1,
                     tr1 ++ maintained
                       ++ [ev_sleep_ms
                             (if t <? 200 then Z.max 50 (200 - t) else 50)],
                     flow_next)
                | None => (m2, ct1, tr1 ++ maintained, flow_raise)
                end) in
             snd result = flow_next ->
             test_mode (fst (fst (fst result))) = false
             /\ pzem (fst (fst (fst result))) <> None
             /\ snd (fst (fst result)) <> None
             /\ (if _should_reset_daily_counters self (rollover_clock c)
                 then daily_resets (snd (fst result)) = 1%nat
                      /\ last_daily_reset (fst (fst (fst result)))
                         = cycle_now c
                      /\ exists handler,
                           pzem (fst (fst (fst result))) = Some handler
                           /\ daily_energy_a handler = 0%Q
                           /\ daily_energy_b handler = 0%Q
                 else daily_resets (snd (fst result)) = 0%nat
                      /\ last_daily_reset (fst (fst (fst result)))
                         = last_daily_reset self)).
  { intros m1 tr1 ct1 (S1 & S2 & _) Hp1 Hq.
    assert (Ht1 : test_mode m1 = false) by congruence.
    pose proof (maintenance_outcome m1 c Ht1 Hp1) as (M1 & M2 & _ & _ & M5).
    cbv zeta in *.
    assert (Hs : _should_reset_daily_counters m1 (rollover_clock c)
                 = _should_reset_daily_counters self (rollover_clock c))
      by (unfold _should_reset_daily_counters; now rewrite S1).
    rewrite Hs in M5.
    destruct (maintenance m1 c) as [m2 tr2]. cbn [fst snd] in *.
    destruct ct1 as [t|]; cbn [fst snd]; [intros _ | discriminate].
    split; [exact M1|]. split; [exact M2|]. split; [discriminate|].
    rewrite !daily_resets_app, Hq.
    destruct (_should_reset_daily_counters self (rollover_clock c)).
    - destruct M5 as (-> & L & handler & _ & Hh).
      split; [reflexivity|]. split; [exact L|].
      exists (reset_daily_counters handler). repeat split. exact Hh.
    - destruct M5 as (-> & L & _). split; [reflexivity | congruence]. }
  destruct (Config.SENSOR_READ_INTERVAL <=? cycle_now c - last_reading self).
  - pose proof (polling_block_outcome self c)
      as (S & _ & Hq & _ & _ & _ & Hgo).
    cbv zeta in *.
    destruct (polling_block self c) as [[m1 tr1] stop]. cbn [fst snd] in *.
    destruct stop; [cbn; discriminate|].
    destruct (Hgo eq_refl) as (_ & Hp1 & _).
    apply (Hmain m1 tr1 (Some (elapsed_ms c)) S (Hp1 Hp) Hq).
  - apply (Hmain self [] cycle_time); [now repeat split | exact Hp
                                       | reflexivity].
Qed.

End Rollover.

Section RolloverLoop.

Lemma not_due (m : PZEMTestMonitor) (t : Z) :
  t - last_daily_reset m <= 6 * 3600 ->
  _should_reset_daily_counters m t = false.
Proof.
  intros H. destruct (_should_reset_daily_counters m t) eqn:E; [|reflexivity].
  apply should_reset_iff in E. lia.
Qed.

Lemma loop_resets (period_start : Z) (cycles : list Cycle) :
  forall (self : PZEMTestMonitor) (cycle_time : option Z),
    test_mode self = false ->
    pzem self <> None ->
    snd (run_loop self cycle_time cycles) = length cycles ->
    (forall c, In c cycles ->
       period_start <= cycle_now c
       /\ rollover_clock c <= period_start + 6 * 3600) ->
    let trace := snd (fst (run_loop self cycle_time cycles)) in
    (daily_resets trace <= 1)%nat
    /\ ((forall c, In c cycles ->
           _should_reset_daily_counters self (rollover_clock c) = false) ->
        daily_resets trace = 0%nat)
    /\ (forall c, hd_error cycles = Some c ->
          _should_reset_daily_counters self (rollover_clock c) = true ->
          daily_resets trace = 1%nat).
Proof.
  induction cycles as [|c rest IH]; intros self cycle_time Ht Hp Hn Hper.
  - cbn. repeat split; auto. intros c Hc. discriminate.
  - cbn [run_loop] in *.
    destruct (running self); [|cbn in Hn; discriminate].
    pose proof (run_pass_rollover self cycle_time c Ht Hp) as Hpass.
    cbv zeta in Hpass.
    destruct (run_pass self cycle_time c) as [[[m1 ct1] tr1] flow].
    cbn [fst snd] in *.
    destruct flow; try (cbn in Hn; discriminate).
    destruct (Hpass eq_refl) as (Ht1 & Hp1 & _ & Hcase). clear Hpass.
    specialize (IH m1 ct1 Ht1 Hp1).
    destruct (run_loop m1 ct1 rest) as [[m2 later] n].
    cbn [fst snd length] in *.
    assert (Hn' : n = length rest) by congruence.
    assert (Hper' : forall c0, In c0 rest ->
               period_start <= cycle_now c0
               /\ rollover_clock c0 <= period_start + 6 * 3600)
      by (intros c0 Hc0; apply Hper; now right).
    destruct (IH Hn' Hper') as (IH1 & IH2 & IH3). clear IH.
    rewrite daily_resets_app.
    destruct (_should_reset_daily_counters self (rollover_clock c)) eqn:Es.
    + destruct Hcase as (Hone & Hlast & _). rewrite Hone.
      assert (Hquiet : daily_resets later = 0%nat).
      { apply IH2. intros c0 Hc0. apply not_due. rewrite Hlast.
        pose proof (Hper c (or_introl eq_refl)).
        pose proof (Hper' c0 Hc0). lia. }
      rewrite Hquiet. repeat split; try lia.
      intros Hnone. specialize (Hnone c (or_introl eq_refl)). congruence.
    + destruct Hcase as (Hzero & Hlast). rewrite Hzero.
      assert (Hsame : forall t,
                 _should_reset_daily_counters m1 t
                 = _should_reset_daily_counters self t)
        by (intros t; unfold _should_reset_daily_counters; now rewrite Hlast).
      split; [exact IH1|]. split.
      * intros Hnone. apply IH2. intros c0 Hc0. rewrite Hsame.
        apply Hnone. now right.
      * intros c0 Hc0 Hdue. injection Hc0 as <-. congruence.
Qed.

End RolloverLoop.

(** C5 (amended). The rollover test of a pass holds if and only if the local
    hour is 0, the minute is less than 5, and more than 6 hours separate the
    clock from the last reset; a pass that runs to its end resets the daily
    accumulators of both meters exactly when the test holds, and then
    records the pass's time as the last reset. Consequently, over 5 passes
    that all fall inside the 00:00-00:05 window within one 6-hour period, the
    daily accumulators are reset at most once; they are reset exactly once
    when more than 6 hours have elapsed since the last reset at the first of
    the passes, and not at all when that holds at none of them. *)
Theorem daily_reset_once (self : PZEMTestMonitor) (cycle_time : option Z)
    (cycles : list Cycle) (period_start : Z) :
  test_mode self = false ->
  pzem self <> None ->
  length cycles = 5%nat ->
  snd (run_loop self cycle_time cycles) = 5%nat ->
  (forall c, In c cycles -> in_window (rollover_clock c)) ->
  (forall c, In c cycles ->
     period_start <= cycle_now c
     /\ rollover_clock c <= period_start + 6 * 3600) ->
  let trace := snd (fst (run_loop self cycle_time cycles)) in
  (forall m t,
     _should_reset_daily_counters m t = true
     <-> (Utime.hour t = 0 /\ Utime.minute t < 5
          /\ 6 * 3600 < t - last_daily_reset m))
  /\ (forall c,
        snd (run_pass self cycle_time c) = flow_next ->
        let after := fst (fst (fst (run_pass self cycle_time c))) in
        let fired := daily_resets (snd (fst (run_pass self cycle_time c))) in
        (fired = 1%nat
         <-> (in_window (rollover_clock c)
              /\ 6 * 3600 < rollover_clock c - last_daily_reset self))
        /\ (fired = 0%nat \/ fired = 1%nat)
        /\ (fired = 1%nat ->
            last_daily_reset after = cycle_now c
            /\ exists handler,
                 pzem after = Some handler
                 /\ daily_energy_a handler = 0%Q
                 /\ daily_energy_b handler = 0%Q))
  /\ (daily_resets trace <= 1)%nat
  /\ ((forall c, hd_error cycles = Some c ->
         6 * 3600 < rollover_clock c - last_daily_reset self) ->
      daily_resets trace = 1%nat)
  /\ ((forall c, In c cycles ->
         rollover_clock c - last_daily_reset self <= 6 * 3600) ->
      daily_resets trace = 0%nat).
Proof.
  intros Ht Hp Hlen Hn Hwin Hper trace.
  assert (Hn' : snd (run_loop self cycle_time cycles) = length cycles)
    by congruence.
  destruct (loop_resets period_start cycles self cycle_time Ht Hp Hn' Hper)
    as (H1 & H0 & Hone).
  split; [|split; [|split; [exact H1|split]]].
  - intros m t. rewrite should_reset_iff. unfold in_window. tauto.
  - intros c Hflow after fired.
    pose proof (run_pass_rollover self cycle_time c Ht Hp) as Hpass.
    cbv zeta in Hpass. destruct (Hpass Hflow) as (_ & _ & _ & Hcase).
    subst after fired.
    destruct (_should_reset_daily_counters self (rollover_clock c)) eqn:Es.
    + destruct Hcase as (Hf & Hl & Hh). apply should_reset_iff in Es.
      rewrite Hf. split; [split; [intros _; exact Es | reflexivity]|].
      split; [now right|]. intros _. split; [exact Hl | exact Hh].
    + destruct Hcase as (Hf & _). rewrite Hf.
      assert (Hno : ~ (in_window (rollover_clock c)
                       /\ 6 * 3600 < rollover_clock c - last_daily_reset self)).
      { intros Hy. apply should_reset_iff in Hy. congruence. }
      split; [split; [discriminate | tauto]|].
      split; [now left | discriminate].
  - intros Hdue. destruct cycles as [|c rest]; [discriminate|].
    apply (Hone c eq_refl). apply should_reset_iff.
    split; [apply Hwin; now left | apply Hdue; reflexivity].
  - intros Hnot. apply H0. intros c Hc. apply not_due. now apply Hnot.
Qed.

Lemma daily_reset_once_witness :
  daily_resets
    (snd (fst (run_loop (monitor_with new_handler) None
                 (steady_cycles (midnight + 1) 5)))) = 1%nat.
Proof.
  destruct (daily_reset_once (monitor_with new_handler) None
              (steady_cycles (midnight + 1) 5) midnight)
    as (_ & _ & _ & H & _).
  - reflexivity.
  - discriminate.
  - reflexivity.
  - vm_compute. reflexivity.
  - intros c Hc. cbn in Hc.
    repeat (destruct Hc as [<-|Hc]; [vm_compute; split; reflexivity|]).
    contradiction.
  - intros c Hc. cbn in Hc.
    repeat (destruct Hc as [<-|Hc]; [vm_compute; split; discriminate|]).
    contradiction.
  - apply H. intros c Hc. injection Hc as <-. vm_compute. reflexivity.
Defined.

(** C5, as stated, fails for five passes that follow a reset inside the same
    window: all five fall inside 00:00-00:05 and within one 6-hour period,
    and the daily accumulators are not reset at all. *)
Lemma five_ticks_after_a_reset :
  let cycles := steady_cycles (midnight + 1) 5 in
  let outcome := run_loop just_reset None cycles in
  snd outcome = 5%nat
  /\ Forall (fun c => in_window (cycle_now c) /\ in_window (rollover_clock c)
                      /\ midnight <= cycle_now c
                      /\ rollover_clock c <= midnight + 6 * 3600) cycles
  /\ daily_resets (snd (fst outcome)) <> 1%nat
  /\ exists handler,
       pzem (fst (fst outcome)) = Some handler
       /\ (0 < daily_energy_a handler)%Q /\ (0 < daily_energy_b handler)%Q.
Proof.
  cbv zeta. split; [vm_compute; reflexivity|]. split; [|split].
  - repeat constructor; vm_compute; solve [reflexivity | discriminate].
  - vm_compute. discriminate.
  - eexists. split; [vm_compute; reflexivity|]. split; vm_compute; reflexivity.
Qed.

(** * Further properties of the code *)

(** ** The CRC detects a corrupted byte *)

Section CrcInjective.

Lemma small_testbit (x n k : Z) :
  0 <= x < 2 ^ k -> 0 <= k <= n -> Z.testbit x n = false.
Proof.
  intros Hx Hk. apply Z.testbit_false; [lia|].
  rewrite Z.div_small; [reflexivity|].
  assert (2 ^ k <= 2 ^ n) by (apply Z.pow_le_mono_r; lia). lia.
Qed.

Lemma lxor_cancel_r (x y z : Z) : Z.lxor x z = Z.lxor y z -> x = y.
Proof.
  intros H. apply (f_equal (fun w => Z.lxor w z)) in H.
  now rewrite !Z.lxor_assoc, !Z.lxor_nilpotent, !Z.lxor_0_r in H.
Qed.

Lemma lxor_cancel_l (x y z : Z) : Z.lxor z x = Z.lxor z y -> x = y.
Proof. rewrite !(Z.lxor_comm z). apply lxor_cancel_r. Qed.

Lemma land_1 (x : Z) : Z.land x 1 = x mod 2.
Proof. change 1 with (Z.ones 1). now rewrite Z.land_ones by lia. Qed.

Lemma crc_shift_inj (x y : Z) :
  u16 x -> u16 y -> crc_shift x = crc_shift y -> x = y.
Proof.
  unfold u16, crc_shift. intros Hx Hy.
  rewrite !Z.shiftr_div_pow2 by lia. change (2 ^ 1) with 2.
  rewrite !land_1.
  pose proof (Z.div_mod x 2 ltac:(lia)) as Dx.
  pose proof (Z.div_mod y 2 ltac:(lia)) as Dy.
  pose proof (Z.mod_pos_bound x 2 ltac:(lia)) as Rx.
  pose proof (Z.mod_pos_bound y 2 ltac:(lia)) as Ry.
  assert (Qx : 0 <= x / 2 < 2 ^ 15) by (split; [apply Z.div_pos | apply Z.div_lt_upper_bound]; lia).
  assert (Qy : 0 <= y / 2 < 2 ^ 15) by (split; [apply Z.div_pos | apply Z.div_lt_upper_bound]; lia).
  assert (Hmixed : forall p q, 0 <= p < 2 ^ 15 -> 0 <= q < 2 ^ 15 ->
                     Z.lxor p 0xA001 = q -> False).
  { intros p q Hp Hq E. apply (f_equal (fun w => Z.testbit w 15)) in E.
    rewrite Z.lxor_spec in E.
    rewrite (small_testbit p 15 15), (small_testbit q 15 15) in E by lia.
    discriminate. }
  destruct (Z.eqb_spec (x mod 2) 0) as [Ex|Ex];
    destruct (Z.eqb_spec (y mod 2) 0) as [Ey|Ey]; cbn [negb]; intros E.
  - lia.
  - exfalso. symmetry in E. exact (Hmixed _ _ Qy Qx E).
  - exfalso. exact (Hmixed _ _ Qx Qy E).
  - apply lxor_cancel_r in E. lia.
Qed.

Lemma crc_iter_inj (n : nat) (x y : Z) :
  u16 x -> u16 y ->
  Nat.iter n crc_shift x = Nat.iter n crc_shift y -> x = y.
Proof.
  intros Hx Hy. induction n as [|n IH]; cbn [Nat.iter]; [trivial|].
  intros E. apply IH. apply crc_shift_inj; [now apply u16_iter.. | exact E].
Qed.

Lemma byte_u16 (b : Z) : is_byte b = true -> u16 b.
Proof. intros H. apply is_byte_spec in H. unfold u16. lia. Qed.

Lemma crc_feed_inj_crc (x y b : Z) :
  u16 x -> u16 y -> is_byte b = true ->
  crc_feed x b = crc_feed y b -> x = y.
Proof.
  intros Hx Hy Hb E. unfold crc_feed in E.
  apply crc_iter_inj in E; [now apply lxor_cancel_r in E | |];
    apply u16_lxor; auto using byte_u16.
Qed.

Lemma crc_feed_inj_byte (x b b' : Z) :
  u16 x -> is_byte b = true -> is_byte b' = true ->
  crc_feed x b = crc_feed x b' -> b = b'.
Proof.
  intros Hx Hb Hb' E. unfold crc_feed in E.
  apply crc_iter_inj in E; [now apply lxor_cancel_l in E | |];
    apply u16_lxor; auto using byte_u16.
Qed.

Lemma crc_fold_inj (data : list Z) : forall x y,
  is_bytes data = true -> u16 x -> u16 y ->
  fold_left crc_feed data x = fold_left crc_feed data y -> x = y.
Proof.
  induction data as [|b data IH]; intros x y Hd Hx Hy E; [exact E|].
  cbn [is_bytes forallb] in Hd. apply andb_true_iff in Hd as [Hb Hd].
  cbn [fold_left] in E.
  apply IH in E; auto using u16_crc_feed.
  now apply crc_feed_inj_crc in E.
Qed.

Lemma is_bytes_app (l1 l2 : list Z) :
  is_bytes (l1 ++ l2) = is_bytes l1 && is_bytes l2.
Proof. apply forallb_app. Qed.

Lemma crc_single_byte (pre post : list Z) (b b' : Z) :
  is_bytes pre = true -> is_bytes post = true ->
  is_byte b = true -> is_byte b' = true ->
  crc16_modbus (pre ++ b :: post) = crc16_modbus (pre ++ b' :: post) ->
  b = b'.
Proof.
  intros Hpre Hpost Hb Hb' E. unfold crc16_modbus in E.
  rewrite !fold_left_app in E. cbn [fold_left] in E.
  pose proof (u16_crc16_modbus pre Hpre) as Hc. unfold crc16_modbus in Hc.
  apply crc_fold_inj in E; auto using u16_crc_feed.
  now apply crc_feed_inj_byte in E.
Qed.

(** The two CRC bytes of a 16-bit value give it back. *)
Lemma crc_bytes_join (c : Z) :
  u16 c ->
  Z.lor (Z.land c 0xFF) (Z.shiftl (Z.land (Z.shiftr c 8) 0xFF) 8) = c.
Proof.
  intros Hc. apply Z.bits_inj'. intros n Hn.
  rewrite Z.lor_spec, Z.land_spec. change 0xFF with (Z.ones 8).
  destruct (Z.lt_ge_cases n 8) as [Hlt|Hge].
  - rewrite Z.ones_spec_low, Z.shiftl_spec_low by lia.
    now rewrite andb_true_r, orb_false_r.
  - rewrite Z.ones_spec_high, andb_false_r by lia. cbn [orb].
    rewrite Z.shiftl_spec, Z.land_spec, Z.shiftr_spec by lia.
    replace (n - 8 + 8) with n by lia.
    destruct (Z.lt_ge_cases n 16) as [H16|H16].
    + rewrite Z.ones_spec_low by lia. apply andb_true_r.
    + rewrite Z.ones_spec_high by lia.
      rewrite (small_testbit c n 16) by (unfold u16 in Hc; lia).
      reflexivity.
Qed.

(** Two bytes are determined by the CRC field that they form. *)
Lemma crc_field_inj (lo hi lo' hi' : Z) :
  is_byte lo = true -> is_byte hi = true ->
  is_byte lo' = true -> is_byte hi' = true ->
  Z.lor lo (Z.shiftl hi 8) = Z.lor lo' (Z.shiftl hi' 8) ->
  lo = lo' /\ hi = hi'.
Proof.
  intros Hlo Hhi Hlo' Hhi' E.
  apply is_byte_spec in Hlo, Hhi, Hlo', Hhi'.
  assert (Hsplit : forall l h, 0 <= l < 256 -> 0 <= h < 256 ->
            Z.land (Z.lor l (Z.shiftl h 8)) (Z.ones 8) = l
            /\ Z.shiftr (Z.lor l (Z.shiftl h 8)) 8 = h).
  { intros l h Hl Hh. split.
    - rewrite Z.land_lor_distr_l, !Z.land_ones by lia.
      rewrite Z.shiftl_mul_pow2 by lia.
      rewrite Z.mod_mul by lia. rewrite Z.lor_0_r.
      apply Z.mod_small. change (2 ^ 8) with 256. lia.
    - rewrite Z.shiftr_lor, Z.shiftr_shiftl_l by lia.
      rewrite Z.shiftr_div_pow2 by lia. change (2 ^ 8) with 256.
      rewrite Z.div_small by lia. cbn. apply Z.shiftl_0_r. }
  destruct (Hsplit lo hi Hlo Hhi) as [L H].
  destruct (Hsplit lo' hi' Hlo' Hhi') as [L' H'].
  rewrite E in L, H. split; congruence.
Qed.

End CrcInjective.

Lemma is_bytes_firstn (k : nat) (l : list Z) :
  is_bytes l = true -> is_bytes (firstn k l) = true.
Proof.
  unfold is_bytes. revert k.
  induction l as [|x l IH]; intros [|k] H; try reflexivity.
  cbn [firstn forallb] in *. apply andb_true_iff in H as [Hx Hl].
  now rewrite Hx, (IH k Hl).
Qed.

Lemma decoded_crc_matches (response : list Z) (address now : Z) data :
  read_response response address now = Decoded data -> crc_matches response.
Proof.
  intros Hd. pose proof (read_response_cases response address now) as H.
  split_cases; congruence.
Qed.

(** X1. Changing one byte of a byte sequence always changes its CRC16. *)
Theorem crc_detects_byte_change (pre post : list Z) (b b' : Z) :
  is_bytes (pre ++ b :: post) = true ->
  is_byte b' = true ->
  b <> b' ->
  crc16_modbus (pre ++ b :: post) <> crc16_modbus (pre ++ b' :: post).
Proof.
  intros Hr Hb' Hne E. apply Hne.
  rewrite is_bytes_app in Hr. apply andb_true_iff in Hr as [Hpre Hr].
  cbn [is_bytes forallb] in Hr. apply andb_true_iff in Hr as [Hb Hpost].
  exact (crc_single_byte pre post b b' Hpre Hpost Hb Hb' E).
Qed.

Lemma crc_detects_byte_change_witness :
  crc16_modbus (firstn 5 synthetic_response ++ 220 :: skipn 6 synthetic_response)
  <> crc16_modbus
       (firstn 5 synthetic_response ++ 221 :: skipn 6 synthetic_response).
Proof.
  apply crc_detects_byte_change; [reflexivity | reflexivity | discriminate].
Defined.

(** X2. A 25-byte frame that [read_response] accepts is rejected as soon as
    any single byte of it is replaced by a different byte. *)
Theorem corrupted_frame_rejected (pre post : list Z) (b b' address now : Z)
    (data : Reading) :
  length (pre ++ b :: post) = 25%nat ->
  is_bytes (pre ++ b :: post) = true ->
  is_byte b' = true ->
  b <> b' ->
  read_response (pre ++ b :: post) address now = Decoded data ->
  exists why, read_response (pre ++ b' :: post) address now = Rejected why.
Proof.
  intros Hlen Hr Hb' Hne Hd.
  destruct (read_response (pre ++ b' :: post) address now) as [data'|why]
    eqn:Hd'; [exfalso | now exists why].
  apply decoded_crc_matches in Hd, Hd'. unfold crc_matches in *.
  assert (Hlen' : length (pre ++ b' :: post) = 25%nat)
    by (rewrite length_app in *; cbn [length] in *; lia).
  unfold drop_last, trailing_crc, from_end in *. rewrite Hlen in Hd.
  rewrite Hlen' in Hd'. cbn [Nat.sub] in Hd, Hd'.
  pose proof Hr as Hr0.
  rewrite is_bytes_app in Hr. apply andb_true_iff in Hr as [Hpre Hr].
  cbn [is_bytes forallb] in Hr. apply andb_true_iff in Hr as [Hb Hpost].
  rewrite length_app in Hlen. cbn [length] in Hlen.
  rewrite !firstn_app in Hd, Hd'.
  destruct (Nat.lt_ge_cases (length pre) 23) as [Hi|Hi].
  - (* the byte lies under the CRC *)
    rewrite (firstn_all2 pre) in Hd, Hd' by lia.
    rewrite !(app_nth2 pre) in Hd, Hd' by lia.
    destruct (23 - length pre)%nat as [|k] eqn:Ek; [lia|].
    destruct (24 - length pre)%nat as [|k'] eqn:Ek'; [lia|].
    cbn [firstn nth] in Hd, Hd'.
    apply Hne.
    apply (crc_single_byte pre (firstn k post) b b' Hpre
             (is_bytes_firstn k post Hpost) Hb Hb').
    congruence.
  - (* the byte is one of the two CRC bytes *)
    replace (23 - length pre)%nat with O in Hd, Hd' by lia.
    cbn [firstn] in Hd, Hd'. rewrite !app_nil_r in Hd, Hd'.
    assert (E : Z.lor (nth 23 (pre ++ b :: post) 0)
                  (Z.shiftl (nth 24 (pre ++ b :: post) 0) 8)
                = Z.lor (nth 23 (pre ++ b' :: post) 0)
                    (Z.shiftl (nth 24 (pre ++ b' :: post) 0) 8))
      by congruence.
    assert (Hr0' : is_bytes (pre ++ b' :: post) = true).
    { rewrite is_bytes_app. cbn [is_bytes forallb].
      now rewrite Hpre, Hb', Hpost. }
    apply crc_field_inj in E;
      try (apply is_byte_spec; apply is_bytes_nth; assumption).
    destruct E as [E23 E24]. apply Hne.
    destruct (Nat.eq_dec (length pre) 23) as [H23|H23].
    + rewrite !(app_nth2 pre) in E23 by lia.
      rewrite H23 in E23. exact E23.
    + rewrite !(app_nth2 pre) in E24 by lia.
      replace (24 - length pre)%nat with O in E24 by lia. exact E24.
Qed.

Lemma corrupted_frame_rejected_witness :
  exists why,
    read_response
      (firstn 4 synthetic_response ++ 153 :: skipn 5 synthetic_response)
      0x01 0 = Rejected why.
Proof.
  assert (Hd : exists data,
             read_response
               (firstn 4 synthetic_response ++ 152 :: skipn 5 synthetic_response)
               0x01 0 = Decoded data) by (eexists; vm_compute; reflexivity).
  destruct Hd as [data Hd].
  apply (corrupted_frame_rejected _ _ 152 153 0x01 0 data);
    [reflexivity | reflexivity | reflexivity | discriminate | exact Hd].
Defined.

(** ** Encoding and decoding a response *)

Lemma split_register (r : Z) : Z.shiftr r 8 * 256 + Z.land r 0xFF = r.
Proof.
  rewrite Z.shiftr_div_pow2 by lia. change 0xFF with (Z.ones 8).
  rewrite Z.land_ones by lia. change (2 ^ 8) with 256.
  pose proof (Z.div_mod r 256 ltac:(lia)). lia.
Qed.

Lemma register_bytes (r : Z) :
  u16 r -> is_byte (Z.shiftr r 8) = true /\ is_byte (Z.land r 0xFF) = true.
Proof.
  unfold u16. intros Hr. rewrite !is_byte_spec.
  rewrite Z.shiftr_div_pow2 by lia. change 0xFF with (Z.ones 8).
  rewrite Z.land_ones by lia. change (2 ^ 8) with 256.
  pose proof (Z.mod_pos_bound r 256 ltac:(lia)).
  split; [|lia]. split; [apply Z.div_pos | apply Z.div_lt_upper_bound]; lia.
Qed.

(** X3. For every address byte and every ten 16-bit register values, the
    25-byte frame made of the address, 0x04, 20, the registers in big-endian
    order and the CRC (low byte first) is accepted by [read_response], which
    returns the measurements of exactly these registers. *)
Theorem response_round_trip (address now : Z) (registers : list Z) :
  is_byte address = true ->
  length registers = 10%nat ->
  Forall u16 registers ->
  read_response (response_frame address registers) address now
  = Decoded (extract_measurements registers now).
Proof.
  intros Ha Hlen Hregs.
  destruct registers
    as [|r0 [|r1 [|r2 [|r3 [|r4 [|r5 [|r6 [|r7 [|r8 [|r9 [|r10 rest]]]]]]]]]]];
    try discriminate. clear Hlen.
  repeat match goal with
         | H : Forall _ (_ :: _) |- _ =>
             let H1 := fresh "U" in
             apply Forall_cons_iff in H as [H1 H]
         end.
  unfold response_frame. cbn [flat_map app].
  match goal with
  | |- read_response (with_crc ?l) _ _ = _ => set (body := l)
  end.
  assert (Hbody : is_bytes body = true).
  { subst body. unfold is_bytes. cbn [forallb].
    rewrite Ha.
    repeat match goal with
           | U : u16 ?r |- _ =>
               destruct (register_bytes r U) as [-> ->]; clear U
           end.
    reflexivity. }
  pose proof (u16_crc16_modbus body Hbody) as Hc.
  pose proof (read_response_cases (with_crc body) address now) as H.
  assert (Hl : length (with_crc body) = 25%nat) by reflexivity.
  assert (H0 : nth 0 (with_crc body) 0 = address) by reflexivity.
  assert (H1 : nth 1 (with_crc body) 0 = 0x04) by reflexivity.
  assert (H2 : nth 2 (with_crc body) 0 = 20) by reflexivity.
  assert (Hm : crc_matches (with_crc body)).
  { unfold crc_matches, trailing_crc, drop_last, from_end. rewrite Hl.
    change (firstn (25 - 2) (with_crc body)) with body.
    change (nth (25 - 2) (with_crc body) 0)
      with (Z.land (crc16_modbus body) 0xFF).
    change (nth (25 - 1) (with_crc body) 0)
      with (Z.land (Z.shiftr (crc16_modbus body) 8) 0xFF).
    symmetry. now apply crc_bytes_join. }
  assert (Hmap : map (register (with_crc body)) (seq 0 10)
                 = [r0; r1; r2; r3; r4; r5; r6; r7; r8; r9]).
  { unfold register. cbn [seq map]. subst body. unfold with_crc.
    cbn [app nth Nat.add Nat.mul]. now rewrite !split_register. }
  rewrite <- Hmap.
  split_cases; try congruence; try lia.
Qed.

Lemma response_round_trip_witness :
  read_response
    (response_frame 0x02 [2300; 4348; 0; 10000; 0; 0; 0; 500; 100; 0]) 0x02 7
  = Decoded
      (extract_measurements [2300; 4348; 0; 10000; 0; 0; 0; 500; 100; 0] 7).
Proof.
  apply response_round_trip;
    [reflexivity | reflexivity
    | repeat constructor; vm_compute; discriminate].
Defined.

(** ** Request frames *)

Lemma with_crc_zero (body : list Z) :
  is_bytes body = true -> crc16_modbus (with_crc body) = 0.
Proof.
  intros Hb. unfold with_crc, crc16_modbus. rewrite fold_left_app.
  apply crc_feed_both. now apply u16_crc16_modbus.
Qed.

Lemma with_crc_bytes (body : list Z) :
  is_bytes body = true -> is_bytes (with_crc body) = true.
Proof.
  intros Hb. unfold with_crc. rewrite is_bytes_app, Hb.
  cbn [is_bytes forallb andb]. change 0xFF with (Z.ones 8).
  rewrite !andb_true_r. apply andb_true_iff.
  split; apply is_byte_spec; rewrite Z.land_ones by lia;
    change (2 ^ 8) with 256; apply Z.mod_pos_bound; lia.
Qed.

Lemma with_crc_matches (body : list Z) :
  is_bytes body = true -> crc_matches (with_crc body).
Proof.
  intros Hb. unfold crc_matches, trailing_crc, drop_last, from_end, with_crc.
  rewrite length_app. cbn [length].
  replace (length body + 2 - 2)%nat with (length body + 0)%nat by lia.
  replace (length body + 2 - 1)%nat with (length body + 1)%nat by lia.
  rewrite firstn_app_2. cbn [firstn]. rewrite app_nil_r.
  rewrite !app_nth2_plus. cbn [nth].
  symmetry. apply crc_bytes_join. now apply u16_crc16_modbus.
Qed.

Lemma some_inj {A} (x y : A) : Some x = Some y -> x = y.
Proof. intros H. now inversion H. Qed.

Lemma some_pair_inj {A B} (x x' : A) (y y' : B) :
  Some (x, y) = Some (x', y') -> x = x' /\ y = y'.
Proof. intros H. now inversion H. Qed.

Lemma bytearray_none (items : list Z) :
  bytearray items = None <-> is_bytes items = false.
Proof. unfold bytearray. destruct (is_bytes items); split; congruence. Qed.

(** X4. [build_read_command] raises exactly when the address is not in
    0..255. Otherwise it returns 8 bytes: the address, 0x04, start register
    0x0000, count 0x000A, and a CRC field that the test which
    [read_response] applies to a frame accepts. *)
Theorem read_command_well_formed (address : Z) :
  (build_read_command address = None <-> is_byte address = false)
  /\ (forall frame,
        build_read_command address = Some frame ->
        is_bytes frame = true
        /\ length frame = 8%nat
        /\ firstn 6 frame = [address; 0x04; 0x00; 0x00; 0x00; 0x0A]
        /\ crc_matches frame).
Proof.
  unfold build_read_command.
  assert (Hb : is_bytes [address; 0x04; 0x00; 0x00; 0x00; 0x0A]
               = is_byte address)
    by (unfold is_bytes; cbn [forallb]; now rewrite andb_true_r).
  unfold bytearray. rewrite Hb.
  destruct (is_byte address) eqn:Ha.
  - split; [split; discriminate|].
    intros frame Hf. apply some_inj in Hf. subst frame.
    change ([address; 4; 0; 0; 0; 10]
              ++ [Z.land (crc16_modbus [address; 4; 0; 0; 0; 10]) 255]
              ++ [Z.land (Z.shiftr (crc16_modbus [address; 4; 0; 0; 0; 10]) 8)
                    255])
      with (with_crc [address; 4; 0; 0; 0; 10]).
    assert (Hbody : is_bytes [address; 4; 0; 0; 0; 10] = true)
      by (now rewrite Hb).
    split; [now apply with_crc_bytes|]. split; [reflexivity|].
    split; [reflexivity | now apply with_crc_matches].
  - split; [split; reflexivity | discriminate].
Qed.

Lemma address_word (new_address : Z) :
  Z.land (Z.shiftr new_address 8) 0xFF * 256 + Z.land new_address 0xFF
  = new_address mod 65536.
Proof.
  change 0xFF with (Z.ones 8). rewrite !Z.land_ones by lia.
  rewrite Z.shiftr_div_pow2 by lia. change (2 ^ 8) with 256.
  change 65536 with (256 * 256). rewrite Z.rem_mul_r by lia. lia.
Qed.

(** X5. [set_address] raises exactly when the old address is not in 0..255,
    whatever the new address. Otherwise the command it writes is 8 bytes
    (old address, 0x06, register 0x0002, the new address reduced modulo
    65536 as a big-endian word, CRC) whose CRC16 is 0, and it reports success
    exactly when a reply of at least 8 bytes arrived that starts with the old
    address and 0x06. *)
Theorem set_address_command (old_address new_address : Z)
    (reply : option (list Z)) :
  (set_address old_address new_address reply = None
   <-> is_byte old_address = false)
  /\ (forall command ok,
        set_address old_address new_address reply = Some (command, ok) ->
        is_bytes command = true
        /\ length command = 8%nat
        /\ crc16_modbus command = 0
        /\ firstn 4 command = [old_address; 0x06; 0x00; 0x02]
        /\ nth 4 command 0 * 256 + nth 5 command 0 = new_address mod 65536
        /\ (ok = true
            <-> exists response,
                  reply = Some response
                  /\ (8 <= length response)%nat
                  /\ nth 0 response 0 = old_address
                  /\ nth 1 response 0 = 0x06)).
Proof.
  unfold set_address.
  set (body := [old_address; 0x06; 0x00; 0x02;
                Z.land (Z.shiftr new_address 8) 0xFF;
                Z.land new_address 0xFF]).
  assert (Hhi : is_byte (Z.land (Z.shiftr new_address 8) 0xFF) = true
                /\ is_byte (Z.land new_address 0xFF) = true).
  { change 0xFF with (Z.ones 8). rewrite !is_byte_spec, !Z.land_ones by lia.
    change (2 ^ 8) with 256.
    split; apply Z.mod_pos_bound; lia. }
  destruct Hhi as [Hhi Hlo].
  assert (Hb : is_bytes body = is_byte old_address).
  { subst body. unfold is_bytes. cbn [forallb]. rewrite Hhi, Hlo.
    now rewrite andb_true_r. }
  unfold bytearray. rewrite Hb.
  destruct (is_byte old_address) eqn:Ha.
  - split; [split; discriminate|].
    intros command ok Hs. apply some_pair_inj in Hs as [<- <-].
    change (body ++ [Z.land (crc16_modbus body) 255]
              ++ [Z.land (Z.shiftr (crc16_modbus body) 8) 255])
      with (with_crc body).
    assert (Hbody : is_bytes body = true) by (now rewrite Hb).
    split; [now apply with_crc_bytes|]. split; [reflexivity|].
    split; [now apply with_crc_zero|]. split; [reflexivity|].
    split; [exact (address_word new_address)|].
    destruct reply as [response|].
    + rewrite !andb_true_iff, Nat.leb_le, !Z.eqb_eq. split.
      * intros [[H1 H2] H3]. now exists response.
      * intros (r & Hr & H1 & H2 & H3). injection Hr as <-. tauto.
    + split; [discriminate | intros (r & Hr & _); discriminate].
  - split; [split; reflexivity | discriminate].
Qed.

Lemma read_command_well_formed_witness :
  exists frame,
    build_read_command 0x02 = Some frame /\ crc_matches frame
    /\ build_read_command 256 = None.
Proof.
  assert (E : exists frame, build_read_command 0x02 = Some frame)
    by (eexists; vm_compute; reflexivity).
  destruct E as [frame E].
  destruct (read_command_well_formed 0x02) as [_ H].
  destruct (read_command_well_formed 256) as [[_ N] _].
  exists frame. split; [exact E|]. split; [|now apply N].
  now apply H.
Defined.

Lemma set_address_command_witness :
  exists command,
    set_address 0x01 0x02 (Some [1; 6; 0; 2; 0; 2; 169; 203])
    = Some (command, true)
    /\ crc16_modbus command = 0
    /\ set_address 300 0x02 None = None.
Proof.
  assert (E : exists command,
            set_address 0x01 0x02 (Some [1; 6; 0; 2; 0; 2; 169; 203])
            = Some (command, true)) by (eexists; vm_compute; reflexivity).
  destruct E as [command E].
  destruct (set_address_command 0x01 0x02 (Some [1; 6; 0; 2; 0; 2; 169; 203]))
    as [_ H].
  destruct (set_address_command 300 0x02 None) as [[_ N] _].
  exists command. split; [exact E|]. split; [|now apply N].
  now apply (H command true E).
Defined.

(** ** What the read operations return *)

Section ReadResult.

Variable self : PZEMHandler.
Variable x : Exchange.

Lemma read_tenant_a_result :
  (poll_fails (address_a self) x
   /\ read_tenant_a self x
      = (self, Some (zeros (energy_a self) (daily_energy_a self) (clock_now x))))
  \/ (exists data e d,
        uart_raises x = false
        /\ read_response (collected x) (address_a self) (clock_stamp x)
           = Decoded data
        /\ read_tenant_a self x
           = (set_meter_a self e d (clock_now x),
              Some (mkTenantData (voltage data) (current data) (power data) e
                      (frequency data) (power_factor data) (timestamp data) d
                      (d * Config.ENERGY_RATE_GHS)%Q))
        /\ ((0 < last_reading_a self
             /\ 0 < clock_now x - last_reading_a self <= 10
             /\ e = (energy_a self
                     + power data * inject_Z (clock_now x - last_reading_a self)
                       / 3600 / 1000)%Q
             /\ d = (daily_energy_a self
                     + power data * inject_Z (clock_now x - last_reading_a self)
                       / 3600 / 1000)%Q)
            \/ (~ (0 < last_reading_a self
                   /\ 0 < clock_now x - last_reading_a self <= 10)
                /\ e = energy_a self /\ d = daily_energy_a self))).
Proof.
  destruct (uart_raises x) eqn:Hx.
  - left. assert (Hf : poll_fails (address_a self) x) by (now left).
    split; [exact Hf | now apply read_tenant_a_failed].
  - destruct (read_response (collected x) (address_a self) (clock_stamp x))
      as [data|why] eqn:Hd.
    + right.
      destruct (Z_lt_dec 0 (last_reading_a self)) as [Hl|Hl];
        [destruct (Z_lt_dec 0 (clock_now x - last_reading_a self)) as [H0|H0];
         [destruct (Z_le_dec (clock_now x - last_reading_a self) 10)
           as [H1|H1]|]|].
      * exists data. eexists _, _. split; [reflexivity|]. split; [reflexivity|].
        split; [exact (read_tenant_a_integrates self x data Hx Hd Hl
                         (conj H0 H1))|].
        left. repeat split; assumption.
      * exists data. eexists _, _. split; [reflexivity|]. split; [reflexivity|].
        split; [apply (read_tenant_a_skips self x data Hx Hd); lia|].
        right. repeat split; lia.
      * exists data. eexists _, _. split; [reflexivity|]. split; [reflexivity|].
        split; [apply (read_tenant_a_skips self x data Hx Hd); lia|].
        right. repeat split; lia.
      * exists data. eexists _, _. split; [reflexivity|]. split; [reflexivity|].
        split; [apply (read_tenant_a_skips self x data Hx Hd); lia|].
        right. repeat split; lia.
    + left. assert (Hf : poll_fails (address_a self) x)
        by (right; now exists why).
      split; [exact Hf | now apply read_tenant_a_failed].
Qed.

Lemma read_tenant_b_result :
  (poll_fails (address_b self) x
   /\ read_tenant_b self x
      = (self, Some (zeros (energy_b self) (daily_energy_b self) (clock_now x))))
  \/ (exists data e d,
        uart_raises x = false
        /\ read_response (collected x) (address_b self) (clock_stamp x)
           = Decoded data
        /\ read_tenant_b self x
           = (set_meter_b self e d (clock_now x),
              Some (mkTenantData (voltage data) (current data) (power data) e
                      (frequency data) (power_factor data) (timestamp data) d
                      (d * Config.ENERGY_RATE_GHS)%Q))
        /\ ((0 < last_reading_b self
             /\ 0 < clock_now x - last_reading_b self <= 10
             /\ e = (energy_b self
                     + power data * inject_Z (clock_now x - last_reading_b self)
                       / 3600 / 1000)%Q
             /\ d = (daily_energy_b self
                     + power data * inject_Z (clock_now x - last_reading_b self)
                       / 3600 / 1000)%Q)
            \/ (~ (0 < last_reading_b self
                   /\ 0 < clock_now x - last_reading_b self <= 10)
                /\ e = energy_b self /\ d = daily_energy_b self))).
Proof.
  destruct (uart_raises x) eqn:Hx.
  - left. assert (Hf : poll_fails (address_b self) x) by (now left).
    split; [exact Hf | now apply read_tenant_b_failed].
  - destruct (read_response (collected x) (address_b self) (clock_stamp x))
      as [data|why] eqn:Hd.
    + right.
      destruct (Z_lt_dec 0 (last_reading_b self)) as [Hl|Hl];
        [destruct (Z_lt_dec 0 (clock_now x - last_reading_b self)) as [H0|H0];
         [destruct (Z_le_dec (clock_now x - last_reading_b self) 10)
           as [H1|H1]|]|].
      * exists data. eexists _, _. split; [reflexivity|]. split; [reflexivity|].
        split; [exact (read_tenant_b_integrates self x data Hx Hd Hl
                         (conj H0 H1))|].
        left. repeat split; assumption.
      * exists data. eexists _, _. split; [reflexivity|]. split; [reflexivity|].
        split; [apply (read_tenant_b_skips self x data Hx Hd); lia|].
        right. repeat split; lia.
      * exists data. eexists _, _. split; [reflexivity|]. split; [reflexivity|].
        split; [apply (read_tenant_b_skips self x data Hx Hd); lia|].
        right. repeat split; lia.
      * exists data. eexists _, _. split; [reflexivity|]. split; [reflexivity|].
        split; [apply (read_tenant_b_skips self x data Hx Hd); lia|].
        right. repeat split; lia.
    + left. assert (Hf : poll_fails (address_b self) x)
        by (right; now exists why).
      split; [exact Hf | now apply read_tenant_b_failed].
Qed.

End ReadResult.

(** ** Decoded readings are bounded *)

Lemma register_range (response : list Z) (k : nat) :
  is_bytes response = true -> 0 <= register response k <= 65535.
Proof.
  intros Hb. unfold register.
  pose proof (is_bytes_nth response (3 + 2 * k) Hb).
  pose proof (is_bytes_nth response (4 + 2 * k) Hb). lia.
Qed.

Lemma tenths_range (z : Z) :
  0 <= z <= 65535 -> (0 <= inject_Z z / 10 <= 65535 # 10)%Q.
Proof.
  intros Hz. unfold Qle, Qdiv, Qmult, Qinv, inject_Z. simpl. lia.
Qed.

Lemma thousandths_nonneg (z : Z) : 0 <= z -> (0 <= inject_Z z / 1000)%Q.
Proof. intros Hz. unfold Qle, Qdiv, Qmult, Qinv, inject_Z. simpl. lia. Qed.

Lemma clamp_range (raw : Q) : (0 <= py_min (py_max raw 0) 1 <= 1)%Q.
Proof.
  unfold py_min, py_max.
  destruct (Qlt_bool raw 0) eqn:E0.
  - assert (E1 : Qlt_bool 1 0 = false) by reflexivity. rewrite E1. lra.
  - apply Qlt_bool_false_iff in E0.
    destruct (Qlt_bool 1 raw) eqn:E1.
    + lra.
    + apply Qlt_bool_false_iff in E1. lra.
Qed.

Lemma decoded_bounds (response : list Z) (address now : Z)
    (data : Reading) :
  is_bytes response = true ->
  read_response response address now = Decoded data ->
  (0 <= voltage data <= 65535 # 10)%Q
  /\ (0 <= current data)%Q
  /\ (0 <= power data)%Q
  /\ (0 <= energy data)%Q
  /\ (0 <= frequency data <= 65535 # 10)%Q
  /\ (0 <= power_factor data <= 1)%Q.
Proof.
  intros Hb Hd. apply read_response_decoded in Hd as [_ ->].
  unfold extract_measurements.
  cbn [voltage current power energy frequency power_factor].
  change (nth 0 (map (register response) (seq 0 10)) 0)
    with (register response 0).
  change (nth 1 (map (register response) (seq 0 10)) 0)
    with (register response 1).
  change (nth 2 (map (register response) (seq 0 10)) 0)
    with (register response 2).
  change (nth 3 (map (register response) (seq 0 10)) 0)
    with (register response 3).
  change (nth 4 (map (register response) (seq 0 10)) 0)
    with (register response 4).
  change (nth 5 (map (register response) (seq 0 10)) 0)
    with (register response 5).
  change (nth 6 (map (register response) (seq 0 10)) 0)
    with (register response 6).
  change (nth 7 (map (register response) (seq 0 10)) 0)
    with (register response 7).
  change (nth 8 (map (register response) (seq 0 10)) 0)
    with (register response 8).
  assert (Hpair : forall hi lo,
             0 <= Z.lor (Z.shiftl (register response hi) 16)
                    (register response lo)).
  { intros hi lo. apply Z.lor_nonneg. split.
    - apply Z.shiftl_nonneg. now apply register_range.
    - now apply register_range. }
  split; [apply tenths_range; now apply register_range|].
  split; [apply thousandths_nonneg, Hpair|].
  split; [apply Qdiv10_nonneg, Hpair|].
  split; [change 0%Q with (inject_Z 0); rewrite <- Zle_Qle; apply Hpair|].
  split; [apply tenths_range; now apply register_range|].
  destruct (Qeq_bool _ 0 || Qeq_bool _ 0); [lra | apply clamp_range].
Qed.

(** X6. Every reading that [read_response] decodes from bytes has
    non-negative voltage, current, power, energy and frequency, a voltage and
    a frequency of at most 6553.5, and a power factor between 0 and 1. *)
Theorem decoded_reading_bounds (response : list Z) (address now : Z)
    (data : Reading) :
  is_bytes response = true ->
  read_response response address now = Decoded data ->
  (0 <= voltage data <= 65535 # 10)%Q
  /\ (0 <= current data)%Q
  /\ (0 <= power data)%Q
  /\ (0 <= energy data)%Q
  /\ (0 <= frequency data <= 65535 # 10)%Q
  /\ (0 <= power_factor data <= 1)%Q.
Proof. apply decoded_bounds. Qed.

Lemma decoded_reading_bounds_witness :
  exists data,
    read_response kilowatt_response_a 0x01 0 = Decoded data
    /\ (0 <= power_factor data <= 1)%Q.
Proof.
  assert (E : exists data, read_response kilowatt_response_a 0x01 0 = Decoded data)
    by (eexists; vm_compute; reflexivity).
  destruct E as [data E]. exists data. split; [exact E|].
  now destruct (decoded_reading_bounds kilowatt_response_a 0x01 0 data eq_refl E)
    as (_ & _ & _ & _ & _ & H).
Defined.

(** ** The validator on what the handler returns *)

Lemma handler_output (t : tenant) (self : PZEMHandler) (x : Exchange)
    (out : TenantData) :
  is_bytes (collected x) = true ->
  snd (read_tenant t self x) = Some out ->
  (0 <= td_voltage out)%Q /\ (0 <= td_current out)%Q
  /\ (0 <= td_power out)%Q /\ (0 <= td_frequency out)%Q
  /\ (0 <= td_power_factor out <= 1)%Q.
Proof.
  intros Hb Hout.
  assert (Hcases :
    (exists e d n, out = zeros e d n)
    \/ (exists address data e d,
          read_response (collected x) address (clock_stamp x) = Decoded data
          /\ out = mkTenantData (voltage data) (current data) (power data) e
                     (frequency data) (power_factor data) (timestamp data) d
                     (d * Config.ENERGY_RATE_GHS)%Q)).
  { destruct t; cbn [read_tenant] in Hout.
    - destruct (read_tenant_a_result self x)
        as [[_ E] | (data & e & d & _ & Hd & E & _)];
        rewrite E in Hout; cbn [snd] in Hout; apply some_inj in Hout;
        subst out; [left; eauto | right; eauto 6].
    - destruct (read_tenant_b_result self x)
        as [[_ E] | (data & e & d & _ & Hd & E & _)];
        rewrite E in Hout; cbn [snd] in Hout; apply some_inj in Hout;
        subst out; [left; eauto | right; eauto 6]. }
  destruct Hcases as [(e & d & n & ->) | (address & data & e & d & Hd & ->)].
  - cbn. repeat split; lra.
  - destruct (decoded_bounds _ _ _ _ Hb Hd) as (Hv & Hc & Hp & _ & Hf & Hpf).
    cbn. repeat split; lra.
Qed.

(** X7. Whatever a read operation returns for UART data that are bytes has
    non-negative voltage, current, power and frequency and a power factor in
    [0, 1]. So when [_validate_data] refuses it, the reason is never missing
    data nor the power factor; a current is refused only above 100 A and a
    power only above 25 kW. *)
Theorem handler_output_refusals (t : tenant) (self : PZEMHandler)
    (x : Exchange) (out : TenantData) (reason : ValidationReason) :
  is_bytes (collected x) = true ->
  snd (read_tenant t self x) = Some out ->
  _validate_data (Some out) = Invalid reason ->
  match reason with
  | NoData | PowerFactorRange _ => False
  | CurrentRange c => c = td_current out /\ (100 < c)%Q
  | PowerRange p => p = td_power out /\ (25000 < p)%Q
  | VoltageRange v => v = td_voltage out
  | FrequencyRange f => f = td_frequency out
  | PowerCrossCheck p _ => p = td_power out
  end.
Proof.
  intros Hb Hout.
  destruct (handler_output t self x out Hb Hout) as (Hv & Hc & Hp & Hf & Hpf).
  unfold _validate_data.
  repeat match goal with
         | |- context [if ?b then _ else _] => destruct b eqn:?
         end;
    reflect_tests; intros E; try discriminate;
    injection E as <-; repeat split; try reflexivity; try lra.
Qed.

Lemma handler_output_refusals_witness :
  let handler := mkHandler 0x01 0x02 0 0 0 0 100 0 in
  let x := exchange_at overpower_response 105 in
  exists out p,
    snd (read_tenant tenant_a handler x) = Some out
    /\ _validate_data (Some out) = Invalid (PowerRange p)
    /\ (25000 < p)%Q.
Proof.
  intros handler x.
  assert (E : exists out p,
            snd (read_tenant tenant_a handler x) = Some out
            /\ _validate_data (Some out) = Invalid (PowerRange p)).
  { eexists _, _. split; vm_compute; reflexivity. }
  destruct E as (out & p & Ho & Hv). exists out, p.
  split; [exact Ho|]. split; [exact Hv|].
  exact (proj2 (handler_output_refusals tenant_a handler x out _ eq_refl Ho Hv)).
Defined.


(** ** Reported totals, failed polls and counters *)

Lemma reported_totals_of (t : tenant) (self : PZEMHandler) (x : Exchange) :
  exists out, snd (read_tenant t self x) = Some out.
Proof.
  destruct t; cbn [read_tenant];
    [apply read_tenant_a_returns | apply read_tenant_b_returns].
Qed.

(** X8. A read operation always returns a dictionary, and the energy, daily
    energy and daily cost that it reports are the totals that the handler
    holds after the call (the cost being the daily energy times the rate),
    whether the poll succeeded or not. *)
Theorem reported_totals_are_stored (t : tenant) (self : PZEMHandler)
    (x : Exchange) :
  exists out,
    snd (read_tenant t self x) = Some out
    /\ let after := fst (read_tenant t self x) in
       match t with
       | tenant_a =>
           td_energy out = energy_a after
           /\ td_daily_energy out = daily_energy_a after
           /\ td_daily_cost out
              = (daily_energy_a after * Config.ENERGY_RATE_GHS)%Q
       | tenant_b =>
           td_energy out = energy_b after
           /\ td_daily_energy out = daily_energy_b after
           /\ td_daily_cost out
              = (daily_energy_b after * Config.ENERGY_RATE_GHS)%Q
       end.
Proof.
  destruct t; cbn [read_tenant].
  - destruct (read_tenant_a_result self x)
      as [[_ E] | (data & e & d & _ & _ & E & _)];
      rewrite E; eexists; (split; [reflexivity|]); cbn; repeat split.
  - destruct (read_tenant_b_result self x)
      as [[_ E] | (data & e & d & _ & _ & E & _)];
      rewrite E; eexists; (split; [reflexivity|]); cbn; repeat split.
Qed.

Lemma zeros_valid (e d : Q) (n : Z) : _validate_data (Some (zeros e d n)) = Valid.
Proof. reflexivity. Qed.

Lemma read_tenant_failed (t : tenant) (self : PZEMHandler) (x : Exchange) :
  poll_fails (address_of self t) x ->
  read_tenant t self x
  = (self,
     Some (match t with
           | tenant_a =>
               zeros (energy_a self) (daily_energy_a self) (clock_now x)
           | tenant_b =>
               zeros (energy_b self) (daily_energy_b self) (clock_now x)
           end)).
Proof.
  destruct t; cbn [address_of read_tenant]; intros Hf;
    [now apply read_tenant_a_failed | now apply read_tenant_b_failed].
Qed.

(** X9. A poll that fails at the handler (UART fault, no or short answer,
    wrong address, function, length or CRC) is reported by
    [_read_tenant_data] with status OK: the zero reading passes the
    validator, the success counter is incremented, the meter's failure streak
    is set to 0 and the zero reading becomes the last valid data. *)
Theorem failed_poll_counts_as_success (self : PZEMTestMonitor)
    (handler : PZEMHandler) (t : tenant) (x : Exchange) :
  pzem self = Some handler ->
  poll_fails (address_of handler t) x ->
  let result := _read_tenant_data self t x in
  let after := fst result in
  snd (snd result) = status_ok
  /\ (exists e d, fst (snd result) = Some (zeros e d (clock_now x)))
  /\ get (consecutive_errors after) t = 0
  /\ get (stats after) t = bump (get (stats self) t) r_success
  /\ get (last_valid_data after) t = fst (snd result)
  /\ pzem after = Some handler.
Proof.
  intros Hp Hf. cbv zeta. unfold _read_tenant_data. rewrite Hp.
  pose proof (read_tenant_failed t handler x Hf) as E.
  destruct t; cbn [read_tenant] in E; rewrite E; rewrite zeros_valid;
    cbn; repeat split; eauto.
Qed.

Lemma failed_poll_counts_as_success_witness :
  let self := monitor_with new_handler in
  snd (snd (_read_tenant_data self tenant_b (exchange_at [] 100))) = status_ok.
Proof.
  intros self.
  apply (failed_poll_counts_as_success self new_handler tenant_b
           (exchange_at [] 100) eq_refl).
  right. eexists. vm_compute. reflexivity.
Defined.

(** X10. [_read_tenant_data] never reports a timeout, because the read
    operations never return [None]; it reports an error exactly when the
    monitor holds no handler, and otherwise it returns the handler's
    dictionary with status OK or invalid. *)
Theorem timeout_is_never_reported (self : PZEMTestMonitor) (t : tenant)
    (x : Exchange) :
  let result := _read_tenant_data self t x in
  snd (snd result) <> status_timeout
  /\ (snd (snd result) = status_error <-> pzem self = None)
  /\ (fst (snd result) = None <-> pzem self = None)
  /\ (forall handler,
        pzem self = Some handler ->
        fst (snd result) = snd (read_tenant t handler x)
        /\ match _validate_data (snd (read_tenant t handler x)) with
           | Valid => snd (snd result) = status_ok
           | Invalid reason => snd (snd result) = status_invalid reason
           end).
Proof.
  cbv zeta. unfold _read_tenant_data.
  destruct (pzem self) as [handler|] eqn:Hp.
  - destruct (reported_totals_of t handler x) as [out Hout].
    change (match t with
            | tenant_a => read_tenant_a handler x
            | tenant_b => read_tenant_b handler x
            end) with (read_tenant t handler x).
    destruct (read_tenant t handler x) as [h' o] eqn:Er.
    cbn [snd] in Hout. subst o.
    destruct (_validate_data (Some out)) eqn:Ev; cbn [fst snd];
      (split; [discriminate|]); (split; [split; discriminate|]);
      (split; [split; discriminate|]);
      intros h Hh; apply some_inj in Hh; subst h; rewrite Er; cbn [snd];
      (split; [reflexivity|]); rewrite Ev; reflexivity.
  - cbn [fst snd]. split; [discriminate|]. repeat split; try reflexivity.
    all: discriminate.
Qed.

(** X11. Every call of [_read_tenant_data] adds exactly 1 to the sum of the
    four counters of the tenant polled, decreases none of them, and leaves
    the counters of the other tenant alone. *)
Theorem every_poll_is_counted (self : PZEMTestMonitor) (t : tenant)
    (x : Exchange) :
  let after := fst (_read_tenant_data self t x) in
  let other := match t with tenant_a => tenant_b | tenant_b => tenant_a end in
  total (get (stats after) t) = total (get (stats self) t) + 1
  /\ success (get (stats self) t) <= success (get (stats after) t)
  /\ error (get (stats self) t) <= error (get (stats after) t)
  /\ timeout (get (stats self) t) <= timeout (get (stats after) t)
  /\ invalid (get (stats self) t) <= invalid (get (stats after) t)
  /\ get (stats after) other = get (stats self) other.
Proof.
  cbv zeta. unfold _read_tenant_data.
  destruct (pzem self) as [handler|].
  - destruct t;
      [destruct (read_tenant_a handler x) as [h' [d|]]
      |destruct (read_tenant_b handler x) as [h' [d|]]];
      try destruct (_validate_data (Some d));
      unfold total; cbn; repeat split; lia.
  - destruct t; unfold total; cbn; repeat split; lia.
Qed.

(** ** Initialisation and restart *)

(** X12. The connectivity test cannot fail once a handler exists: it returns
    [True] for every handler and whatever the two meters answer (even
    nothing), and [False] only when the monitor holds no handler. *)
Theorem connectivity_test_cannot_fail (self : PZEMTestMonitor)
    (probe_a probe_b : Exchange) :
  snd (_test_connectivity self probe_a probe_b) = true <-> pzem self <> None.
Proof.
  unfold _test_connectivity.
  destruct (pzem self) as [handler|].
  - destruct (read_tenant_a_returns handler probe_a) as [da Ha].
    destruct (read_tenant_a handler probe_a) as [h1 oa].
    cbn [fst snd] in *. subst oa.
    destruct (read_tenant_b_returns h1 probe_b) as [db Hb].
    destruct (read_tenant_b h1 probe_b) as [h2 ob].
    cbn [fst snd] in *. subst ob. cbn. split; [discriminate | reflexivity].
  - cbn. split; [discriminate | intros H; now contradiction H].
Qed.

Lemma probed_totals (probe_a probe_b : Exchange) :
  energy_a (probed probe_a probe_b) = 0%Q
  /\ energy_b (probed probe_a probe_b) = 0%Q
  /\ daily_energy_a (probed probe_a probe_b) = 0%Q
  /\ daily_energy_b (probed probe_a probe_b) = 0%Q.
Proof.
  unfold probed.
  destruct (read_tenant_a_result new_handler probe_a)
    as [[_ Ea] | (da & ea & d_a & _ & _ & Ea & [(Hl & _) | (_ & -> & ->)])];
    rewrite Ea; cbn [fst]; [| cbn in Hl; lia |].
  - destruct (read_tenant_b_result new_handler probe_b)
      as [[_ Eb] | (db & eb & d_b & _ & _ & Eb & [(Hl & _) | (_ & -> & ->)])];
      rewrite Eb; cbn [fst]; [| cbn in Hl; lia |]; cbn; repeat split.
  - set (h1 := set_meter_a new_handler (energy_a new_handler)
                 (daily_energy_a new_handler) (clock_now probe_a)).
    destruct (read_tenant_b_result h1 probe_b)
      as [[_ Eb] | (db & eb & d_b & _ & _ & Eb & [(Hl & _) | (_ & -> & ->)])];
      rewrite Eb; cbn [fst]; [| cbn in Hl; lia |]; cbn; repeat split.
Qed.

(** X13. A restart that succeeds leaves the monitor with a new handler whose
    lifetime and daily accumulators are 0 for both meters, whatever was
    accumulated before; the statistics, the poll count, the last valid data
    and the time of the last daily reset are kept. *)
Theorem restart_discards_totals (self : PZEMTestMonitor)
    (env : nat -> InitAttempt) :
  let after := fst (_restart_pzem_handler self env) in
  running after = true ->
  (exists handler,
     pzem after = Some handler
     /\ energy_a handler = 0%Q /\ energy_b handler = 0%Q
     /\ daily_energy_a handler = 0%Q /\ daily_energy_b handler = 0%Q)
  /\ stats after = stats self
  /\ read_count after = read_count self
  /\ last_valid_data after = last_valid_data self
  /\ last_daily_reset after = last_daily_reset self.
Proof.
  cbv zeta. intros Hrun.
  destruct (restart_outcome self env) as (_ & _ & _ & _ & _ & _ & H).
  cbv zeta in H.
  destruct H as [(pa & pb & _ & _ & E) | (_ & _ & _ & E)];
    rewrite E in *; [|cbn in Hrun; discriminate].
  split; [|cbn; repeat split].
  exists (probed pa pb). split; [reflexivity|]. apply probed_totals.
Qed.

Lemma restart_discards_totals_witness :
  let self := monitor_with (mkHandler 0x01 0x02 (5 # 2) (7 # 2) (1 # 4) (3 # 4)
                              100 100) in
  let env := fun _ : nat =>
               ctor_ok (exchange_at kilowatt_response_a 200)
                 (exchange_at kilowatt_response_b 200) in
  exists handler,
    pzem (fst (_restart_pzem_handler self env)) = Some handler
    /\ energy_a handler = 0%Q /\ energy_b handler = 0%Q.
Proof.
  intros self env.
  destruct (restart_discards_totals self env) as [(h & Hp & Ha & Hb & _) _].
  - vm_compute. reflexivity.
  - exists h. repeat split; assumption.
Defined.

(** ** Latency windows and pacing *)

Lemma record_timing_step (window : list Z) (sample : Z) :
  (length window <= 10)%nat ->
  record_timing window sample
  = skipn (length (window ++ [sample]) - 10) (window ++ [sample]).
Proof.
  intros Hw. unfold record_timing. rewrite length_app. cbn [length].
  destruct (Nat.ltb_spec 10 (length window + 1)) as [H|H].
  - replace (length window + 1 - 10)%nat with 1%nat by lia.
    now destruct (window ++ [sample]).
  - replace (length window + 1 - 10)%nat with 0%nat by lia. reflexivity.
Qed.

(** X14. A latency window that holds at most 10 samples keeps, after any
    number of recordings, the most recent samples in their order: all of
    them while there are at most 10, and the last 10 after that, so it never
    grows beyond 10. *)
Theorem timing_window_keeps_last_ten (samples window : list Z) :
  (length window <= 10)%nat ->
  let final := fold_left record_timing samples window in
  final = skipn (length (window ++ samples) - 10) (window ++ samples)
  /\ (length final <= 10)%nat
  /\ length final = Nat.min 10 (length window + length samples).
Proof.
  revert window. induction samples as [|x samples IH]; intros window Hw final.
  - subst final. cbn [fold_left]. rewrite app_nil_r.
    replace (length window - 10)%nat with 0%nat by lia.
    cbn [skipn length]. split; [reflexivity|]. split; lia.
  - subst final. cbn [fold_left].
    set (w1 := record_timing window x).
    assert (E1 : w1 = skipn (length (window ++ [x]) - 10) (window ++ [x]))
      by (now apply record_timing_step).
    assert (L1 : (length w1 <= 10)%nat).
    { rewrite E1, length_skipn, length_app. cbn [length]. lia. }
    destruct (IH w1 L1) as (E & _). cbv zeta in E.
    assert (Eq : fold_left record_timing samples w1
                 = skipn (length (window ++ x :: samples) - 10)
                     (window ++ x :: samples)).
    { rewrite E.
      replace (window ++ x :: samples) with ((window ++ [x]) ++ samples)
        by (now rewrite <- app_assoc).
      assert (Hk : (length (window ++ [x]) - 10 <= length (window ++ [x]))%nat)
        by lia.
      assert (Ew : w1 ++ samples
                   = skipn (length (window ++ [x]) - 10)
                       ((window ++ [x]) ++ samples)).
      { rewrite skipn_app, <- E1.
        replace (length (window ++ [x]) - 10 - length (window ++ [x]))%nat
          with 0%nat by lia. reflexivity. }
      rewrite Ew, skipn_skipn. f_equal.
      rewrite length_skipn, !length_app. cbn [length]. lia. }
    split; [exact Eq|].
    rewrite Eq, length_skipn, length_app. cbn [length]. lia.
Qed.

Lemma timing_window_keeps_last_ten_witness :
  fold_left record_timing [11; 12; 13; 14; 15; 16; 17; 18; 19; 20; 21; 22] [9; 10]
  = [13; 14; 15; 16; 17; 18; 19; 20; 21; 22].
Proof.
  destruct (timing_window_keeps_last_ten
              [11; 12; 13; 14; 15; 16; 17; 18; 19; 20; 21; 22] [9; 10])
    as [E _]; [cbn; lia|].
  exact E.
Defined.

Lemma sleep_time_bounds (t : Z) :
  50 <= sleep_time t
  /\ 200 <= t + sleep_time t
  /\ (0 <= t -> sleep_time t <= 200)
  /\ (t <= 150 -> t + sleep_time t = 200)
  /\ (150 <= t -> sleep_time t = 50).
Proof.
  unfold sleep_time. destruct (Z.ltb_spec t 200); repeat split; lia.
Qed.

(** X15. A pass that runs to its end finishes by sleeping [sleep_time t]
    milliseconds, where [t] is the duration measured for the last polling
    block (that of this pass if it polled). The sleep is at least 50 ms and
    such that polling block and sleep together take at least 200 ms, exactly
    200 ms when the block took at most 150 ms; it is at most 200 ms for a
    non-negative duration. *)
Theorem pass_ends_with_bounded_sleep (self : PZEMTestMonitor)
    (cycle_time : option Z) (c : Cycle) :
  snd (run_pass self cycle_time c) = flow_next ->
  exists t,
    snd (fst (fst (run_pass self cycle_time c))) = Some t
    /\ (Config.SENSOR_READ_INTERVAL <= cycle_now c - last_reading self ->
        t = elapsed_ms c)
    /\ (cycle_now c - last_reading self < Config.SENSOR_READ_INTERVAL ->
        cycle_time = Some t)
    /\ last (snd (fst (run_pass self cycle_time c))) ev_restarting
       = ev_sleep_ms (sleep_time t)
    /\ 50 <= sleep_time t
    /\ 200 <= t + sleep_time t
    /\ (0 <= t -> sleep_time t <= 200)
    /\ (t <= 150 -> t + sleep_time t = 200).
Proof.
  unfold run_pass.
  destruct (Z.leb_spec Config.SENSOR_READ_INTERVAL
              (cycle_now c - last_reading self)) as [Hp|Hp].
  - destruct (polling_block self c) as [[m1 tr1] stop].
    destruct stop; [cbn; discriminate|].
    destruct (maintenance m1 c) as [m2 tr2]. cbn [fst snd]. intros _.
    exists (elapsed_ms c).
    destruct (sleep_time_bounds (elapsed_ms c)) as (B1 & B2 & B3 & B4 & _).
    split; [reflexivity|]. split; [reflexivity|]. split; [lia|].
    split; [|repeat split; assumption].
    rewrite app_assoc. apply last_last.
  - destruct (maintenance self c) as [m2 tr2].
    destruct cycle_time as [t|]; cbn [fst snd]; [intros _ | discriminate].
    exists t.
    destruct (sleep_time_bounds t) as (B1 & B2 & B3 & B4 & _).
    split; [reflexivity|]. split; [lia|]. split; [reflexivity|].
    split; [|repeat split; assumption].
    rewrite app_assoc. apply last_last.
Qed.

Lemma pass_ends_with_bounded_sleep_witness :
  exists t,
    snd (fst (fst (run_pass (monitor_with new_handler) None
                     (steady_cycle 100)))) = Some t
    /\ t + sleep_time t = 200.
Proof.
  destruct (pass_ends_with_bounded_sleep (monitor_with new_handler) None
              (steady_cycle 100))
    as (t & Ht & Hp & _ & _ & _ & _ & _ & H150).
  - vm_compute. reflexivity.
  - exists t. split; [exact Ht|]. apply H150.
    rewrite Hp; [vm_compute; discriminate | vm_compute; discriminate].
Defined.

(** ** Accumulation over many samples *)

Lemma last_cons_default {A} (z : A) (l : list A) (d d' : A) :
  last (z :: l) d = last (z :: l) d'.
Proof.
  revert z. induction l as [|y l IH]; intros z; [reflexivity|].
  change (last (y :: l) d = last (y :: l) d'). apply IH.
Qed.

Lemma read_all_a_integral (xs : list Exchange) : forall self : PZEMHandler,
  0 < last_reading_a self ->
  regular (address_a self) (last_reading_a self) xs ->
  let final := read_all_a self xs in
  (energy_a final
   == energy_a self + integral (address_a self) (last_reading_a self) xs)%Q
  /\ (daily_energy_a final
      == daily_energy_a self
         + integral (address_a self) (last_reading_a self) xs)%Q
  /\ last_reading_a final
     = last (map clock_now xs) (last_reading_a self)
  /\ energy_b final = energy_b self
  /\ daily_energy_b final = daily_energy_b self.
Proof.
  induction xs as [|x rest IH]; intros self Hl Hreg final; subst final.
  - cbn. repeat split; try reflexivity; ring.
  - cbn [regular] in Hreg. destruct Hreg as (Hx & [data Hd] & Hgap & Hrest).
    unfold read_all_a in *. cbn [fold_left integral map].
    pose proof (read_tenant_a_integrates self x data Hx Hd Hl Hgap) as E.
    cbv zeta in E. rewrite E. cbn [fst]. rewrite Hd. cbn [returned].
    set (inc := (power data * inject_Z (clock_now x - last_reading_a self)
                 / 3600 / 1000)%Q).
    set (h1 := set_meter_a self (energy_a self + inc)%Q
                 (daily_energy_a self + inc)%Q (clock_now x)).
    assert (Hl1 : 0 < last_reading_a h1) by (cbn; lia).
    destruct (IH h1 Hl1 Hrest) as (I1 & I2 & I3 & I4 & I5).
    cbn [h1 set_meter_a address_a last_reading_a energy_a daily_energy_a
           energy_b daily_energy_b] in I1, I2, I3, I4, I5.
    split; [rewrite I1; ring|]. split; [rewrite I2; ring|].
    split; [|split; assumption].
    rewrite I3. destruct (map clock_now rest) as [|z l]; [reflexivity|].
    change (last (clock_now x :: z :: l) (last_reading_a self))
      with (last (z :: l) (last_reading_a self)).
    apply last_cons_default.
Qed.

(** X16. When meter A is read over a run of exchanges that all decode, the
    first of them more than 0 and at most 10 s after a positive last sample
    time and each following one more than 0 and at most 10 s after the one
    before, its lifetime and daily accumulators both grow by the sum, over
    the samples, of the sample's power times the seconds since the previous
    sample, divided by 3 600 000; meter B's accumulators do not change. *)
Theorem energy_is_the_integral (self : PZEMHandler) (xs : list Exchange) :
  0 < last_reading_a self ->
  regular (address_a self) (last_reading_a self) xs ->
  let final := read_all_a self xs in
  (energy_a final
   == energy_a self + integral (address_a self) (last_reading_a self) xs)%Q
  /\ (daily_energy_a final
      == daily_energy_a self
         + integral (address_a self) (last_reading_a self) xs)%Q
  /\ last_reading_a final
     = last (map clock_now xs) (last_reading_a self)
  /\ energy_b final = energy_b self
  /\ daily_energy_b final = daily_energy_b self.
Proof. apply read_all_a_integral. Qed.

Lemma energy_is_the_integral_witness :
  let self := mkHandler 0x01 0x02 (1 # 2) 0 (1 # 4) 0 100 0 in
  let xs := [exchange_at kilowatt_response_a 105;
             exchange_at overpower_response 110;
             exchange_at kilowatt_response_a 120] in
  (energy_a (read_all_a self xs) == (1 # 2) + integral 0x01 100 xs)%Q
  /\ (integral 0x01 100 xs
      == (1000 * 5 + (262144 # 10) * 5 + 1000 * 10) / 3600000)%Q.
Proof.
  intros self xs.
  destruct (energy_is_the_integral self xs) as (H & _).
  - reflexivity.
  - cbn [regular xs]. repeat split; try reflexivity; try discriminate;
      try (eexists; vm_compute; reflexivity).
  - split; [exact H | vm_compute; reflexivity].
Defined.

(** ** The daily total never exceeds the lifetime total *)

Lemma read_tenant_a_ordered (self : PZEMHandler) (x : Exchange) :
  is_bytes (collected x) = true ->
  totals_ordered self -> totals_ordered (fst (read_tenant_a self x)).
Proof.
  intros Hb [[A1 A2] B]. unfold totals_ordered.
  destruct (read_tenant_a_result self x)
    as [[_ E] | (data & e & d & _ & Hd & E & Hcase)]; rewrite E; cbn [fst].
  - now repeat split.
  - cbn [set_meter_a energy_a daily_energy_a energy_b daily_energy_b].
    split; [|exact B].
    destruct Hcase as [(Hl & Hg & -> & ->) | (_ & -> & ->)]; [|now split].
    pose proof (decoded_power_nonneg _ _ _ _ Hb Hd) as Hp.
    pose proof (increment_nonneg _ _ Hp (proj1 Hg)). split; lra.
Qed.

Lemma read_tenant_b_ordered (self : PZEMHandler) (x : Exchange) :
  is_bytes (collected x) = true ->
  totals_ordered self -> totals_ordered (fst (read_tenant_b self x)).
Proof.
  intros Hb [A [B1 B2]]. unfold totals_ordered.
  destruct (read_tenant_b_result self x)
    as [[_ E] | (data & e & d & _ & Hd & E & Hcase)]; rewrite E; cbn [fst].
  - now repeat split.
  - cbn [set_meter_b energy_a daily_energy_a energy_b daily_energy_b].
    split; [exact A|].
    destruct Hcase as [(Hl & Hg & -> & ->) | (_ & -> & ->)]; [|now split].
    pose proof (decoded_power_nonneg _ _ _ _ Hb Hd) as Hp.
    pose proof (increment_nonneg _ _ Hp (proj1 Hg)). split; lra.
Qed.

(** X17. For UART data that are bytes, reads of either meter and daily
    resets keep, for both meters, the daily total between 0 and the lifetime
    total; this holds in particular from a newly constructed handler on. *)
Theorem daily_within_lifetime (self : PZEMHandler) (ops : list HandlerOp) :
  forallb op_bytes ops = true ->
  totals_ordered self ->
  totals_ordered (fold_left apply_op ops self)
  /\ totals_ordered new_handler.
Proof.
  intros Hops Hord. split.
  - revert self Hops Hord.
    induction ops as [|op ops IH]; intros self Hops Hord; [exact Hord|].
    cbn [forallb] in Hops. apply andb_true_iff in Hops as [Hop Hops].
    cbn [fold_left]. apply IH; [exact Hops|].
    destruct op as [x|x|]; cbn [apply_op op_bytes] in *.
    + now apply read_tenant_a_ordered.
    + now apply read_tenant_b_ordered.
    + destruct Hord as [[A1 A2] [B1 B2]]. unfold totals_ordered. cbn.
      repeat split; lra.
  - unfold totals_ordered. cbn. repeat split; lra.
Qed.

Lemma daily_within_lifetime_witness :
  totals_ordered
    (fold_left apply_op
       [op_read_a (exchange_at kilowatt_response_a 100);
        op_read_a (exchange_at kilowatt_response_a 105);
        op_reset_daily;
        op_read_a (exchange_at kilowatt_response_a 110)]
       new_handler).
Proof.
  apply daily_within_lifetime; [reflexivity|].
  unfold totals_ordered. cbn. repeat split; lra.
Defined.

(** ** The two meters do not interfere *)

Lemma read_tenant_a_depends (x : Exchange) :
  exists step : Z -> Q -> Q -> Z -> Q * Q * Z * option TenantData,
    forall self,
      read_tenant_a self x
      = (let '(e, d, t, out) :=
           step (address_a self) (energy_a self) (daily_energy_a self)
             (last_reading_a self) in
         (set_meter_a self e d t, out)).
Proof.
  exists (fun address e d last =>
            let r := read_tenant_a (mkHandler address 0 e 0 d 0 last 0) x in
            (energy_a (fst r), daily_energy_a (fst r), last_reading_a (fst r),
             snd r)).
  intros [aa ab ea eb da db la lb]. unfold read_tenant_a.
  cbn [address_a energy_a daily_energy_a last_reading_a].
  destruct (uart_raises x); [reflexivity|].
  destruct (returned (read_response (collected x) aa (clock_stamp x)));
    [|reflexivity].
  destruct (0 <? la); [|reflexivity].
  destruct ((0 <? clock_now x - la) && (clock_now x - la <=? 10)); reflexivity.
Qed.

Lemma read_tenant_b_depends (x : Exchange) :
  exists step : Z -> Q -> Q -> Z -> Q * Q * Z * option TenantData,
    forall self,
      read_tenant_b self x
      = (let '(e, d, t, out) :=
           step (address_b self) (energy_b self) (daily_energy_b self)
             (last_reading_b self) in
         (set_meter_b self e d t, out)).
Proof.
  exists (fun address e d last =>
            let r := read_tenant_b (mkHandler 0 address 0 e 0 d 0 last) x in
            (energy_b (fst r), daily_energy_b (fst r), last_reading_b (fst r),
             snd r)).
  intros [aa ab ea eb da db la lb]. unfold read_tenant_b.
  cbn [address_b energy_b daily_energy_b last_reading_b].
  destruct (uart_raises x); [reflexivity|].
  destruct (returned (read_response (collected x) ab (clock_stamp x)));
    [|reflexivity].
  destruct (0 <? lb); [|reflexivity].
  destruct ((0 <? clock_now x - lb) && (clock_now x - lb <=? 10)); reflexivity.
Qed.

(** X18. Reading meter A and reading meter B commute: the handler is the same
    whichever is read first, and what each read returns does not depend on
    whether the other meter was read before it. *)
Theorem meters_are_independent (self : PZEMHandler) (x y : Exchange) :
  fst (read_tenant_b (fst (read_tenant_a self x)) y)
  = fst (read_tenant_a (fst (read_tenant_b self y)) x)
  /\ snd (read_tenant_b (fst (read_tenant_a self x)) y)
     = snd (read_tenant_b self y)
  /\ snd (read_tenant_a (fst (read_tenant_b self y)) x)
     = snd (read_tenant_a self x).
Proof.
  destruct (read_tenant_a_depends x) as [step_a Ha].
  destruct (read_tenant_b_depends y) as [step_b Hb].
  rewrite (Ha self), (Hb self).
  destruct self as [aa ab ea eb da db la lb].
  cbn [address_a address_b energy_a energy_b daily_energy_a daily_energy_b
         last_reading_a last_reading_b].
  destruct (step_a aa ea da la) as [[[e1 d1] t1] o1] eqn:Ea.
  destruct (step_b ab eb db lb) as [[[e2 d2] t2] o2] eqn:Eb.
  cbn [fst]. rewrite Ha, Hb.
  cbn [set_meter_a set_meter_b address_a address_b energy_a energy_b
         daily_energy_a daily_energy_b last_reading_a last_reading_b].
  rewrite Ea, Eb. cbn. repeat split; reflexivity.
Qed.

(** ** The cross-check as a tolerance band *)



(** ** The failure streak is bounded *)

Section Streak.

Lemma read_streak (self : PZEMTestMonitor) (t : tenant) (x : Exchange) :
  let after := fst (_read_tenant_data self t x) in
  let other := match t with tenant_a => tenant_b | tenant_b => tenant_a end in
  get (consecutive_errors after) other = get (consecutive_errors self) other
  /\ (get (consecutive_errors after) t = 0
      \/ get (consecutive_errors after) t
         = get (consecutive_errors self) t + 1).
Proof.
  pose proof (read_tenant_data_streak self t x) as [Ho Hs]. cbv zeta in *.
  split; [exact Ho|].
  destruct (snd (snd (_read_tenant_data self t x))); tauto.
Qed.

Lemma two_reads_streak (m : PZEMTestMonitor) (xa xb : Exchange) (bound : Z) :
  (forall t, 0 <= get (consecutive_errors m) t <= bound) ->
  forall t,
    0 <= get (consecutive_errors
                (fst (_read_tenant_data (fst (_read_tenant_data m tenant_a xa))
                        tenant_b xb))) t
    <= bound + 1.
Proof.
  intros Hm t.
  pose proof (read_streak m tenant_a xa) as [Ab Aa].
  pose proof (read_streak (fst (_read_tenant_data m tenant_a xa)) tenant_b xb)
    as [Ba Bb].
  cbv zeta in *.
  pose proof (Hm tenant_a). pose proof (Hm tenant_b).
  destruct t; lia.
Qed.

Lemma maintenance_threshold (m : PZEMTestMonitor) (c : Cycle) :
  max_consecutive_errors (fst (maintenance m c)) = max_consecutive_errors m.
Proof.
  unfold maintenance, daily_reset_of.
  destruct (30 <=? cycle_now c - last_stats_print m);
    destruct (60 <=? cycle_now c - last_gc_run _);
    destruct (_should_reset_daily_counters _ _);
    destruct (pzem m) eqn:Ep; cbn; rewrite ?Ep; cbn;
    destruct (test_mode m && (read_count m mod 100 =? 0));
    cbn; rewrite ?Ep; reflexivity.
Qed.

Lemma polling_block_streaks (self : PZEMTestMonitor) (c : Cycle) :
  max_consecutive_errors self = 10 ->
  streaks_bounded self ->
  streaks_bounded (fst (fst (polling_block self c))).
Proof.
  intros Hmax Hb. unfold streaks_bounded in *. unfold polling_block.
  set (m := with_read_count self (read_count self + 1)).
  unfold _should_restart_handler.
  change (max_consecutive_errors m) with (max_consecutive_errors self).
  change (consecutive_errors m) with (consecutive_errors self).
  rewrite Hmax.
  destruct (Z.leb_spec 10 (get (consecutive_errors self) tenant_a)) as [Ha|Ha];
    [|destruct (Z.leb_spec 10 (get (consecutive_errors self) tenant_b))
        as [Hb10|Hb10]];
    cbn [orb].
  3:{ (* no restart: both streaks are at most 9 *)
    pose proof (two_reads_streak m (exchange_a c) (exchange_b c) 9) as H.
    destruct (_read_tenant_data m tenant_a (exchange_a c)) as [m1 r1].
    cbn [fst] in H.
    destruct (_read_tenant_data m1 tenant_b (exchange_b c)) as [m2 r2].
    cbn [fst] in *. intros t.
    assert (Hm : forall t0, 0 <= get (consecutive_errors m) t0 <= 9).
    { intros t0. change (consecutive_errors m) with (consecutive_errors self).
      pose proof (Hb t0). destruct t0; lia. }
    specialize (H Hm t). cbn. lia. }
  all: pose proof (restart_settings m (reinit c)) as (_ & _ & Hz & _);
    cbv zeta in Hz;
    destruct (_restart_pzem_handler m (reinit c)) as [m0 tr];
    cbn [fst snd] in *;
    destruct (running m0); cbn [negb];
    [ pose proof (two_reads_streak m0 (exchange_a c) (exchange_b c) 0) as H;
      destruct (_read_tenant_data m0 tenant_a (exchange_a c)) as [m1 r1];
      cbn [fst] in H;
      destruct (_read_tenant_data m1 tenant_b (exchange_b c)) as [m2 r2];
      cbn [fst] in *; intros t;
      assert (Hm : forall t0, 0 <= get (consecutive_errors m0) t0 <= 0)
        by (intros t0; rewrite Hz; destruct t0; cbn; lia);
      specialize (H Hm t); cbn; lia
    | cbn [fst]; intros t; rewrite Hz; destruct t; cbn; lia ].
Qed.

Lemma run_pass_streaks (self : PZEMTestMonitor) (cycle_time : option Z)
    (c : Cycle) :
  max_consecutive_errors self = 10 ->
  streaks_bounded self ->
  let after := fst (fst (fst (run_pass self cycle_time c))) in
  max_consecutive_errors after = 10 /\ streaks_bounded after.
Proof.
  intros Hmax Hb. cbv zeta. unfold run_pass.
  destruct (Config.SENSOR_READ_INTERVAL <=? cycle_now c - last_reading self).
  - pose proof (polling_block_streaks self c Hmax Hb) as Hs.
    pose proof (polling_block_outcome self c) as ((_ & _ & Hm) & _).
    cbv zeta in Hm.
    destruct (polling_block self c) as [[m1 tr1] stop]. cbn [fst snd] in *.
    destruct stop; [cbn [fst]; split; [congruence | exact Hs]|].
    pose proof (maintenance_frame c m1) as (_ & _ & Hc & _).
    pose proof (maintenance_threshold m1 c) as Ht. cbv zeta in Hc.
    destruct (maintenance m1 c) as [m2 tr2]. cbn [fst snd] in *.
    assert (R : max_consecutive_errors m2 = 10 /\ streaks_bounded m2).
    { split; [congruence|]. unfold streaks_bounded in *. now rewrite Hc. }
    now destruct (Some (elapsed_ms c)).
  - pose proof (maintenance_frame c self) as (_ & _ & Hc & _).
    pose proof (maintenance_threshold self c) as Ht. cbv zeta in Hc.
    destruct (maintenance self c) as [m2 tr2]. cbn [fst snd] in *.
    assert (R : max_consecutive_errors m2 = 10 /\ streaks_bounded m2).
    { split; [congruence|]. unfold streaks_bounded in *. now rewrite Hc. }
    now destruct cycle_time.
Qed.

End Streak.

(** X20. In the loop the failure streak of a meter never exceeds the restart
    threshold: from a monitor whose threshold is 10 and whose two streaks lie
    between 0 and 10 (as after construction), both streaks lie between 0 and
    10 after every pass and at the end of every run of the loop. *)
Theorem streak_never_exceeds_threshold (cycles : list Cycle)
    (self : PZEMTestMonitor) (cycle_time : option Z) :
  max_consecutive_errors self = 10 ->
  streaks_bounded self ->
  streaks_bounded (fst (fst (run_loop self cycle_time cycles)))
  /\ (forall c, streaks_bounded (fst (fst (fst (run_pass self cycle_time c))))).
Proof.
  intros Hmax Hb. split.
  - revert self cycle_time Hmax Hb.
    induction cycles as [|c rest IH]; intros self cycle_time Hmax Hb;
      [exact Hb|].
    cbn [run_loop]. destruct (running self); [|exact Hb].
    pose proof (run_pass_streaks self cycle_time c Hmax Hb) as [Hm Hs].
    cbv zeta in *.
    destruct (run_pass self cycle_time c) as [[[m1 ct1] tr1] flow].
    cbn [fst snd] in *.
    destruct flow; try exact Hs.
    specialize (IH m1 ct1 Hm Hs).
    destruct (run_loop m1 ct1 rest) as [[m2 later] n]. exact IH.
  - intros c. apply (run_pass_streaks self cycle_time c Hmax Hb).
Qed.

Lemma streak_never_exceeds_threshold_witness :
  streaks_bounded
    (fst (fst (run_loop (monitor_with new_handler) None
                 (failing_cycles 1001 25)))).
Proof.
  assert (H : streaks_bounded (monitor_with new_handler))
    by (intros t; destruct t; cbn; lia).
  exact (proj1 (streak_never_exceeds_threshold (failing_cycles 1001 25)
                  (monitor_with new_handler) None eq_refl H)).
Defined.

(** ** Polling cadence and counters in the loop *)

Section Cadence.

Lemma maintenance_counters (m : PZEMTestMonitor) (c : Cycle) :
  let m' := fst (maintenance m c) in
  stats m' = stats m
  /\ read_count m' = read_count m
  /\ last_valid_data m' = last_valid_data m
  /\ (pzem m' = pzem m
      \/ exists handler,
           pzem m = Some handler
           /\ pzem m' = Some (reset_daily_counters handler)).
Proof.
  unfold maintenance, daily_reset_of.
  destruct (30 <=? cycle_now c - last_stats_print m);
    destruct (60 <=? cycle_now c - last_gc_run _);
    destruct (_should_reset_daily_counters _ _);
    destruct (pzem m) as [handler|] eqn:Ep; cbn; rewrite ?Ep; cbn;
    destruct (test_mode m && (read_count m mod 100 =? 0));
    cbn; rewrite ?Ep; cbn; repeat split; auto;
    right; exists handler; split; reflexivity.
Qed.

Lemma restart_stats (m : PZEMTestMonitor) (env : nat -> InitAttempt) :
  stats (fst (_restart_pzem_handler m env)) = stats m.
Proof.
  destruct (restart_outcome m env) as (_ & _ & _ & _ & _ & _ & H).
  cbv zeta in H.
  destruct H as [(pa & pb & _ & _ & ->) | (_ & _ & _ & ->)]; reflexivity.
Qed.

Lemma read_total (self : PZEMTestMonitor) (t : tenant) (x : Exchange) :
  let after := fst (_read_tenant_data self t x) in
  let other := match t with tenant_a => tenant_b | tenant_b => tenant_a end in
  total (get (stats after) t) = total (get (stats self) t) + 1
  /\ get (stats after) other = get (stats self) other.
Proof.
  cbv zeta. unfold _read_tenant_data.
  destruct (pzem self) as [handler|].
  - destruct t;
      [destruct (read_tenant_a handler x) as [h' [d|]]
      |destruct (read_tenant_b handler x) as [h' [d|]]];
      try destruct (_validate_data (Some d));
      unfold total; cbn; split; try reflexivity; lia.
  - destruct t; unfold total; cbn; split; try reflexivity; lia.
Qed.

Lemma polling_block_totals (self : PZEMTestMonitor) (c : Cycle) :
  let after := fst (fst (polling_block self c)) in
  let stop := snd (polling_block self c) in
  let polled := if stop then 0 else 1 in
  total (get (stats after) tenant_a)
  = total (get (stats self) tenant_a) + polled
  /\ total (get (stats after) tenant_b)
     = total (get (stats self) tenant_b) + polled.
Proof.
  cbv zeta. unfold polling_block.
  set (m := with_read_count self (read_count self + 1)).
  assert (Hreads : forall m0,
            stats m0 = stats self ->
            let m2 := fst (_read_tenant_data
                             (fst (_read_tenant_data m0 tenant_a (exchange_a c)))
                             tenant_b (exchange_b c)) in
            total (get (stats m2) tenant_a)
            = total (get (stats self) tenant_a) + 1
            /\ total (get (stats m2) tenant_b)
               = total (get (stats self) tenant_b) + 1).
  { intros m0 Hs. cbv zeta.
    pose proof (read_total m0 tenant_a (exchange_a c)) as [A1 A2].
    pose proof (read_total (fst (_read_tenant_data m0 tenant_a (exchange_a c)))
                  tenant_b (exchange_b c)) as [B1 B2].
    cbv zeta in *. rewrite Hs in *. split; congruence. }
  destruct (_should_restart_handler m tenant_a
            || _should_restart_handler m tenant_b).
  - pose proof (restart_stats m (reinit c)) as Hs.
    specialize (Hreads (fst (_restart_pzem_handler m (reinit c))) Hs).
    destruct (_restart_pzem_handler m (reinit c)) as [m0 tr].
    cbn [fst snd] in *. destruct (running m0); cbn [negb].
    + cbv zeta in Hreads.
      destruct (_read_tenant_data m0 tenant_a (exchange_a c)) as [m1 r1].
      cbn [fst] in Hreads.
      destruct (_read_tenant_data m1 tenant_b (exchange_b c)) as [m2 r2].
      cbn [fst snd] in *. exact Hreads.
    + cbn [fst snd]. rewrite Hs. cbn. split; lia.
  - specialize (Hreads m eq_refl). cbv zeta in Hreads.
    destruct (_read_tenant_data m tenant_a (exchange_a c)) as [m1 r1].
    cbn [fst] in Hreads.
    destruct (_read_tenant_data m1 tenant_b (exchange_b c)) as [m2 r2].
    cbn [fst snd] in *. exact Hreads.
Qed.

Lemma run_pass_totals (self : PZEMTestMonitor) (cycle_time : option Z)
    (c : Cycle) :
  let after := fst (fst (fst (run_pass self cycle_time c))) in
  exists polled,
    0 <= polled <= 1
    /\ total (get (stats after) tenant_a)
       = total (get (stats self) tenant_a) + polled
    /\ total (get (stats after) tenant_b)
       = total (get (stats self) tenant_b) + polled.
Proof.
  cbv zeta. unfold run_pass.
  destruct (Config.SENSOR_READ_INTERVAL <=? cycle_now c - last_reading self).
  - pose proof (polling_block_totals self c) as H. cbv zeta in H.
    destruct (polling_block self c) as [[m1 tr1] stop]. cbn [fst snd] in *.
    destruct stop; [exists 0; cbn [fst]; split; [lia | exact H]|].
    pose proof (maintenance_counters m1 c) as (Hs & _). cbv zeta in Hs.
    destruct (maintenance m1 c) as [m2 tr2]. cbn [fst snd] in *.
    exists 1. rewrite Hs. split; [lia | exact H].
  - pose proof (maintenance_counters self c) as (Hs & _). cbv zeta in Hs.
    destruct (maintenance self c) as [m2 tr2]. cbn [fst snd] in *.
    exists 0. destruct cycle_time; cbn [fst]; rewrite Hs; split; lia.
Qed.

End Cadence.

(** X21. The two meters are always polled together: over any run of the
    loop the sum of the four counters grows by the same number for tenant A
    and for tenant B, and this number is at most the number of passes. *)
Theorem meters_polled_equally (cycles : list Cycle) (self : PZEMTestMonitor)
    (cycle_time : option Z) :
  let final := fst (fst (run_loop self cycle_time cycles)) in
  exists polled,
    0 <= polled <= Z.of_nat (length cycles)
    /\ total (get (stats final) tenant_a)
       = total (get (stats self) tenant_a) + polled
    /\ total (get (stats final) tenant_b)
       = total (get (stats self) tenant_b) + polled.
Proof.
  cbv zeta. revert self cycle_time.
  induction cycles as [|c rest IH]; intros self cycle_time.
  - exists 0. cbn. split; lia.
  - cbn [run_loop].
    destruct (running self);
      [|exists 0; cbn [fst length]; split; lia].
    destruct (run_pass_totals self cycle_time c) as (p1 & Hp1 & A1 & B1).
    cbv zeta in A1, B1.
    destruct (run_pass self cycle_time c) as [[[m1 ct1] tr1] flow].
    cbn [fst snd] in *.
    destruct flow;
      try (exists p1; cbn [fst length]; split; [lia | split; assumption]).
    destruct (IH m1 ct1) as (p2 & Hp2 & A2 & B2).
    destruct (run_loop m1 ct1 rest) as [[m2 later] n]. cbn [fst snd] in *.
    exists (p1 + p2). cbn [length]. split; [lia|]. split; lia.
Qed.

(** X22. A pass that comes less than [SENSOR_READ_INTERVAL] (1 s) after the
    last poll does not poll: the poll count, the statistics, the failure
    streaks, the last valid data and the time of the last poll are unchanged,
    nothing is restarted, and the handler is changed by a daily reset at
    most. A pass that polls without leaving the loop records its time as the
    time of the last poll and adds 1 to the poll count. *)
Theorem polling_cadence (self : PZEMTestMonitor) (cycle_time : option Z)
    (c : Cycle) :
  let result := run_pass self cycle_time c in
  let after := fst (fst (fst result)) in
  (cycle_now c - last_reading self < Config.SENSOR_READ_INTERVAL ->
   read_count after = read_count self
   /\ stats after = stats self
   /\ consecutive_errors after = consecutive_errors self
   /\ last_valid_data after = last_valid_data self
   /\ last_reading after = last_reading self
   /\ restarts (snd (fst result)) = false
   /\ snd result <> flow_break
   /\ (pzem after = pzem self
       \/ exists handler,
            pzem self = Some handler
            /\ pzem after = Some (reset_daily_counters handler)))
  /\ (Config.SENSOR_READ_INTERVAL <= cycle_now c - last_reading self ->
      snd result <> flow_break ->
      last_reading after = cycle_now c
      /\ read_count after = read_count self + 1).
Proof.
  cbv zeta. unfold run_pass.
  destruct (Z.leb_spec Config.SENSOR_READ_INTERVAL
              (cycle_now c - last_reading self)) as [Hp|Hp].
  - split; [intros Hi; lia|]. intros _.
    pose proof (polling_block_outcome self c)
      as (_ & Hrc & _ & _ & _ & _ & Hgo).
    cbv zeta in *.
    destruct (polling_block self c) as [[m1 tr1] stop]. cbn [fst snd] in *.
    destruct stop; [cbn; intros H; now contradiction H|].
    destruct (Hgo eq_refl) as (Hl & _).
    pose proof (maintenance_frame c m1) as (_ & F2 & _).
    pose proof (maintenance_counters m1 c) as (_ & R & _).
    cbv zeta in *.
    destruct (maintenance m1 c) as [m2 tr2]. cbn [fst snd] in *.
    intros _. split; congruence.
  - split; [intros _ | intros Hi; lia].
    pose proof (maintenance_frame c self) as (_ & F2 & F3 & _ & F5).
    pose proof (maintenance_counters self c) as (S1 & S2 & S3 & S4).
    cbv zeta in *.
    destruct (maintenance self c) as [m2 tr2]. cbn [fst snd] in *.
    destruct cycle_time as [t|]; cbn [fst snd app];
      rewrite ?restarts_app, F5; cbn;
      repeat (split; [first [assumption | reflexivity | discriminate]|]);
      exact S4.
Qed.

Lemma polling_cadence_witness :
  let first := run_pass (monitor_with new_handler) None (steady_cycle 100) in
  let self := fst (fst (fst first)) in
  let again := run_pass self (snd (fst (fst first))) (steady_cycle 100) in
  read_count self = 1 /\ read_count (fst (fst (fst again))) = 1.
Proof.
  intros first self again.
  destruct (polling_cadence (monitor_with new_handler) None (steady_cycle 100))
    as [_ H1].
  destruct (polling_cadence self (snd (fst (fst first))) (steady_cycle 100))
    as [H2 _].
  destruct H1 as [_ R1]; [vm_compute; discriminate | vm_compute; discriminate|].
  destruct H2 as (R2 & _); [vm_compute; reflexivity|].
  fold first in R1. fold self in R1. fold again in R2.
  split; [exact R1 | rewrite R2; exact R1].
Defined.
